(** * Host controller driver for the Synopsys DWC2 core (hcd_dwc2.c)

    A shallow embedding of the slave-mode host driver: the endpoint table,
    the channel pool, transfer submission, the channel interrupt handler and
    the two FIFO handlers, followed by the properties checked against it.

    Conventions.
    - The global [_hcd_data] and the register block [dwc2_regs_t] are passed
      explicitly and returned by every function that writes them.
    - The bit-field structs of dwc2_type.h ([dwc2_channel_char_t],
      [dwc2_channel_tsize_t], ...) are records, one field per bit-field the
      driver names; the raw word of the same union is the same record.  A
      value stored in a field is assumed to fit it: the widths are declared in
      dwc2_type.h and are not part of this file.  The exception is HCTSIZ,
      which [hcd_edpt_xfer] writes as one 32-bit word built by shifts from
      values that need not fit: that word is [hctsiz_word], and the fields
      the core then shows are [hctsiz_bm] of it.
    - Enumerations are inductive types; interrupt masks are finite sets of
      named flags ([|] is union, [& ~] is difference, [&] is intersection).
    - Unsigned integers are [Z] with the wrap-around written where the C code
      can wrap; array indices are [nat]. *)

From Stdlib Require Import ZArith List Bool Lia.
From stdpp Require Import base decidable countable gmap list.

Local Open Scope Z_scope.

(** ** Constants of the driver *)

Definition CFG_TUH_DWC2_ENDPOINT_MAX : nat := 16.
Definition DWC2_CHANNEL_COUNT_MAX : Z := 16.
Definition HCD_XFER_ERROR_MAX : Z := 3.

(** ** Enumerations *)

Inductive tusb_dir_t := TUSB_DIR_OUT | TUSB_DIR_IN.

Inductive tusb_xfer_type_t :=
  | TUSB_XFER_CONTROL | TUSB_XFER_ISOCHRONOUS | TUSB_XFER_BULK | TUSB_XFER_INTERRUPT.

Inductive tusb_speed_t :=
  | TUSB_SPEED_FULL | TUSB_SPEED_LOW | TUSB_SPEED_HIGH | TUSB_SPEED_INVALID.

Inductive hctsiz_pid_t :=
  | HCTSIZ_PID_DATA0 | HCTSIZ_PID_DATA2 | HCTSIZ_PID_DATA1 | HCTSIZ_PID_SETUP.

Inductive hcd_xfer_state_t :=
  | HCD_XFER_STATE_UNALLOCATED | HCD_XFER_STATE_ACTIVE | HCD_XFER_STATE_DISABLING.

Inductive xfer_result_t :=
  | XFER_RESULT_SUCCESS | XFER_RESULT_FAILED | XFER_RESULT_STALLED
  | XFER_RESULT_TIMEOUT | XFER_RESULT_INVALID.

Inductive ghwcfg2_arch_t :=
  | GHWCFG2_ARCH_SLAVE_ONLY | GHWCFG2_ARCH_EXTERNAL_DMA | GHWCFG2_ARCH_INTERNAL_DMA.

Inductive grxsts_pktsts_t :=
  | GRXSTS_PKTSTS_RX_DATA | GRXSTS_PKTSTS_RX_COMPLETE
  | GRXSTS_PKTSTS_HOST_DATATOGGLE_ERR | GRXSTS_PKTSTS_HOST_CHANNEL_HALTED
  | GRXSTS_PKTSTS_OTHER.

(** Flags of the per-channel interrupt register HCINT / HCINTMSK. *)
Inductive hcint_flag :=
  | HCINT_XFER_COMPLETE | HCINT_CHANNEL_HALTED | HCINT_AHB_ERR | HCINT_STALL
  | HCINT_NAK | HCINT_ACK | HCINT_NYET | HCINT_XACT_ERR | HCINT_BABBLE_ERR
  | HCINT_FRAME_OVERRUN | HCINT_DATATOGGLE_ERR.

(** Flags of the global interrupt mask GINTMSK the driver touches. *)
Inductive gint_flag :=
  | GINTSTS_OTGINT | GINTSTS_CONIDSTSCHNG | GINTSTS_HPRTINT | GINTSTS_HCINT
  | GINTSTS_NPTX_FIFO_EMPTY | GINTSTS_PTX_FIFO_EMPTY | GINTSTS_RXFLVL.

#[global] Instance tusb_dir_eq_dec : EqDecision tusb_dir_t.
Proof. solve_decision. Defined.
#[global] Instance tusb_xfer_type_eq_dec : EqDecision tusb_xfer_type_t.
Proof. solve_decision. Defined.
#[global] Instance hctsiz_pid_eq_dec : EqDecision hctsiz_pid_t.
Proof. solve_decision. Defined.
#[global] Instance hcd_xfer_state_eq_dec : EqDecision hcd_xfer_state_t.
Proof. solve_decision. Defined.
#[global] Instance xfer_result_eq_dec : EqDecision xfer_result_t.
Proof. solve_decision. Defined.
#[global] Instance ghwcfg2_arch_eq_dec : EqDecision ghwcfg2_arch_t.
Proof. solve_decision. Defined.
#[global] Instance hcint_flag_eq_dec : EqDecision hcint_flag.
Proof. solve_decision. Defined.
#[global] Instance gint_flag_eq_dec : EqDecision gint_flag.
Proof. solve_decision. Defined.

Definition hcint_flag_code (f : hcint_flag) : nat :=
  match f with
  | HCINT_XFER_COMPLETE => 0 | HCINT_CHANNEL_HALTED => 1 | HCINT_AHB_ERR => 2
  | HCINT_STALL => 3 | HCINT_NAK => 4 | HCINT_ACK => 5 | HCINT_NYET => 6
  | HCINT_XACT_ERR => 7 | HCINT_BABBLE_ERR => 8 | HCINT_FRAME_OVERRUN => 9
  | HCINT_DATATOGGLE_ERR => 10
  end%nat.

Definition hcint_flag_decode (n : nat) : hcint_flag :=
  match n with
  | 0 => HCINT_XFER_COMPLETE | 1 => HCINT_CHANNEL_HALTED | 2 => HCINT_AHB_ERR
  | 3 => HCINT_STALL | 4 => HCINT_NAK | 5 => HCINT_ACK | 6 => HCINT_NYET
  | 7 => HCINT_XACT_ERR | 8 => HCINT_BABBLE_ERR | 9 => HCINT_FRAME_OVERRUN
  | _ => HCINT_DATATOGGLE_ERR
  end%nat.

#[global] Instance hcint_flag_countable : Countable hcint_flag.
Proof.
  refine (inj_countable' hcint_flag_code hcint_flag_decode _).
  intros []; reflexivity.
Defined.

Definition gint_flag_code (f : gint_flag) : nat :=
  match f with
  | GINTSTS_OTGINT => 0 | GINTSTS_CONIDSTSCHNG => 1 | GINTSTS_HPRTINT => 2
  | GINTSTS_HCINT => 3 | GINTSTS_NPTX_FIFO_EMPTY => 4
  | GINTSTS_PTX_FIFO_EMPTY => 5 | GINTSTS_RXFLVL => 6
  end%nat.

Definition gint_flag_decode (n : nat) : gint_flag :=
  match n with
  | 0 => GINTSTS_OTGINT | 1 => GINTSTS_CONIDSTSCHNG | 2 => GINTSTS_HPRTINT
  | 3 => GINTSTS_HCINT | 4 => GINTSTS_NPTX_FIFO_EMPTY
  | 5 => GINTSTS_PTX_FIFO_EMPTY | _ => GINTSTS_RXFLVL
  end%nat.

#[global] Instance gint_flag_countable : Countable gint_flag.
Proof.
  refine (inj_countable' gint_flag_code gint_flag_decode _).
  intros []; reflexivity.
Defined.

(** ** Endpoint addresses and descriptors

    An endpoint address byte is kept as the two parts the driver takes it
    apart into with [tu_edpt_number] and [tu_edpt_dir], and puts together
    again with [tu_edpt_addr]. *)

Record ep_addr_t := tu_edpt_addr { tu_edpt_number : Z; tu_edpt_dir : tusb_dir_t }.

Record tusb_desc_endpoint_t := {
  bEndpointAddress : ep_addr_t;
  bmAttributes_xfer : tusb_xfer_type_t;
  wMaxPacketSize : Z
}.

(** Modelled from the spec: tu_edpt_packet_size of tusb_types.h, which is not
    part of this file; the negotiated max packet size of the descriptor, the
    low eleven bits of wMaxPacketSize. *)
Definition tu_edpt_packet_size (desc_ep : tusb_desc_endpoint_t) : Z :=
  Z.land (wMaxPacketSize desc_ep) 0x7FF.

Record hcd_devtree_info_t := {
  rhport : Z;
  hub_addr : Z;
  hub_port : Z;
  speed : tusb_speed_t
}.

(** ** Register bit-fields *)

Record dwc2_channel_char_t := {
  ep_size : Z;
  ep_num : Z;
  ep_dir : tusb_dir_t;
  low_speed_dev : bool;
  ep_type : tusb_xfer_type_t;
  err_multi_count : Z;
  dev_addr : Z;
  odd_frame : Z;
  disable : bool;
  enable : bool
}.

Record dwc2_channel_split_t := {
  split_hub_port : Z;
  split_hub_addr : Z;
  xact_pos : Z;
  split_compl : bool;
  split_en : bool
}.

Record dwc2_channel_tsize_t := {
  xfer_size : Z;
  packet_count : Z;
  pid : hctsiz_pid_t
}.

Record dwc2_txsts_t := {
  fifo_available : Z;
  req_queue_available : Z
}.

Record dwc2_grxstsp_t := {
  ep_ch_num : nat;
  byte_count : Z;
  packet_status : grxsts_pktsts_t
}.

#[global] Instance dwc2_channel_char_eq_dec : EqDecision dwc2_channel_char_t.
Proof. solve_decision. Defined.
#[global] Instance dwc2_channel_split_eq_dec : EqDecision dwc2_channel_split_t.
Proof. solve_decision. Defined.

(** The all-zero words left by [tu_memclr]. *)
Definition hcchar_zero : dwc2_channel_char_t :=
  {| ep_size := 0; ep_num := 0; ep_dir := TUSB_DIR_OUT; low_speed_dev := false;
     ep_type := TUSB_XFER_CONTROL; err_multi_count := 0; dev_addr := 0;
     odd_frame := 0; disable := false; enable := false |}.

Definition hcsplt_zero : dwc2_channel_split_t :=
  {| split_hub_port := 0; split_hub_addr := 0; xact_pos := 0;
     split_compl := false; split_en := false |}.

Definition hctsiz_zero : dwc2_channel_tsize_t :=
  {| xfer_size := 0; packet_count := 0; pid := HCTSIZ_PID_DATA0 |}.

(** ** Driver data: [hcd_endpoint_t], [hcd_xfer_t], [hcd_data_t] *)

Record hcd_endpoint_t := {
  edpt_hcchar : dwc2_channel_char_t;
  edpt_hcsplt : dwc2_channel_split_t;
  next_data_toggle : hctsiz_pid_t
}.

Record hcd_xfer_t := {
  state : hcd_xfer_state_t;
  err_count : Z;
  buffer : Z;
  total_bytes : Z
}.

Record hcd_data_t := {
  xfer : list hcd_xfer_t;
  edpt : list hcd_endpoint_t
}.

#[global] Instance hcd_endpoint_eq_dec : EqDecision hcd_endpoint_t.
Proof. solve_decision. Defined.
#[global] Instance hcd_xfer_eq_dec : EqDecision hcd_xfer_t.
Proof. solve_decision. Defined.

Definition hcd_endpoint_zero : hcd_endpoint_t :=
  {| edpt_hcchar := hcchar_zero; edpt_hcsplt := hcsplt_zero;
     next_data_toggle := HCTSIZ_PID_DATA0 |}.

Definition hcd_xfer_zero : hcd_xfer_t :=
  {| state := HCD_XFER_STATE_UNALLOCATED; err_count := 0; buffer := 0;
     total_bytes := 0 |}.

(** [tu_memclr(&_hcd_data, sizeof(_hcd_data))] in [hcd_init]. *)
Definition hcd_data_init : hcd_data_t :=
  {| xfer := replicate (Z.to_nat DWC2_CHANNEL_COUNT_MAX) hcd_xfer_zero;
     edpt := replicate CFG_TUH_DWC2_ENDPOINT_MAX hcd_endpoint_zero |}.

Definition xfer_at (d : hcd_data_t) (ch_id : nat) : hcd_xfer_t :=
  default hcd_xfer_zero (xfer d !! ch_id).

Definition edpt_at (d : hcd_data_t) (i : nat) : hcd_endpoint_t :=
  default hcd_endpoint_zero (edpt d !! i).

Definition set_xfer (d : hcd_data_t) (ch_id : nat) (x : hcd_xfer_t) : hcd_data_t :=
  {| xfer := <[ch_id := x]> (xfer d); edpt := edpt d |}.

Definition set_edpt (d : hcd_data_t) (i : nat) (e : hcd_endpoint_t) : hcd_data_t :=
  {| xfer := xfer d; edpt := <[i := e]> (edpt d) |}.

(** The first index of [start, start + n) at which [P] holds: the shape of
    every [for (i = 0; i < max; i++) if (...) return i;] scan of the driver.
    [None] is TUSB_INDEX_INVALID_8. *)
Fixpoint first_index (P : nat -> bool) (start n : nat) : option nat :=
  match n with
  | O => None
  | S n' => if P start then Some start else first_index P (S start) n'
  end.

(** ** Endpoint table *)

(** Find an endpoint opened with [hcd_edpt_open]; EP0 is bidirectional. *)
Definition edpt_matches (dev : Z) (num : Z) (dir : tusb_dir_t)
    (hcchar_bm : dwc2_channel_char_t) : bool :=
  enable hcchar_bm && bool_decide (dev_addr hcchar_bm = dev) &&
  bool_decide (ep_num hcchar_bm = num) &&
  (bool_decide (num = 0) || bool_decide (ep_dir hcchar_bm = dir)).

Definition edpt_find_opened (d : hcd_data_t) (dev : Z) (num : Z)
    (dir : tusb_dir_t) : option nat :=
  first_index (fun i => edpt_matches dev num dir (edpt_hcchar (edpt_at d i)))
    0 CFG_TUH_DWC2_ENDPOINT_MAX.

(** [hcd_device_close]: clear every enabled slot of the device. *)
Definition close_slot (dev : Z) (e : hcd_endpoint_t) : hcd_endpoint_t :=
  if enable (edpt_hcchar e) && bool_decide (dev_addr (edpt_hcchar e) = dev)
  then hcd_endpoint_zero else e.

Fixpoint close_loop (dev : Z) (d : hcd_data_t) (i n : nat) : hcd_data_t :=
  match n with
  | O => d
  | S n' => close_loop dev (set_edpt d i (close_slot dev (edpt_at d i))) (S i) n'
  end.

Definition hcd_device_close (dev : Z) (d : hcd_data_t) : hcd_data_t :=
  close_loop dev d 0 CFG_TUH_DWC2_ENDPOINT_MAX.

(** [hcd_edpt_open]: fill the first slot whose enable bit is clear.  [info]
    is what [hcd_devtree_get_info(dev_addr, &devtree_info)] hands back. *)
Definition open_slot (info : hcd_devtree_info_t) (dev : Z)
    (desc_ep : tusb_desc_endpoint_t) : hcd_endpoint_t :=
  {| edpt_hcchar :=
       {| ep_size := tu_edpt_packet_size desc_ep;
          ep_num := tu_edpt_number (bEndpointAddress desc_ep);
          ep_dir := tu_edpt_dir (bEndpointAddress desc_ep);
          low_speed_dev :=
            match speed info with TUSB_SPEED_LOW => true | _ => false end;
          ep_type := bmAttributes_xfer desc_ep;
          err_multi_count := 0;
          dev_addr := dev;
          odd_frame := 0;
          disable := false;
          enable := true |};
     edpt_hcsplt :=
       {| split_hub_port := hub_port info; split_hub_addr := hub_addr info;
          xact_pos := 0; split_compl := false; split_en := false |};
     next_data_toggle := HCTSIZ_PID_DATA0 |}.

Definition hcd_edpt_open (info : hcd_devtree_info_t) (dev : Z)
    (desc_ep : tusb_desc_endpoint_t) (d : hcd_data_t) : bool * hcd_data_t :=
  match first_index (fun i => negb (enable (edpt_hcchar (edpt_at d i))))
          0 CFG_TUH_DWC2_ENDPOINT_MAX with
  | Some i => (true, set_edpt d i (open_slot info dev desc_ep))
  | None => (false, d)
  end.

(** ** The register block *)

Record dwc2_channel_t := {
  hcchar : dwc2_channel_char_t;
  hcsplt : dwc2_channel_split_t;
  hcint : gset hcint_flag;
  hcintmsk : gset hcint_flag;
  hctsiz : dwc2_channel_tsize_t;
  hcdma : Z
}.

Record dwc2_regs_t := {
  ghwcfg2_num_host_ch : Z;
  ghwcfg2_arch : ghwcfg2_arch_t;
  gintmsk : gset gint_flag;
  hfnum : Z;
  hptxsts : dwc2_txsts_t;
  hnptxsts : dwc2_txsts_t;
  haint : Z;
  haintmsk : Z;
  channel : list dwc2_channel_t;
  (* the receive status queue: reading GRXSTSP pops its head *)
  grxstsp : list dwc2_grxstsp_t;
  (* the payload bytes waiting in the receive FIFO *)
  rx_fifo : list Byte.byte
}.

Definition dwc2_channel_zero : dwc2_channel_t :=
  {| hcchar := hcchar_zero; hcsplt := hcsplt_zero; hcint := ∅; hcintmsk := ∅;
     hctsiz := hctsiz_zero; hcdma := 0 |}.

Definition channel_at (r : dwc2_regs_t) (ch_id : nat) : dwc2_channel_t :=
  default dwc2_channel_zero (channel r !! ch_id).

Definition set_channel (r : dwc2_regs_t) (ch_id : nat) (c : dwc2_channel_t)
    : dwc2_regs_t :=
  {| ghwcfg2_num_host_ch := ghwcfg2_num_host_ch r; ghwcfg2_arch := ghwcfg2_arch r;
     gintmsk := gintmsk r; hfnum := hfnum r; hptxsts := hptxsts r;
     hnptxsts := hnptxsts r; haint := haint r; haintmsk := haintmsk r;
     channel := <[ch_id := c]> (channel r);
     grxstsp := grxstsp r; rx_fifo := rx_fifo r |}.

Definition set_gintmsk (r : dwc2_regs_t) (m : gset gint_flag) : dwc2_regs_t :=
  {| ghwcfg2_num_host_ch := ghwcfg2_num_host_ch r; ghwcfg2_arch := ghwcfg2_arch r;
     gintmsk := m; hfnum := hfnum r; hptxsts := hptxsts r;
     hnptxsts := hnptxsts r; haint := haint r; haintmsk := haintmsk r;
     channel := channel r; grxstsp := grxstsp r; rx_fifo := rx_fifo r |}.

Definition set_haintmsk (r : dwc2_regs_t) (m : Z) : dwc2_regs_t :=
  {| ghwcfg2_num_host_ch := ghwcfg2_num_host_ch r; ghwcfg2_arch := ghwcfg2_arch r;
     gintmsk := gintmsk r; hfnum := hfnum r; hptxsts := hptxsts r;
     hnptxsts := hnptxsts r; haint := haint r; haintmsk := m;
     channel := channel r; grxstsp := grxstsp r; rx_fifo := rx_fifo r |}.

Definition set_rx (r : dwc2_regs_t) (q : list dwc2_grxstsp_t)
    (f : list Byte.byte) : dwc2_regs_t :=
  {| ghwcfg2_num_host_ch := ghwcfg2_num_host_ch r; ghwcfg2_arch := ghwcfg2_arch r;
     gintmsk := gintmsk r; hfnum := hfnum r; hptxsts := hptxsts r;
     hnptxsts := hnptxsts r; haint := haint r; haintmsk := haintmsk r;
     channel := channel r; grxstsp := q; rx_fifo := f |}.

Definition with_hcchar (c : dwc2_channel_t) (v : dwc2_channel_char_t) :=
  {| hcchar := v; hcsplt := hcsplt c; hcint := hcint c; hcintmsk := hcintmsk c;
     hctsiz := hctsiz c; hcdma := hcdma c |}.
Definition with_hcsplt (c : dwc2_channel_t) (v : dwc2_channel_split_t) :=
  {| hcchar := hcchar c; hcsplt := v; hcint := hcint c; hcintmsk := hcintmsk c;
     hctsiz := hctsiz c; hcdma := hcdma c |}.
Definition with_hcint (c : dwc2_channel_t) (v : gset hcint_flag) :=
  {| hcchar := hcchar c; hcsplt := hcsplt c; hcint := v; hcintmsk := hcintmsk c;
     hctsiz := hctsiz c; hcdma := hcdma c |}.
Definition with_hcintmsk (c : dwc2_channel_t) (v : gset hcint_flag) :=
  {| hcchar := hcchar c; hcsplt := hcsplt c; hcint := hcint c; hcintmsk := v;
     hctsiz := hctsiz c; hcdma := hcdma c |}.
Definition with_hctsiz (c : dwc2_channel_t) (v : dwc2_channel_tsize_t) :=
  {| hcchar := hcchar c; hcsplt := hcsplt c; hcint := hcint c;
     hcintmsk := hcintmsk c; hctsiz := v; hcdma := hcdma c |}.
(** [hcchar | HCCHAR_CHENA], [hcchar & ~HCCHAR_CHENA], [hcchar | HCCHAR_CHDIS]
    and the two bit-field stores of [hcd_edpt_xfer]. *)
Definition hcchar_set_enable (h : dwc2_channel_char_t) (b : bool) :=
  {| ep_size := ep_size h; ep_num := ep_num h; ep_dir := ep_dir h;
     low_speed_dev := low_speed_dev h; ep_type := ep_type h;
     err_multi_count := err_multi_count h; dev_addr := dev_addr h;
     odd_frame := odd_frame h; disable := disable h; enable := b |}.
Definition hcchar_set_disable (h : dwc2_channel_char_t) (b : bool) :=
  {| ep_size := ep_size h; ep_num := ep_num h; ep_dir := ep_dir h;
     low_speed_dev := low_speed_dev h; ep_type := ep_type h;
     err_multi_count := err_multi_count h; dev_addr := dev_addr h;
     odd_frame := odd_frame h; disable := b; enable := enable h |}.
Definition hcchar_set_frame_dir (h : dwc2_channel_char_t) (odd : Z)
    (dir : tusb_dir_t) :=
  {| ep_size := ep_size h; ep_num := ep_num h; ep_dir := dir;
     low_speed_dev := low_speed_dev h; ep_type := ep_type h;
     err_multi_count := err_multi_count h; dev_addr := dev_addr h;
     odd_frame := odd; disable := disable h; enable := enable h |}.

Definition TU_BIT (n : nat) : Z := Z.shiftl 1 (Z.of_nat n).
Definition tu_bit_test (v : Z) (n : nat) : bool := Z.testbit v (Z.of_nat n).

(** A notification raised with [hcd_event_xfer_complete]. *)
Record hcd_event_t := {
  ev_dev_addr : Z;
  ev_ep_addr : ep_addr_t;
  ev_xferred_bytes : Z;
  ev_result : xfer_result_t;
  ev_in_isr : bool
}.

(** A loop body or handler that may leave its function early. *)
Inductive flow (A : Type) : Type :=
  | Continue (a : A)
  | Return (a : A).
Arguments Continue {A} a.
Arguments Return {A} a.

Definition flow_bind {A} (x : flow A) (k : A -> flow A) : flow A :=
  match x with Continue a => k a | Return a => Return a end.

Definition flow_out {A} (x : flow A) : A :=
  match x with Continue a => a | Return a => a end.

(** [for (i = start; i < start + n; i++) body(i)] with early return. *)
Fixpoint for_loop {A} (body : nat -> A -> flow A) (start n : nat) (a : A)
    : flow A :=
  match n with
  | O => Continue a
  | S n' => flow_bind (body start a) (for_loop body (S start) n')
  end.

(** Modelled from the spec: tu_div_ceil of tusb_common.h, which is not part
    of this file; the ceiling of v / d, computed on unsigned 32-bit operands
    as (v + d - 1) / d. *)
Definition tu_div_ceil (v d : Z) : Z := ((v + d - 1) mod 2 ^ 32) / d.

(** Lines 456-459 of [hcd_edpt_xfer]: the uint16_t packet count. *)
Definition xfer_packet_count (buflen ep_size : Z) : Z :=
  let packet_count := tu_div_ceil buflen ep_size mod 2 ^ 16 in
  if packet_count =? 0 then 1 else packet_count.

(** Modelled from the spec: the layout of HCTSIZ, declared in dwc2_type.h,
    which is not part of this file.  The transfer size is bits 0 to 18, the
    packet count bits 19 to 28 and the PID bits 29 and 30
    (HCTSIZ_PKTCNT_Pos and HCTSIZ_PID_Pos); the PID values are DATA0 = 0,
    DATA2 = 1, DATA1 = 2 and SETUP = 3. *)
Definition HCTSIZ_PKTCNT_Pos : Z := 19.
Definition HCTSIZ_PID_Pos : Z := 29.

Definition hctsiz_pid_code (p : hctsiz_pid_t) : Z :=
  match p with
  | HCTSIZ_PID_DATA0 => 0
  | HCTSIZ_PID_DATA2 => 1
  | HCTSIZ_PID_DATA1 => 2
  | HCTSIZ_PID_SETUP => 3
  end.

Definition hctsiz_pid_of_code (v : Z) : hctsiz_pid_t :=
  if v =? 0 then HCTSIZ_PID_DATA0
  else if v =? 1 then HCTSIZ_PID_DATA2
  else if v =? 2 then HCTSIZ_PID_DATA1
  else HCTSIZ_PID_SETUP.

(** The bit-field view [hctsiz_bm] of a 32-bit word. *)
Definition hctsiz_bm (w : Z) : dwc2_channel_tsize_t :=
  {| xfer_size := Z.land w (Z.ones HCTSIZ_PKTCNT_Pos);
     packet_count :=
       Z.land (Z.shiftr w HCTSIZ_PKTCNT_Pos)
         (Z.ones (HCTSIZ_PID_Pos - HCTSIZ_PKTCNT_Pos));
     pid := hctsiz_pid_of_code (Z.land (Z.shiftr w HCTSIZ_PID_Pos) (Z.ones 2)) |}.

(** Line 460 of [hcd_edpt_xfer]: the word
    [(toggle << HCTSIZ_PID_Pos) | (packet_count << HCTSIZ_PKTCNT_Pos) | buflen]
    as stored in the 32-bit register.  Nothing masks the packet count to
    its field, so a count of 1024 or more reaches the PID bits.  (For a
    count of 4096 or more the shift leaves the range of int; the word is
    then taken modulo 2^32.) *)
Definition hctsiz_word (toggle : hctsiz_pid_t) (packet_count buflen : Z) : Z :=
  Z.lor (Z.lor (Z.shiftl (hctsiz_pid_code toggle) HCTSIZ_PID_Pos)
               (Z.shiftl packet_count HCTSIZ_PKTCNT_Pos))
        buflen mod 2 ^ 32.

(** Lines 463-467 of [hcd_edpt_xfer]: the toggle stored for the next call. *)
Definition advance_toggle (toggle : hctsiz_pid_t) (ep_num : Z) : hctsiz_pid_t :=
  if bool_decide (toggle = HCTSIZ_PID_DATA0) || bool_decide (ep_num = 0)
  then HCTSIZ_PID_DATA1 else HCTSIZ_PID_DATA0.

(** Modelled from the spec: dfifo_read_packet of dwc2_common.c, which is not
    part of this file; it drains exactly [len] bytes from the shared receive
    FIFO into the buffer at [dst]. *)
Fixpoint write_bytes (ram : gmap Z Byte.byte) (dst : Z) (bs : list Byte.byte)
    : gmap Z Byte.byte :=
  match bs with
  | [] => ram
  | b :: bs' => write_bytes (<[dst := b]> ram) (dst + 1) bs'
  end.

Definition dfifo_read_packet (r : dwc2_regs_t) (ram : gmap Z Byte.byte)
    (dst len : Z) : dwc2_regs_t * gmap Z Byte.byte :=
  (set_rx r (grxstsp r) (drop (Z.to_nat len) (rx_fifo r)),
   write_bytes ram dst (take (Z.to_nat len) (rx_fifo r))).

(** ** The host port and the FIFO size registers

    HPRT is a set of one-bit flags and the two-bit speed field; its other
    fields are never written by the driver with anything but the value
    read, and are left out.  Of HCFG, HFIR and GUSBCFG only the fields the
    driver reads or writes are kept. *)

Inductive hprt_flag :=
  | HPRT_CONN_STATUS | HPRT_CONN_DETECT | HPRT_ENABLE | HPRT_ENABLE_CHANGE
  | HPRT_OVER_CURRENT_ACTIVE | HPRT_OVER_CURRENT_CHANGE | HPRT_RESUME
  | HPRT_SUSPEND | HPRT_RESET | HPRT_POWER.

Inductive hprt_speed_t :=
  | HPRT_SPEED_HIGH | HPRT_SPEED_FULL | HPRT_SPEED_LOW | HPRT_SPEED_OTHER.

Inductive hcfg_fsls_phyclk_sel_t :=
  | HCFG_FSLS_PHYCLK_SEL_30_60MHZ | HCFG_FSLS_PHYCLK_SEL_48MHZ
  | HCFG_FSLS_PHYCLK_SEL_6MHZ.

#[global] Instance hprt_flag_eq_dec : EqDecision hprt_flag.
Proof. solve_decision. Defined.
#[global] Instance hprt_speed_eq_dec : EqDecision hprt_speed_t.
Proof. solve_decision. Defined.
#[global] Instance tusb_speed_eq_dec : EqDecision tusb_speed_t.
Proof. solve_decision. Defined.

Definition hprt_flag_code (f : hprt_flag) : nat :=
  match f with
  | HPRT_CONN_STATUS => 0 | HPRT_CONN_DETECT => 1 | HPRT_ENABLE => 2
  | HPRT_ENABLE_CHANGE => 3 | HPRT_OVER_CURRENT_ACTIVE => 4
  | HPRT_OVER_CURRENT_CHANGE => 5 | HPRT_RESUME => 6 | HPRT_SUSPEND => 7
  | HPRT_RESET => 8 | HPRT_POWER => 9
  end%nat.

Definition hprt_flag_decode (n : nat) : hprt_flag :=
  match n with
  | 0 => HPRT_CONN_STATUS | 1 => HPRT_CONN_DETECT | 2 => HPRT_ENABLE
  | 3 => HPRT_ENABLE_CHANGE | 4 => HPRT_OVER_CURRENT_ACTIVE
  | 5 => HPRT_OVER_CURRENT_CHANGE | 6 => HPRT_RESUME | 7 => HPRT_SUSPEND
  | 8 => HPRT_RESET | _ => HPRT_POWER
  end%nat.

#[global] Instance hprt_flag_countable : Countable hprt_flag.
Proof.
  refine (inj_countable' hprt_flag_code hprt_flag_decode _).
  intros []; reflexivity.
Defined.

Record dwc2_hprt_t := {
  hprt_flags : gset hprt_flag;
  hprt_speed : hprt_speed_t
}.

Record dwc2_port_regs_t := {
  hprt : dwc2_hprt_t;
  hcfg_fsls_phyclk_sel : hcfg_fsls_phyclk_sel_t;
  hfir_frivl : Z;
  gusbcfg_phy_sel : bool;
  gusbcfg_ulpi_utmi_sel : bool;
  gusbcfg_phy_if16 : bool
}.

(** [hcd_event_device_attach] and [hcd_event_device_remove]. *)
Inductive hcd_port_event_t :=
  | HCD_EVENT_DEVICE_ATTACH (in_isr : bool)
  | HCD_EVENT_DEVICE_REMOVE (in_isr : bool).



(** ** The driver *)

Section Driver.

(** The build option of tusb_option.h that selects DMA when the core has it. *)
Variable CFG_TUH_DWC2_DMA : bool.

(** The core's reaction to [dfifo_write_packet(dwc2, ch_id, buffer, len)]: the
    registers as the driver reads them after the packet has been pushed. *)
Variable dfifo_write_packet : dwc2_regs_t -> nat -> Z -> Z -> dwc2_regs_t.

Definition DWC2_CHANNEL_COUNT (r : dwc2_regs_t) : nat :=
  Z.to_nat (Z.min (ghwcfg2_num_host_ch r + 1) DWC2_CHANNEL_COUNT_MAX).

Definition dma_host_enabled (r : dwc2_regs_t) : bool :=
  CFG_TUH_DWC2_DMA && bool_decide (ghwcfg2_arch r = GHWCFG2_ARCH_INTERNAL_DMA).

Definition request_queue_avail (r : dwc2_regs_t) (is_period : bool) : Z :=
  if is_period then req_queue_available (hptxsts r)
  else req_queue_available (hnptxsts r).

Definition channel_is_periodic (hcchar_bm : dwc2_channel_char_t) : bool :=
  bool_decide (ep_type hcchar_bm = TUSB_XFER_INTERRUPT) ||
  bool_decide (ep_type hcchar_bm = TUSB_XFER_ISOCHRONOUS).

(** *** Channel pool *)

Definition channel_alloc (r : dwc2_regs_t) (d : hcd_data_t)
    : option nat * hcd_data_t :=
  match first_index
          (fun ch_id =>
             bool_decide (state (xfer_at d ch_id) = HCD_XFER_STATE_UNALLOCATED))
          0 (DWC2_CHANNEL_COUNT r) with
  | Some ch_id =>
      (Some ch_id,
       set_xfer d ch_id
         {| state := HCD_XFER_STATE_ACTIVE; err_count := 0; buffer := 0;
            total_bytes := 0 |})
  | None => (None, d)
  end.

Definition channel_dealloc (d : hcd_data_t) (ch_id : nat) : hcd_data_t :=
  let x := xfer_at d ch_id in
  set_xfer d ch_id
    {| state := HCD_XFER_STATE_UNALLOCATED; err_count := err_count x;
       buffer := buffer x; total_bytes := total_bytes x |}.

Definition channel_find_enabled (r : dwc2_regs_t) (d : hcd_data_t) (dev : Z)
    (num : Z) (dir : tusb_dir_t) : option nat :=
  first_index
    (fun ch_id =>
       negb (bool_decide (state (xfer_at d ch_id) = HCD_XFER_STATE_UNALLOCATED)) &&
       let hcchar_bm := hcchar (channel_at r ch_id) in
       bool_decide (dev_addr hcchar_bm = dev) &&
       bool_decide (ep_num hcchar_bm = num) &&
       (bool_decide (num = 0) || bool_decide (ep_dir hcchar_bm = dir)))
    0 (DWC2_CHANNEL_COUNT r).

(** *** Transfer submission *)

Definition hcintmsk_for (dir : tusb_dir_t) : gset hcint_flag :=
  let hcintmsk : gset hcint_flag :=
    {[HCINT_NAK]} ∪ {[HCINT_XACT_ERR]} ∪ {[HCINT_STALL]} ∪
    {[HCINT_XFER_COMPLETE]} ∪ {[HCINT_DATATOGGLE_ERR]} in
  match dir with
  | TUSB_DIR_OUT => hcintmsk ∪ {[HCINT_NYET]}
  | TUSB_DIR_IN => hcintmsk ∪ ({[HCINT_BABBLE_ERR]} ∪ {[HCINT_DATATOGGLE_ERR]})
  end.

(** [hcd_edpt_xfer].  Every [TU_ASSERT] that fails returns false from the
    point where it stands, with the writes made so far in place.  The
    second [dma_host_enabled] test (line 479) is reached in slave mode only,
    so its DMA arm is not written out. *)
Definition hcd_edpt_xfer (dev : Z) (ep_addr : ep_addr_t) (buf : Z) (buflen : Z)
    (d : hcd_data_t) (r : dwc2_regs_t) : bool * hcd_data_t * dwc2_regs_t :=
  let num := tu_edpt_number ep_addr in
  let dir := tu_edpt_dir ep_addr in
  match edpt_find_opened d dev num dir with
  | None => (false, d, r)
  | Some ep_id =>
    match channel_alloc r d with
    | (None, d) => (false, d, r)
    | (Some ch_id, d) =>
      let e := edpt_at d ep_id in
      if dma_host_enabled r then (false, d, r)
      else
        let hcintmsk := hcintmsk_for (ep_dir (edpt_hcchar e)) in
        let packet_count := xfer_packet_count buflen (ep_size (edpt_hcchar e)) in
        let ch := channel_at r ch_id in
        let ch := with_hctsiz ch
                    (hctsiz_bm
                       (hctsiz_word (next_data_toggle e) packet_count buflen)) in
        let toggle := advance_toggle (next_data_toggle e) num in
        let ch := with_hcsplt ch (edpt_hcsplt e) in
        let e_hcchar :=
          hcchar_set_frame_dir (edpt_hcchar e) (1 - Z.land (hfnum r) 1) dir in
        let e := {| edpt_hcchar := e_hcchar; edpt_hcsplt := edpt_hcsplt e;
                    next_data_toggle := toggle |} in
        let d := set_edpt d ep_id e in
        let ch := with_hcchar ch (hcchar_set_enable e_hcchar false) in
        let x := xfer_at d ch_id in
        let d := set_xfer d ch_id
                   {| state := state x; err_count := err_count x;
                      buffer := buf; total_bytes := buflen |} in
        let is_period := channel_is_periodic e_hcchar in
        match dir with
        | TUSB_DIR_IN =>
            if request_queue_avail r is_period =? 0
            then (false, d, set_channel r ch_id ch)
            else
              let ch := with_hcchar ch (hcchar_set_enable (hcchar ch) true) in
              let ch := with_hcintmsk ch hcintmsk in
              let r := set_channel r ch_id ch in
              (true, d, set_haintmsk r (Z.lor (haintmsk r) (TU_BIT ch_id)))
        | TUSB_DIR_OUT =>
            let ch := with_hcchar ch (hcchar_set_enable (hcchar ch) true) in
            let r :=
              if 0 <? buflen
              then set_gintmsk r
                     (gintmsk r ∪ (if is_period then {[GINTSTS_PTX_FIFO_EMPTY]}
                                   else {[GINTSTS_NPTX_FIFO_EMPTY]}))
              else r in
            let ch := with_hcintmsk ch hcintmsk in
            let r := set_channel r ch_id ch in
            (true, d, set_haintmsk r (Z.lor (haintmsk r) (TU_BIT ch_id)))
        end
    end
  end.

(** [hcd_edpt_abort_xfer].  TU_VERIFY returns false when the endpoint is not
    open; TU_BREAKPOINT stops under a debugger and is otherwise a no-op. *)
Definition hcd_edpt_abort_xfer (dev : Z) (ep_addr : ep_addr_t)
    (d : hcd_data_t) (r : dwc2_regs_t) : bool * dwc2_regs_t :=
  let num := tu_edpt_number ep_addr in
  let dir := tu_edpt_dir ep_addr in
  match edpt_find_opened d dev num dir with
  | None => (false, r)
  | Some ep_id =>
    let e := edpt_at d ep_id in
    match channel_find_enabled r d dev num dir with
    | Some ch_id =>
        let ch := channel_at r ch_id in
        if request_queue_avail r (channel_is_periodic (edpt_hcchar e)) =? 0
        then (true, r)
        else (true,
              set_channel r ch_id
                (with_hcchar ch (hcchar_set_disable (hcchar ch) true)))
    | None => (true, r)
    end
  end.

(** [hcd_setup_send]. *)
Definition hcd_setup_send (dev : Z) (setup_packet : Z) (d : hcd_data_t)
    (r : dwc2_regs_t) : bool * hcd_data_t * dwc2_regs_t :=
  match edpt_find_opened d dev 0 TUSB_DIR_OUT with
  | None => (false, d, r)
  | Some ep_id =>
    let e := edpt_at d ep_id in
    let d := set_edpt d ep_id
               {| edpt_hcchar := edpt_hcchar e; edpt_hcsplt := edpt_hcsplt e;
                  next_data_toggle := HCTSIZ_PID_SETUP |} in
    hcd_edpt_xfer dev (tu_edpt_addr 0 TUSB_DIR_OUT) setup_packet 8 d r
  end.

(** *** Receive FIFO handler *)

Definition handle_rxflvl_irq (d : hcd_data_t) (r : dwc2_regs_t)
    (ram : gmap Z Byte.byte) : hcd_data_t * dwc2_regs_t * gmap Z Byte.byte :=
  match grxstsp r with
  | [] => (d, r, ram)
  | grxstsp_bm :: q =>
    let r := set_rx r q (rx_fifo r) in
    let ch_id := ep_ch_num grxstsp_bm in
    match packet_status grxstsp_bm with
    | GRXSTS_PKTSTS_RX_DATA =>
        let byte_count := byte_count grxstsp_bm in
        let x := xfer_at d ch_id in
        let '(r, ram) := dfifo_read_packet r ram (buffer x) byte_count in
        let x := {| state := state x; err_count := err_count x;
                    buffer := buffer x + byte_count;
                    total_bytes := total_bytes x |} in
        let size := xfer_size (hctsiz (channel_at r ch_id)) in
        let x := if byte_count <? size
                 then {| state := state x; err_count := err_count x;
                         buffer := buffer x;
                         total_bytes := (total_bytes x - size) mod 2 ^ 16 |}
                 else x in
        (set_xfer d ch_id x, r, ram)
    | GRXSTS_PKTSTS_RX_COMPLETE => (d, r, ram)
    | GRXSTS_PKTSTS_HOST_DATATOGGLE_ERR => (d, r, ram)
    | GRXSTS_PKTSTS_HOST_CHANNEL_HALTED => (d, r, ram)
    | GRXSTS_PKTSTS_OTHER => (d, r, ram)
    end
  end.

(** *** Channel interrupt handler *)

Definition hcint_test (hcint : gset hcint_flag) (f : hcint_flag) : bool :=
  bool_decide (f ∈ hcint).

Definition set_err_count (d : hcd_data_t) (ch_id : nat) (n : Z) : hcd_data_t :=
  let x := xfer_at d ch_id in
  set_xfer d ch_id
    {| state := state x; err_count := n; buffer := buffer x;
       total_bytes := total_bytes x |}.

(** The if / else-if chain of lines 691-728.  [None] is the failed
    [TU_ASSERT(request_queue_avail(...), )], which leaves the handler. *)
Definition channel_irq_dispatch (ch_id : nat) (hcint : gset hcint_flag)
    (hcchar_bm : dwc2_channel_char_t) (d : hcd_data_t) (r : dwc2_regs_t)
    : option (xfer_result_t * hcd_data_t * dwc2_regs_t) :=
  let ch := channel_at r ch_id in
  if hcint_test hcint HCINT_XFER_COMPLETE then
    let r := set_channel r ch_id (with_hcintmsk ch (hcintmsk ch ∖ {[HCINT_ACK]})) in
    Some (XFER_RESULT_SUCCESS, channel_dealloc d ch_id, r)
  else if hcint_test hcint HCINT_STALL then
    let ch := with_hcintmsk ch (hcintmsk ch ∪ {[HCINT_CHANNEL_HALTED]}) in
    let ch := with_hcchar ch (hcchar_set_disable (hcchar ch) true) in
    Some (XFER_RESULT_STALLED, d, set_channel r ch_id ch)
  else if hcint_test hcint HCINT_NAK || hcint_test hcint HCINT_XACT_ERR ||
          hcint_test hcint HCINT_NYET then
    let reenabled : option dwc2_regs_t :=
      match ep_dir hcchar_bm with
      | TUSB_DIR_OUT => Some r
      | TUSB_DIR_IN =>
          if hcint_test hcint HCINT_NAK then
            if request_queue_avail r (channel_is_periodic hcchar_bm) =? 0
            then None
            else Some (set_channel r ch_id
                         (with_hcchar ch (hcchar_set_enable (hcchar ch) true)))
          else Some r
      end in
    match reenabled with
    | None => None
    | Some r =>
        if hcint_test hcint HCINT_XACT_ERR then
          let ch := channel_at r ch_id in
          Some (XFER_RESULT_INVALID,
                set_err_count d ch_id ((err_count (xfer_at d ch_id) + 1) mod 2 ^ 8),
                set_channel r ch_id (with_hcintmsk ch (hcintmsk ch ∪ {[HCINT_ACK]})))
        else Some (XFER_RESULT_INVALID, set_err_count d ch_id 0, r)
    end
  else if hcint_test hcint HCINT_CHANNEL_HALTED then
    if err_multi_count (hcchar ch) =? HCD_XFER_ERROR_MAX
    then Some (XFER_RESULT_INVALID, d, r)
    else Some (XFER_RESULT_INVALID, d, r)
  else if hcint_test hcint HCINT_ACK then
    Some (XFER_RESULT_INVALID, set_err_count d ch_id 0,
          set_channel r ch_id (with_hcintmsk ch (hcintmsk ch ∖ {[HCINT_ACK]})))
  else Some (XFER_RESULT_INVALID, d, r).

(** [channel->hcint = hcint]: the bits written as one are cleared. *)
Definition clear_hcint (r : dwc2_regs_t) (ch_id : nat) (bits : gset hcint_flag)
    : dwc2_regs_t :=
  let ch := channel_at r ch_id in
  set_channel r ch_id (with_hcint ch (hcint ch ∖ bits)).

Definition irq_state : Type := hcd_data_t * dwc2_regs_t * list hcd_event_t.

(** The body of the channel loop of [handle_channel_irq]. *)
Definition channel_irq (in_isr : bool) (ch_id : nat) (s : irq_state)
    : flow irq_state :=
  let '(d, r, evs) := s in
  if tu_bit_test (haint r) ch_id then
    let ch := channel_at r ch_id in
    let hcint := hcint ch ∩ hcintmsk ch in
    let hcchar_bm := hcchar ch in
    if dma_host_enabled r then Continue (d, clear_hcint r ch_id hcint, evs)
    else
      match channel_irq_dispatch ch_id hcint hcchar_bm d r with
      | None => Return s
      | Some (result, d, r) =>
          let done := negb (bool_decide (result = XFER_RESULT_INVALID)) in
          if done || hcint_test hcint HCINT_CHANNEL_HALTED then
            let r := set_haintmsk r (Z.ldiff (haintmsk r) (TU_BIT ch_id)) in
            let ep_addr := tu_edpt_addr (ep_num hcchar_bm) (ep_dir hcchar_bm) in
            let evs :=
              if done
              then evs ++ [{| ev_dev_addr := dev_addr hcchar_bm;
                              ev_ep_addr := ep_addr; ev_xferred_bytes := 0;
                              ev_result := result; ev_in_isr := in_isr |}]
              else evs in
            Continue (d, clear_hcint r ch_id hcint, evs)
          else Continue (d, clear_hcint r ch_id hcint, evs)
      end
  else Continue s.

Definition handle_channel_irq (in_isr : bool) (s : irq_state) : irq_state :=
  let '(d, r, evs) := s in
  flow_out (for_loop (channel_irq in_isr) 0 (DWC2_CHANNEL_COUNT r) s).

(** *** Transmit FIFO handler *)

(** One packet pushed with [dfifo_write_packet(dwc2, ch_id, buffer, len)]. *)
Record tx_write_t := {
  tx_ch_id : nat;
  tx_buffer : Z;
  tx_bytes : Z
}.

Definition txfifo_state : Type := hcd_data_t * dwc2_regs_t * list tx_write_t.

Definition txsts_bm (r : dwc2_regs_t) (is_periodic : bool) : dwc2_txsts_t :=
  if is_periodic then hptxsts r else hnptxsts r.

(** The body of the packet loop; [Return] is [return true]. *)
Definition txfifo_packet (is_periodic : bool) (ch_id : nat)
    (hcchar_bm : dwc2_channel_char_t) (i : nat) (s : txfifo_state)
    : flow txfifo_state :=
  let '(d, r, written) := s in
  let remain_bytes := xfer_size (hctsiz (channel_at r ch_id)) mod 2 ^ 16 in
  let xact_bytes := Z.min remain_bytes (ep_size hcchar_bm) in
  if (fifo_available (txsts_bm r is_periodic) <? xact_bytes) &&
     (0 <? req_queue_available (txsts_bm r is_periodic))
  then Return s
  else
    let x := xfer_at d ch_id in
    let r := dfifo_write_packet r ch_id (buffer x) xact_bytes in
    let d := set_xfer d ch_id
               {| state := state x; err_count := err_count x;
                  buffer := buffer x + xact_bytes;
                  total_bytes := total_bytes x |} in
    Continue (d, r, written ++ [{| tx_ch_id := ch_id; tx_buffer := buffer x;
                                   tx_bytes := xact_bytes |}]).

(** The body of the channel loop. *)
Definition txfifo_channel (is_periodic : bool) (ch_id : nat) (s : txfifo_state)
    : flow txfifo_state :=
  let '(d, r, written) := s in
  if bool_decide (state (xfer_at d ch_id) = HCD_XFER_STATE_ACTIVE) then
    let hcchar_bm := hcchar (channel_at r ch_id) in
    match ep_dir hcchar_bm with
    | TUSB_DIR_OUT =>
        let remain_packets := packet_count (hctsiz (channel_at r ch_id)) in
        for_loop (txfifo_packet is_periodic ch_id hcchar_bm) 0
          (Z.to_nat remain_packets) s
    | TUSB_DIR_IN => Continue s
    end
  else Continue s.

(** [handle_txfifo_empty]: true when there is still pending data. *)
Definition handle_txfifo_empty (is_periodic : bool) (d : hcd_data_t)
    (r : dwc2_regs_t) : bool * txfifo_state :=
  match for_loop (txfifo_channel is_periodic) 0 (DWC2_CHANNEL_COUNT r)
          (d, r, []) with
  | Return s => (true, s)
  | Continue s => (false, s)
  end.

(** ** Well-formed states and example inputs *)

(** The arrays have their declared sizes. *)
Definition hcd_wf (d : hcd_data_t) (r : dwc2_regs_t) : Prop :=
  length (xfer d) = Z.to_nat DWC2_CHANNEL_COUNT_MAX /\
  length (edpt d) = CFG_TUH_DWC2_ENDPOINT_MAX /\
  length (channel r) = Z.to_nat DWC2_CHANNEL_COUNT_MAX.

(** The endpoint table as a set of (device, endpoint number, direction)
    tuples. *)
Definition slot_key (e : hcd_endpoint_t) : Z * Z * tusb_dir_t :=
  (dev_addr (edpt_hcchar e), ep_num (edpt_hcchar e), ep_dir (edpt_hcchar e)).

Definition tuple_open (d : hcd_data_t) (k : Z * Z * tusb_dir_t) : bool :=
  existsb (fun e => enable (edpt_hcchar e) && bool_decide (slot_key e = k))
    (edpt d).

Definition edpt_unique (d : hcd_data_t) : Prop :=
  forall i j ei ej,
    edpt d !! i = Some ei -> edpt d !! j = Some ej ->
    enable (edpt_hcchar ei) = true -> enable (edpt_hcchar ej) = true ->
    slot_key ei = slot_key ej -> i = j.

(** The handler has only added notifications, each with a zero byte
    count. *)
Definition events_extend (s s' : irq_state) : Prop :=
  exists new,
    snd s' = snd s ++ new /\ Forall (fun e => ev_xferred_bytes e = 0) new.

(** Sequences of the two operations on the endpoint table. *)
Inductive edpt_op :=
  | OpOpen (info : hcd_devtree_info_t) (dev : Z) (desc_ep : tusb_desc_endpoint_t)
  | OpClose (dev : Z).

Definition run_op (d : hcd_data_t) (op : edpt_op) : hcd_data_t :=
  match op with
  | OpOpen info dev desc_ep => snd (hcd_edpt_open info dev desc_ep d)
  | OpClose dev => hcd_device_close dev d
  end.

Definition run_ops (ops : list edpt_op) (d : hcd_data_t) : hcd_data_t :=
  fold_left run_op ops d.

(** Every open of the sequence is for a tuple that is not open when the call
    is made. *)
Fixpoint opens_fresh (ops : list edpt_op) (d : hcd_data_t) : bool :=
  match ops with
  | [] => true
  | op :: ops' =>
      match op with
      | OpOpen _ dev desc_ep =>
          negb (tuple_open d (dev, tu_edpt_number (bEndpointAddress desc_ep),
                              tu_edpt_dir (bEndpointAddress desc_ep)))
      | OpClose _ => true
      end && opens_fresh ops' (run_op d op)
  end.

(** A full-speed core with eight channels in slave mode, as [hcd_init]
    leaves it, with room in both request queues. *)
Definition ex_regs : dwc2_regs_t :=
  {| ghwcfg2_num_host_ch := 7; ghwcfg2_arch := GHWCFG2_ARCH_SLAVE_ONLY;
     gintmsk := {[GINTSTS_OTGINT]} ∪ {[GINTSTS_CONIDSTSCHNG]} ∪
                {[GINTSTS_HPRTINT]} ∪ {[GINTSTS_HCINT]};
     hfnum := 0;
     hptxsts := {| fifo_available := 256; req_queue_available := 8 |};
     hnptxsts := {| fifo_available := 256; req_queue_available := 8 |};
     haint := 0; haintmsk := 0;
     channel := replicate (Z.to_nat DWC2_CHANNEL_COUNT_MAX) dwc2_channel_zero;
     grxstsp := []; rx_fifo := [] |}.

Definition with_txsts (r : dwc2_regs_t) (p np : dwc2_txsts_t) : dwc2_regs_t :=
  {| ghwcfg2_num_host_ch := ghwcfg2_num_host_ch r; ghwcfg2_arch := ghwcfg2_arch r;
     gintmsk := gintmsk r; hfnum := hfnum r; hptxsts := p; hnptxsts := np;
     haint := haint r; haintmsk := haintmsk r; channel := channel r;
     grxstsp := grxstsp r; rx_fifo := rx_fifo r |}.

Definition with_haint (r : dwc2_regs_t) (v : Z) : dwc2_regs_t :=
  {| ghwcfg2_num_host_ch := ghwcfg2_num_host_ch r; ghwcfg2_arch := ghwcfg2_arch r;
     gintmsk := gintmsk r; hfnum := hfnum r; hptxsts := hptxsts r;
     hnptxsts := hnptxsts r; haint := v; haintmsk := haintmsk r;
     channel := channel r; grxstsp := grxstsp r; rx_fifo := rx_fifo r |}.

(** The core raises [flags] on channel [ch_id]. *)
Definition raise_hcint (r : dwc2_regs_t) (ch_id : nat) (flags : gset hcint_flag)
    : dwc2_regs_t :=
  let ch := channel_at r ch_id in
  with_haint (set_channel r ch_id (with_hcint ch (hcint ch ∪ flags)))
    (Z.lor (haint r) (TU_BIT ch_id)).

Definition ex_info : hcd_devtree_info_t :=
  {| rhport := 0; hub_addr := 0; hub_port := 0; speed := TUSB_SPEED_FULL |}.

Definition ex_ctrl : tusb_desc_endpoint_t :=
  {| bEndpointAddress := tu_edpt_addr 0 TUSB_DIR_OUT;
     bmAttributes_xfer := TUSB_XFER_CONTROL; wMaxPacketSize := 8 |}.

Definition ex_bulk_in : tusb_desc_endpoint_t :=
  {| bEndpointAddress := tu_edpt_addr 1 TUSB_DIR_IN;
     bmAttributes_xfer := TUSB_XFER_BULK; wMaxPacketSize := 64 |}.

Definition ex_bulk_out : tusb_desc_endpoint_t :=
  {| bEndpointAddress := tu_edpt_addr 2 TUSB_DIR_OUT;
     bmAttributes_xfer := TUSB_XFER_BULK; wMaxPacketSize := 64 |}.

(** Device 1 with its control endpoint and two bulk endpoints open. *)
Definition ex_data : hcd_data_t :=
  run_ops [OpOpen ex_info 1 ex_ctrl; OpOpen ex_info 1 ex_bulk_in;
           OpOpen ex_info 1 ex_bulk_out] hcd_data_init.

(** The bulk OUT endpoint of the example with 64 bytes submitted from
    address 1000, and the bulk IN endpoint with 150 bytes requested. *)
Definition ex_out_submitted : bool * hcd_data_t * dwc2_regs_t :=
  hcd_edpt_xfer 1 (tu_edpt_addr 2 TUSB_DIR_OUT) 1000 64 ex_data ex_regs.

Definition ex_in_submitted : bool * hcd_data_t * dwc2_regs_t :=
  hcd_edpt_xfer 1 (tu_edpt_addr 1 TUSB_DIR_IN) 1000 150 ex_data ex_regs.

(** The core raises [flags] on channel 0 and the channel handler runs. *)
Definition ex_channel_irq (flags : gset hcint_flag) (s : irq_state) : irq_state :=
  let '(d, r, evs) := s in
  handle_channel_irq true (d, raise_hcint r 0 flags, evs).

(** The core pushes one data-received entry of [n] bytes for channel 0. *)
Definition ex_rx_data (r : dwc2_regs_t) (n : Z) : dwc2_regs_t :=
  set_rx r
    [{| ep_ch_num := 0; byte_count := n; packet_status := GRXSTS_PKTSTS_RX_DATA |}]
    (replicate (Z.to_nat n) Byte.x55).

(** ** Further definitions: the rest of the driver *)

(** [n] calls of [channel_alloc] in a row, with the channel each returned. *)
Fixpoint channel_alloc_seq (n : nat) (r : dwc2_regs_t) (d : hcd_data_t)
    : list (option nat) * hcd_data_t :=
  match n with
  | O => ([], d)
  | S n' =>
      let '(ch, d1) := channel_alloc r d in
      let '(chs, d2) := channel_alloc_seq n' r d1 in
      (ch :: chs, d2)
  end.

(** What the channel handler may change between two states: it never
    writes the endpoint table, HAINT or GINTMSK; a channel's state stays or
    becomes unallocated; a channel whose HAINT bit is clear keeps its
    driver entry and its registers. *)
Definition irq_frame (s s' : irq_state) : Prop :=
  edpt (fst (fst s')) = edpt (fst (fst s)) /\
  haint (snd (fst s')) = haint (snd (fst s)) /\
  gintmsk (snd (fst s')) = gintmsk (snd (fst s)) /\
  forall ch_id,
    (state (xfer_at (fst (fst s')) ch_id) = state (xfer_at (fst (fst s)) ch_id) \/
     state (xfer_at (fst (fst s')) ch_id) = HCD_XFER_STATE_UNALLOCATED) /\
    (tu_bit_test (haint (snd (fst s))) ch_id = false ->
     xfer_at (fst (fst s')) ch_id = xfer_at (fst (fst s)) ch_id /\
     channel_at (snd (fst s')) ch_id = channel_at (snd (fst s)) ch_id).

(** The bytes pushed for channel [ch_id] in a log of FIFO writes. *)
Definition tx_bytes_of (ch_id : nat) (written : list tx_write_t) : Z :=
  foldr (fun w acc => if bool_decide (tx_ch_id w = ch_id) then tx_bytes w + acc
                      else acc) 0 written.

(** What the transmit handler may change between two states: it appends to
    the log of FIFO writes and moves the buffer cursor of a channel by the
    bytes written for it, and writes nothing else of the driver data. *)
Definition tx_frame (s s' : txfifo_state) : Prop :=
  edpt (fst (fst s')) = edpt (fst (fst s)) /\
  length (xfer (fst (fst s'))) = length (xfer (fst (fst s))) /\
  exists new,
    snd s' = snd s ++ new /\
    forall ch_id,
      state (xfer_at (fst (fst s')) ch_id) = state (xfer_at (fst (fst s)) ch_id) /\
      err_count (xfer_at (fst (fst s')) ch_id)
        = err_count (xfer_at (fst (fst s)) ch_id) /\
      total_bytes (xfer_at (fst (fst s')) ch_id)
        = total_bytes (xfer_at (fst (fst s)) ch_id) /\
      ((ch_id < length (xfer (fst (fst s))))%nat ->
       buffer (xfer_at (fst (fst s')) ch_id)
         = buffer (xfer_at (fst (fst s)) ch_id) + tx_bytes_of ch_id new).

(** *** Port *)

Definition HPRT_W1C_MASK : gset hprt_flag :=
  {[HPRT_CONN_DETECT]} ∪ {[HPRT_ENABLE]} ∪ {[HPRT_ENABLE_CHANGE]} ∪
  {[HPRT_OVER_CURRENT_CHANGE]}.

Definition convert_hprt_speed (hprt_speed : hprt_speed_t) : tusb_speed_t :=
  match hprt_speed with
  | HPRT_SPEED_HIGH => TUSB_SPEED_HIGH
  | HPRT_SPEED_FULL => TUSB_SPEED_FULL
  | HPRT_SPEED_LOW => TUSB_SPEED_LOW
  | HPRT_SPEED_OTHER => TUSB_SPEED_INVALID
  end.

Definition hcd_port_connect_status (p : dwc2_port_regs_t) : bool :=
  bool_decide (HPRT_CONN_STATUS ∈ hprt_flags (hprt p)).

(** [hcd_port_reset] and [hcd_port_reset_end]: the word written to HPRT. *)
Definition hcd_port_reset (p : dwc2_port_regs_t) : dwc2_hprt_t :=
  {| hprt_flags := (hprt_flags (hprt p) ∖ HPRT_W1C_MASK) ∪ {[HPRT_RESET]};
     hprt_speed := hprt_speed (hprt p) |}.

Definition hcd_port_reset_end (p : dwc2_port_regs_t) : dwc2_hprt_t :=
  {| hprt_flags := (hprt_flags (hprt p) ∖ HPRT_W1C_MASK) ∖ {[HPRT_RESET]};
     hprt_speed := hprt_speed (hprt p) |}.

Definition hcd_port_speed_get (p : dwc2_port_regs_t) : tusb_speed_t :=
  convert_hprt_speed (hprt_speed (hprt p)).

(** The PHY clock in MHz and the clock selection of lines 635-650. *)
Definition hprt_phy_clock (p : dwc2_port_regs_t) : Z * hcfg_fsls_phyclk_sel_t :=
  if gusbcfg_phy_sel p then (48, HCFG_FSLS_PHYCLK_SEL_48MHZ)
  else
    (if gusbcfg_ulpi_utmi_sel p then 60
     else if gusbcfg_phy_if16 p then 30 else 60,
     HCFG_FSLS_PHYCLK_SEL_30_60MHZ).

(** [handle_hprt_irq]: the word written to HPRT at line 665, the registers
    with HCFG and HFIR as the handler leaves them, and the events raised.
    HPRT is taken to hold one value for the length of the handler. *)
Definition handle_hprt_irq (in_isr : bool) (p : dwc2_port_regs_t)
    : dwc2_hprt_t * dwc2_port_regs_t * list hcd_port_event_t :=
  let flags := hprt_flags (hprt p) in
  let hprt_w := flags ∖ HPRT_W1C_MASK in
  let '(hprt_w, evs) :=
    if bool_decide (HPRT_CONN_DETECT ∈ flags)
    then (hprt_w ∪ {[HPRT_CONN_DETECT]},
          [if bool_decide (HPRT_CONN_STATUS ∈ flags)
           then HCD_EVENT_DEVICE_ATTACH in_isr
           else HCD_EVENT_DEVICE_REMOVE in_isr])
    else (hprt_w, []) in
  let '(hprt_w, p') :=
    if bool_decide (HPRT_ENABLE_CHANGE ∈ flags)
    then (hprt_w ∪ {[HPRT_ENABLE_CHANGE]},
          if bool_decide (HPRT_ENABLE ∈ flags)
          then
            let speed := convert_hprt_speed (hprt_speed (hprt p)) in
            let '(clock, sel) := hprt_phy_clock p in
            {| hprt := hprt p; hcfg_fsls_phyclk_sel := sel;
               hfir_frivl :=
                 if bool_decide (speed = TUSB_SPEED_HIGH) then 125 * clock
                 else 1000 * clock;
               gusbcfg_phy_sel := gusbcfg_phy_sel p;
               gusbcfg_ulpi_utmi_sel := gusbcfg_ulpi_utmi_sel p;
               gusbcfg_phy_if16 := gusbcfg_phy_if16 p |}
          else p)
    else (hprt_w, p) in
  ({| hprt_flags := hprt_w; hprt_speed := hprt_speed (hprt p) |}, p', evs).

(** *** FIFO layout *)

(** The endpoint sizes of tusb_types.h that [dfifo_host_init] uses. *)
Variable TUSB_EPSIZE_BULK_FS : Z.
Variable TUSB_EPSIZE_BULK_HS : Z.
Variable TUSB_EPSIZE_ISO_HS_MAX : Z.


(** *** The interrupt dispatcher *)

Record hcd_int_result_t := {
  int_data : hcd_data_t;
  int_regs : dwc2_regs_t;
  int_port : dwc2_port_regs_t;
  int_ram : gmap Z Byte.byte;
  (* the flags written to GINTSTS to clear them *)
  int_gintsts_written : gset gint_flag;
  (* the word written to HPRT, when the port handler ran *)
  int_hprt_written : option dwc2_hprt_t;
  int_port_events : list hcd_port_event_t;
  int_events : list hcd_event_t;
  int_tx_written : list tx_write_t
}.

(** [do { handle_rxflvl_irq(rhport); } while (dwc2->gintsts & GINTSTS_RXFLVL);]
    The core holds RXFLVL up for as long as the receive status queue has an
    entry; each pass pops one, so the length of the queue bounds the
    passes. *)
Fixpoint rxflvl_loop (fuel : nat) (d : hcd_data_t) (r : dwc2_regs_t)
    (ram : gmap Z Byte.byte) : hcd_data_t * dwc2_regs_t * gmap Z Byte.byte :=
  match fuel with
  | O => (d, r, ram)
  | S fuel' =>
      let '(d, r, ram) := handle_rxflvl_irq d r ram in
      match grxstsp r with
      | [] => (d, r, ram)
      | _ :: _ => rxflvl_loop fuel' d r ram
      end
  end.

(** [hcd_int_handler].  [gintsts] is the status word read at line 803. *)
Definition hcd_int_handler (in_isr : bool) (gintsts : gset gint_flag)
    (d : hcd_data_t) (r : dwc2_regs_t) (p : dwc2_port_regs_t)
    (ram : gmap Z Byte.byte) : hcd_int_result_t :=
  let int_mask := gintmsk r in
  let int_status := gintsts ∩ int_mask in
  let pending f := bool_decide (f ∈ int_status) in
  let cleared : gset gint_flag :=
    if pending GINTSTS_CONIDSTSCHNG then {[GINTSTS_CONIDSTSCHNG]} else ∅ in
  let '(hprt_w, p, port_evs) :=
    if pending GINTSTS_HPRTINT
    then let '(w, p, evs) := handle_hprt_irq in_isr p in (Some w, p, evs)
    else (None, p, []) in
  let '(d, r, evs) :=
    if pending GINTSTS_HCINT then handle_channel_irq in_isr (d, r, [])
    else (d, r, []) in
  let '(d, r, written) :=
    if pending GINTSTS_NPTX_FIFO_EMPTY
    then
      let '(more_isr, (d, r, written)) := handle_txfifo_empty false d r in
      if more_isr then (d, r, written)
      else (d, set_gintmsk r (gintmsk r ∖ {[GINTSTS_NPTX_FIFO_EMPTY]}), written)
    else (d, r, []) in
  let '(d, r, ram) :=
    if pending GINTSTS_RXFLVL
    then
      let r := set_gintmsk r (gintmsk r ∖ {[GINTSTS_RXFLVL]}) in
      let '(d, r, ram) := rxflvl_loop (S (length (grxstsp r))) d r ram in
      (d, set_gintmsk r (gintmsk r ∪ {[GINTSTS_RXFLVL]}), ram)
    else (d, r, ram) in
  {| int_data := d; int_regs := r; int_port := p; int_ram := ram;
     int_gintsts_written := cleared; int_hprt_written := hprt_w;
     int_port_events := port_evs; int_events := evs;
     int_tx_written := written |}.

(** *** Further examples *)

(** A full-speed device has just been connected and the port enabled, on a
    core with a 16-bit UTMI+ PHY. *)
Definition ex_port : dwc2_port_regs_t :=
  {| hprt := {| hprt_flags := {[HPRT_CONN_STATUS]} ∪ {[HPRT_CONN_DETECT]} ∪
                              {[HPRT_ENABLE]} ∪ {[HPRT_ENABLE_CHANGE]} ∪
                              {[HPRT_POWER]};
                hprt_speed := HPRT_SPEED_FULL |};
     hcfg_fsls_phyclk_sel := HCFG_FSLS_PHYCLK_SEL_30_60MHZ;
     hfir_frivl := 0;
     gusbcfg_phy_sel := false; gusbcfg_ulpi_utmi_sel := false;
     gusbcfg_phy_if16 := true |}.

(** The example registers with [f] unmasked in GINTMSK as well. *)
Definition ex_unmask (r : dwc2_regs_t) (f : gint_flag) : dwc2_regs_t :=
  set_gintmsk r (gintmsk r ∪ {[f]}).

(** A core that accepts every packet and shows no reaction. *)
Definition ex_dfifo_write_packet (r : dwc2_regs_t) (ch_id : nat) (buf bytes : Z)
    : dwc2_regs_t := r.

(** ** Scans *)

Lemma first_index_Some (P : nat -> bool) (n start i : nat) :
  first_index P start n = Some i ->
  (start <= i < start + n)%nat /\ P i = true /\
  forall j, (start <= j < i)%nat -> P j = false.
Proof.
  revert start. induction n as [|n IH]; intros start H; simpl in H; [discriminate|].
  destruct (P start) eqn:HP.
  - inversion H; subst. split; [lia|]. split; [exact HP|]. intros j Hj; lia.
  - apply IH in H as (Hr & Hi & Hmin). split; [lia|]. split; [exact Hi|].
    intros j Hj. destruct (decide (j = start)) as [->|Hne]; [exact HP|].
    apply Hmin; lia.
Qed.

Lemma first_index_None (P : nat -> bool) (n start : nat) :
  first_index P start n = None ->
  forall j, (start <= j < start + n)%nat -> P j = false.
Proof.
  revert start. induction n as [|n IH]; intros start H j Hj; [lia|].
  simpl in H. destruct (P start) eqn:HP; [discriminate|].
  destruct (decide (j = start)) as [->|Hne]; [exact HP|].
  apply (IH (S start)); [exact H | lia].
Qed.

Lemma first_index_ext (P Q : nat -> bool) (n start : nat) :
  (forall j, (start <= j < start + n)%nat -> P j = Q j) ->
  first_index P start n = first_index Q start n.
Proof.
  revert start. induction n as [|n IH]; intros start H; simpl; [reflexivity|].
  rewrite (H start) by lia. destruct (Q start); [reflexivity|].
  apply IH. intros j Hj. apply H. lia.
Qed.

(** ** Reading the arrays back *)

Lemma hcd_data_eq (a b : hcd_data_t) :
  xfer a = xfer b -> edpt a = edpt b -> a = b.
Proof. destruct a, b; simpl; intros -> ->; reflexivity. Qed.

Lemma edpt_at_set_edpt_eq d i e :
  (i < length (edpt d))%nat -> edpt_at (set_edpt d i e) i = e.
Proof.
  intros Hi. unfold edpt_at, set_edpt; simpl.
  rewrite list_lookup_insert_eq by exact Hi. reflexivity.
Qed.

Lemma edpt_at_set_edpt_ne d i j e :
  i <> j -> edpt_at (set_edpt d i e) j = edpt_at d j.
Proof.
  intros Hne. unfold edpt_at, set_edpt; simpl.
  rewrite list_lookup_insert_ne by exact Hne. reflexivity.
Qed.

Lemma xfer_at_set_xfer_eq d i x :
  (i < length (xfer d))%nat -> xfer_at (set_xfer d i x) i = x.
Proof.
  intros Hi. unfold xfer_at, set_xfer; simpl.
  rewrite list_lookup_insert_eq by exact Hi. reflexivity.
Qed.

Lemma xfer_at_set_xfer_ne d i j x :
  i <> j -> xfer_at (set_xfer d i x) j = xfer_at d j.
Proof.
  intros Hne. unfold xfer_at, set_xfer; simpl.
  rewrite list_lookup_insert_ne by exact Hne. reflexivity.
Qed.

Lemma channel_at_set_channel_eq r i c :
  (i < length (channel r))%nat -> channel_at (set_channel r i c) i = c.
Proof.
  intros Hi. unfold channel_at, set_channel; simpl.
  rewrite list_lookup_insert_eq by exact Hi. reflexivity.
Qed.

Lemma channel_at_set_channel_ne r i j c :
  i <> j -> channel_at (set_channel r i c) j = channel_at r j.
Proof.
  intros Hne. unfold channel_at, set_channel; simpl.
  rewrite list_lookup_insert_ne by exact Hne. reflexivity.
Qed.

(** An enabled slot read with [edpt_at] is a slot of the table. *)
Lemma edpt_at_enabled d i :
  enable (edpt_hcchar (edpt_at d i)) = true ->
  edpt d !! i = Some (edpt_at d i).
Proof.
  unfold edpt_at. destruct (edpt d !! i); simpl; [reflexivity|discriminate].
Qed.

Lemma edpt_find_opened_Some d dev num dir i :
  edpt_find_opened d dev num dir = Some i ->
  edpt d !! i = Some (edpt_at d i) /\
  edpt_matches dev num dir (edpt_hcchar (edpt_at d i)) = true.
Proof.
  intros H. apply first_index_Some in H as (_ & HP & _). split; [|exact HP].
  apply edpt_at_enabled. unfold edpt_matches in HP.
  destruct (enable (edpt_hcchar (edpt_at d i))); [reflexivity|discriminate].
Qed.

(** ** Closing a device *)

Lemma close_slot_idem dev e : close_slot dev (close_slot dev e) = close_slot dev e.
Proof.
  unfold close_slot.
  destruct (enable (edpt_hcchar e) && bool_decide (dev_addr (edpt_hcchar e) = dev))
    eqn:H; [reflexivity|]. rewrite H. reflexivity.
Qed.

Lemma close_loop_xfer dev n : forall d i, xfer (close_loop dev d i n) = xfer d.
Proof. induction n as [|n IH]; intros d i; simpl; [reflexivity|]. rewrite IH. reflexivity. Qed.

Lemma close_loop_lookup dev n : forall d start i,
  edpt (close_loop dev d start n) !! i =
  if bool_decide (start <= i < start + n)%nat
  then close_slot dev <$> (edpt d !! i) else edpt d !! i.
Proof.
  induction n as [|n IH]; intros d start i; simpl.
  - rewrite bool_decide_eq_false_2 by lia. reflexivity.
  - rewrite IH. simpl. destruct (decide (i = start)) as [->|Hne].
    + rewrite bool_decide_eq_false_2 by lia.
      rewrite bool_decide_eq_true_2 by lia.
      unfold edpt_at. destruct (edpt d !! start) as [e|] eqn:He; simpl.
      * apply list_lookup_insert_eq. eapply lookup_lt_Some; exact He.
      * rewrite list_insert_ge; [exact He|]. apply lookup_ge_None; exact He.
    + rewrite list_lookup_insert_ne by congruence.
      repeat case_bool_decide; try lia; reflexivity.
Qed.

Lemma hcd_device_close_lookup dev d i :
  edpt (hcd_device_close dev d) !! i =
  if bool_decide (i < CFG_TUH_DWC2_ENDPOINT_MAX)%nat
  then close_slot dev <$> (edpt d !! i) else edpt d !! i.
Proof.
  unfold hcd_device_close. rewrite close_loop_lookup.
  repeat case_bool_decide; try lia; reflexivity.
Qed.

(** C10. [hcd_device_close] clears every slot of the table that is enabled
    for the device and leaves every other slot as it was; it does not touch
    the channel pool, so a channel that is active for the device stays
    allocated; and closing the same device again changes nothing. *)
Theorem hcd_device_close_clears_device_slots (dev : Z) (d : hcd_data_t) :
  length (edpt d) = CFG_TUH_DWC2_ENDPOINT_MAX ->
  (forall i e, edpt d !! i = Some e ->
     edpt (hcd_device_close dev d) !! i =
     Some (if enable (edpt_hcchar e) && bool_decide (dev_addr (edpt_hcchar e) = dev)
           then hcd_endpoint_zero else e)) /\
  (forall i e, edpt (hcd_device_close dev d) !! i = Some e ->
     enable (edpt_hcchar e) = true -> dev_addr (edpt_hcchar e) <> dev) /\
  xfer (hcd_device_close dev d) = xfer d /\
  hcd_device_close dev (hcd_device_close dev d) = hcd_device_close dev d.
Proof.
  intros Hlen.
  assert (Hslot : forall i e, edpt d !! i = Some e ->
            edpt (hcd_device_close dev d) !! i = Some (close_slot dev e)).
  { intros i e He. rewrite hcd_device_close_lookup.
    rewrite bool_decide_eq_true_2; [rewrite He; reflexivity|].
    rewrite <- Hlen. eapply lookup_lt_Some; exact He. }
  split; [exact Hslot|]. split; [|split].
  - intros i e He Hen Hdev.
    rewrite hcd_device_close_lookup in He.
    assert (Hi : (i < CFG_TUH_DWC2_ENDPOINT_MAX)%nat).
    { destruct (decide (i < CFG_TUH_DWC2_ENDPOINT_MAX)%nat) as [|Hge]; [assumption|].
      rewrite bool_decide_eq_false_2 in He by exact Hge.
      apply lookup_lt_Some in He. lia. }
    rewrite bool_decide_eq_true_2 in He by exact Hi.
    destruct (edpt d !! i) as [e0|]; simpl in He; [|discriminate].
    inversion He as [He']; clear He. unfold close_slot in He'.
    destruct (enable (edpt_hcchar e0) && bool_decide (dev_addr (edpt_hcchar e0) = dev))
      eqn:Hm; subst e.
    + simpl in Hen. discriminate.
    + rewrite Hen in Hm. simpl in Hm. apply bool_decide_eq_false_1 in Hm. contradiction.
  - apply close_loop_xfer.
  - apply hcd_data_eq.
    + unfold hcd_device_close. rewrite !close_loop_xfer. reflexivity.
    + apply list_eq. intros i. rewrite !hcd_device_close_lookup.
      destruct (bool_decide (i < CFG_TUH_DWC2_ENDPOINT_MAX)%nat); [|reflexivity].
      destruct (edpt d !! i); simpl; [|reflexivity]. rewrite close_slot_idem. reflexivity.
Qed.

(** ** Uniqueness of the endpoint tuples *)

Lemma tuple_open_false d k j e :
  tuple_open d k = false -> edpt d !! j = Some e ->
  enable (edpt_hcchar e) = true -> slot_key e <> k.
Proof.
  intros Hno He Hen Hk. unfold tuple_open in Hno.
  assert (Hyes : existsb
            (fun e => enable (edpt_hcchar e) && bool_decide (slot_key e = k))
            (edpt d) = true).
  { apply existsb_exists. exists e. split.
    - apply list_elem_of_In. eapply list_elem_of_lookup_2; exact He.
    - rewrite Hen. simpl. apply bool_decide_eq_true_2. exact Hk. }
  congruence.
Qed.

Lemma edpt_unique_init : edpt_unique hcd_data_init.
Proof.
  intros i j ei ej Hi _ Hen _ _. unfold hcd_data_init in Hi.
  cbn [edpt] in Hi. apply lookup_replicate in Hi as [-> _].
  simpl in Hen. discriminate.
Qed.

Lemma hcd_edpt_open_unique info dev desc_ep d :
  edpt_unique d ->
  tuple_open d (dev, tu_edpt_number (bEndpointAddress desc_ep),
                tu_edpt_dir (bEndpointAddress desc_ep)) = false ->
  edpt_unique (snd (hcd_edpt_open info dev desc_ep d)).
Proof.
  intros Hu Hfresh. unfold hcd_edpt_open.
  destruct (first_index _ 0 CFG_TUH_DWC2_ENDPOINT_MAX) as [i|]; simpl; [|exact Hu].
  intros a b ea eb Ha Hb Hena Henb Hkey. simpl in Ha, Hb.
  apply list_lookup_insert_Some in Ha as [(-> & <- & _)|(Hna & Ha)];
    apply list_lookup_insert_Some in Hb as [(Hab & <- & _)|(Hnb & Hb)].
  - exact Hab.
  - exfalso. apply (tuple_open_false _ _ _ _ Hfresh Hb Henb).
    rewrite <- Hkey. reflexivity.
  - exfalso. apply (tuple_open_false _ _ _ _ Hfresh Ha Hena).
    rewrite Hkey. reflexivity.
  - exact (Hu a b ea eb Ha Hb Hena Henb Hkey).
Qed.

Lemma hcd_device_close_enabled dev d i e :
  edpt (hcd_device_close dev d) !! i = Some e ->
  enable (edpt_hcchar e) = true -> edpt d !! i = Some e.
Proof.
  rewrite hcd_device_close_lookup. case_bool_decide; [|tauto].
  destruct (edpt d !! i) as [e0|]; simpl; [|discriminate].
  intros He Hen. inversion He as [He']. unfold close_slot in *.
  destruct (enable (edpt_hcchar e0) && bool_decide (dev_addr (edpt_hcchar e0) = dev)).
  - subst e. simpl in Hen. discriminate.
  - reflexivity.
Qed.

Lemma hcd_device_close_unique dev d :
  edpt_unique d -> edpt_unique (hcd_device_close dev d).
Proof.
  intros Hu a b ea eb Ha Hb Hena Henb Hkey.
  apply hcd_device_close_enabled in Ha; [|exact Hena].
  apply hcd_device_close_enabled in Hb; [|exact Henb].
  exact (Hu a b ea eb Ha Hb Hena Henb Hkey).
Qed.

(** C6, as amended.  The scan of [hcd_edpt_open] looks for a slot whose
    enable bit is clear and for nothing else.  When every open of a sequence
    of open and close calls is for a tuple that is not open at that moment,
    a table with at most one enabled slot per (device address, endpoint
    number, direction) still has at most one per tuple after the sequence. *)
Theorem edpt_unique_run_ops (ops : list edpt_op) (d : hcd_data_t) :
  edpt_unique d -> opens_fresh ops d = true -> edpt_unique (run_ops ops d).
Proof.
  revert d. induction ops as [|op ops IH]; intros d Hu Hfresh; [exact Hu|].
  simpl in Hfresh. apply andb_prop in Hfresh as [Hop Hrest].
  unfold run_ops; simpl. apply IH; [|exact Hrest].
  destruct op as [info dev desc_ep|dev]; simpl.
  - apply hcd_edpt_open_unique; [exact Hu|].
    apply negb_true_iff in Hop. exact Hop.
  - apply hcd_device_close_unique. exact Hu.
Qed.

(** ** Transfer submission *)

Lemma DWC2_CHANNEL_COUNT_le r :
  (DWC2_CHANNEL_COUNT r <= Z.to_nat DWC2_CHANNEL_COUNT_MAX)%nat.
Proof. unfold DWC2_CHANNEL_COUNT, DWC2_CHANNEL_COUNT_MAX. lia. Qed.

Lemma channel_alloc_Some r d ch_id d1 :
  channel_alloc r d = (Some ch_id, d1) ->
  (ch_id < DWC2_CHANNEL_COUNT r)%nat /\
  state (xfer_at d ch_id) = HCD_XFER_STATE_UNALLOCATED /\
  d1 = set_xfer d ch_id
         {| state := HCD_XFER_STATE_ACTIVE; err_count := 0; buffer := 0;
            total_bytes := 0 |}.
Proof.
  unfold channel_alloc.
  destruct (first_index _ 0 (DWC2_CHANNEL_COUNT r)) as [i|] eqn:Hscan;
    intros H; inversion H; subst.
  apply first_index_Some in Hscan as (Hr & HP & _).
  apply bool_decide_eq_true_1 in HP. split; [lia|]. split; [exact HP|reflexivity].
Qed.

Lemma channel_alloc_xfer_only r d d2 ch_id d1 :
  channel_alloc r d = (Some ch_id, d1) -> xfer d2 = xfer d ->
  channel_alloc r d2 =
  (Some ch_id,
   set_xfer d2 ch_id
     {| state := HCD_XFER_STATE_ACTIVE; err_count := 0; buffer := 0;
        total_bytes := 0 |}).
Proof.
  unfold channel_alloc, xfer_at. intros H Hx. rewrite Hx.
  destruct (first_index _ 0 (DWC2_CHANNEL_COUNT r)) as [i|]; inversion H; subst.
  reflexivity.
Qed.

Lemma edpt_find_opened_toggle d i t dev num dir :
  edpt_find_opened
    (set_edpt d i {| edpt_hcchar := edpt_hcchar (edpt_at d i);
                     edpt_hcsplt := edpt_hcsplt (edpt_at d i);
                     next_data_toggle := t |}) dev num dir =
  edpt_find_opened d dev num dir.
Proof.
  unfold edpt_find_opened. apply first_index_ext. intros j _.
  f_equal. unfold edpt_at at 1 3, set_edpt. simpl.
  destruct (decide (i = j)) as [->|Hne].
  - unfold edpt_at. destruct (edpt d !! j) eqn:He; simpl.
    + rewrite list_lookup_insert_eq by (eapply lookup_lt_Some; exact He). reflexivity.
    + rewrite list_insert_ge by (apply lookup_ge_None; exact He). rewrite He. reflexivity.
  - rewrite list_lookup_insert_ne by exact Hne. reflexivity.
Qed.

Lemma edpt_at_set_xfer d i x j : edpt_at (set_xfer d i x) j = edpt_at d j.
Proof. reflexivity. Qed.

Lemma xfer_at_set_edpt d i e j : xfer_at (set_edpt d i e) j = xfer_at d j.
Proof. reflexivity. Qed.

Lemma channel_at_set_haintmsk r m i : channel_at (set_haintmsk r m) i = channel_at r i.
Proof. reflexivity. Qed.

Lemma channel_at_set_gintmsk r m i : channel_at (set_gintmsk r m) i = channel_at r i.
Proof. reflexivity. Qed.

Lemma length_xfer_set_xfer d i x : length (xfer (set_xfer d i x)) = length (xfer d).
Proof. apply length_insert. Qed.

Lemma length_edpt_set_edpt d i e : length (edpt (set_edpt d i e)) = length (edpt d).
Proof. apply length_insert. Qed.

Lemma length_channel_set_channel r i c :
  length (channel (set_channel r i c)) = length (channel r).
Proof. apply length_insert. Qed.

Lemma hcd_wf_set_xfer d r i x : hcd_wf d r -> hcd_wf (set_xfer d i x) r.
Proof. intros (? & ? & ?). repeat split; try assumption. rewrite length_xfer_set_xfer. assumption. Qed.

Lemma hcd_wf_set_edpt d r i e : hcd_wf d r -> hcd_wf (set_edpt d i e) r.
Proof. intros (? & ? & ?). repeat split; try assumption. rewrite length_edpt_set_edpt. assumption. Qed.

Lemma hcd_wf_set_channel d r i c : hcd_wf d r -> hcd_wf d (set_channel r i c).
Proof. intros (? & ? & ?). repeat split; try assumption. rewrite length_channel_set_channel. assumption. Qed.

Lemma hcd_wf_set_haintmsk d r m : hcd_wf d r -> hcd_wf d (set_haintmsk r m).
Proof. intros H. exact H. Qed.

Lemma hcd_wf_set_gintmsk d r m : hcd_wf d r -> hcd_wf d (set_gintmsk r m).
Proof. intros H. exact H. Qed.

Create HintDb hcd_wf.
#[local] Hint Resolve hcd_wf_set_xfer hcd_wf_set_edpt hcd_wf_set_channel
  hcd_wf_set_haintmsk hcd_wf_set_gintmsk : hcd_wf.

(** What a submission that reaches the channel programming leaves behind. *)
Lemma hcd_edpt_xfer_programmed dev ep_addr buf buflen d r ep_id ch_id d1 :
  hcd_wf d r ->
  edpt_find_opened d dev (tu_edpt_number ep_addr) (tu_edpt_dir ep_addr) = Some ep_id ->
  channel_alloc r d = (Some ch_id, d1) ->
  dma_host_enabled r = false ->
  exists ok d' r',
    hcd_edpt_xfer dev ep_addr buf buflen d r = (ok, d', r') /\
    ok = negb (bool_decide (tu_edpt_dir ep_addr = TUSB_DIR_IN) &&
               (request_queue_avail r
                  (channel_is_periodic (edpt_hcchar (edpt_at d ep_id))) =? 0)) /\
    hctsiz (channel_at r' ch_id) =
      hctsiz_bm
        (hctsiz_word (next_data_toggle (edpt_at d ep_id))
           (xfer_packet_count buflen (ep_size (edpt_hcchar (edpt_at d ep_id))))
           buflen) /\
    next_data_toggle (edpt_at d' ep_id) =
      advance_toggle (next_data_toggle (edpt_at d ep_id)) (tu_edpt_number ep_addr) /\
    (forall j, j <> ep_id -> edpt_at d' j = edpt_at d j) /\
    state (xfer_at d ch_id) = HCD_XFER_STATE_UNALLOCATED /\
    state (xfer_at d' ch_id) = HCD_XFER_STATE_ACTIVE /\
    hcd_wf d' r'.
Proof.
  intros (Hlx & Hle & Hlc) Hfind Halloc Hdma.
  pose proof (channel_alloc_Some _ _ _ _ Halloc) as (Hch & Hfree & Hd1).
  pose proof (DWC2_CHANNEL_COUNT_le r) as Hmax.
  pose proof (edpt_find_opened_Some _ _ _ _ _ Hfind) as (Hslot & _).
  assert (Hep : (ep_id < length (edpt d))%nat) by (eapply lookup_lt_Some; exact Hslot).
  unfold hcd_edpt_xfer. rewrite Hfind, Halloc, Hdma. subst d1.
  set (e := edpt_at d ep_id).
  assert (He : edpt_at (set_xfer d ch_id
                  {| state := HCD_XFER_STATE_ACTIVE; err_count := 0; buffer := 0;
                     total_bytes := 0 |}) ep_id = e) by reflexivity.
  rewrite He. unfold channel_is_periodic. cbn [ep_type hcchar_set_frame_dir].
  fold (channel_is_periodic (edpt_hcchar e)).
  assert (Hwf : hcd_wf d r) by (repeat split; assumption).
  assert (Hchl : (ch_id < length (channel r))%nat) by lia.
  assert (Hchx : (ch_id < length (xfer d))%nat) by lia.
  destruct (tu_edpt_dir ep_addr) eqn:Hdir;
    [destruct (0 <? buflen)
    |destruct (request_queue_avail r (channel_is_periodic (edpt_hcchar e)) =? 0) eqn:Hq];
    (eexists _, _, _; split; [reflexivity|]);
    (split; [reflexivity|]);
    rewrite ?channel_at_set_haintmsk;
    rewrite channel_at_set_channel_eq by (rewrite ?channel_at_set_gintmsk; exact Hchl);
    (split; [reflexivity|]);
    rewrite edpt_at_set_xfer, edpt_at_set_edpt_eq
      by (rewrite ?length_edpt_set_edpt; exact Hep);
    (split; [reflexivity|]);
    (split; [intros j Hj; rewrite edpt_at_set_xfer, edpt_at_set_edpt_ne by congruence;
             reflexivity|]);
    (split; [exact Hfree|]);
    rewrite xfer_at_set_xfer_eq
      by (cbn [xfer set_edpt set_xfer]; rewrite ?length_insert; exact Hchx);
    cbn [state]; rewrite xfer_at_set_edpt, xfer_at_set_xfer_eq by exact Hchx;
    (split; [reflexivity|]);
    auto 10 with hcd_wf.
Qed.

Lemma xfer_packet_count_spec buflen mps :
  0 <= buflen < 2 ^ 16 -> 0 < mps < 2 ^ 16 ->
  (buflen = 0 -> xfer_packet_count buflen mps = 1) /\
  (0 < buflen ->
   (xfer_packet_count buflen mps - 1) * mps < buflen <=
   xfer_packet_count buflen mps * mps).
Proof.
  intros Hb Hm. unfold xfer_packet_count, tu_div_ceil.
  change (2 ^ 16) with 65536 in *. change (2 ^ 32) with 4294967296.
  rewrite (Z.mod_small (buflen + mps - 1)) by lia.
  set (q := (buflen + mps - 1) / mps).
  assert (Hq1 : mps * q <= buflen + mps - 1) by (apply Z.mul_div_le; lia).
  assert (Hq2 : buflen + mps - 1 < mps * Z.succ q)
    by (apply Z.mul_succ_div_gt; lia).
  assert (Hq0 : 0 <= q) by (apply Z.div_pos; lia).
  assert (Hq3 : q <= buflen) by nia.
  rewrite (Z.mod_small q) by lia.
  destruct (q =? 0) eqn:Hz;
    [apply Z.eqb_eq in Hz | apply Z.eqb_neq in Hz]; split; intros; nia.
Qed.

Example xfer_packet_count_150_64 : xfer_packet_count 150 64 = 3.
Proof. reflexivity. Qed.

Example xfer_packet_count_zero_length : xfer_packet_count 0 64 = 1.
Proof. reflexivity. Qed.

Example xfer_packet_count_exact : xfer_packet_count 128 64 = 2.
Proof. reflexivity. Qed.

(** *** The HCTSIZ word *)

Lemma testbit_small x k n : 0 <= x < 2 ^ k -> 0 <= k <= n -> Z.testbit x n = false.
Proof.
  intros Hx Hn. rewrite <- (Z.mod_small x (2 ^ k)) by lia.
  apply Z.mod_pow2_bits_high. lia.
Qed.

(** The fields the core shows after line 460: the length, the packet count
    cut to its 10 bits, and a PID that has the upper bits of the packet
    count ORed in. *)
Lemma hctsiz_bm_word t c b :
  0 <= b < 2 ^ 19 -> 0 <= c ->
  hctsiz_bm (hctsiz_word t c b) =
  {| xfer_size := b; packet_count := c mod 2 ^ 10;
     pid := hctsiz_pid_of_code (Z.lor (hctsiz_pid_code t) (c / 2 ^ 10) mod 2 ^ 2) |}.
Proof.
  intros Hb Hc. unfold hctsiz_bm, hctsiz_word, HCTSIZ_PKTCNT_Pos, HCTSIZ_PID_Pos.
  change (29 - 19) with 10.
  assert (Ht : 0 <= hctsiz_pid_code t) by (destruct t; cbn; lia).
  f_equal; [| |f_equal]; apply Z.bits_inj'; intros n Hn;
    rewrite Z.land_spec, Z.testbit_ones_nonneg by lia.
  - destruct (Z.ltb_spec n 19) as [Hlt|Hge].
    + rewrite andb_true_r, Z.mod_pow2_bits_low by lia.
      rewrite !Z.lor_spec, !Z.shiftl_spec by lia.
      rewrite (Z.testbit_neg_r _ (n - 29)), (Z.testbit_neg_r _ (n - 19)) by lia.
      reflexivity.
    + rewrite andb_false_r. symmetry. apply (testbit_small b 19); lia.
  - destruct (Z.ltb_spec n 10) as [Hlt|Hge].
    + rewrite andb_true_r, Z.shiftr_spec, Z.mod_pow2_bits_low by lia.
      rewrite !Z.lor_spec, !Z.shiftl_spec by lia.
      rewrite (Z.testbit_neg_r _ (n + 19 - 29)) by lia.
      rewrite (testbit_small b 19 (n + 19)) by lia.
      rewrite Z.mod_pow2_bits_low by lia.
      replace (n + 19 - 19) with n by lia.
      rewrite orb_false_r. reflexivity.
    + rewrite andb_false_r. symmetry. apply Z.mod_pow2_bits_high. lia.
  - destruct (Z.ltb_spec n 2) as [Hlt|Hge].
    + rewrite andb_true_r, Z.shiftr_spec, Z.mod_pow2_bits_low by lia.
      rewrite !Z.lor_spec, !Z.shiftl_spec by lia.
      rewrite (testbit_small b 19 (n + 29)) by lia.
      rewrite Z.mod_pow2_bits_low by lia.
      rewrite Z.lor_spec, <- Z.shiftr_div_pow2, Z.shiftr_spec by lia.
      replace (n + 29 - 29) with n by lia.
      replace (n + 29 - 19) with (n + 10) by lia.
      rewrite orb_false_r. reflexivity.
    + rewrite andb_false_r. symmetry. apply Z.mod_pow2_bits_high. lia.
Qed.

(** A packet count that fits its field is read back as written, beside
    the toggle and the length. *)
Lemma hctsiz_bm_word_fits t c b :
  0 <= b < 2 ^ 19 -> 0 <= c < 2 ^ 10 ->
  hctsiz_bm (hctsiz_word t c b) =
  {| xfer_size := b; packet_count := c; pid := t |}.
Proof.
  intros Hb Hc. rewrite hctsiz_bm_word by lia.
  rewrite (Z.mod_small c) by lia. rewrite (Z.div_small c) by lia.
  rewrite Z.lor_0_r. destruct t; reflexivity.
Qed.

Lemma xfer_packet_count_range buflen mps :
  0 < xfer_packet_count buflen mps < 2 ^ 16.
Proof.
  unfold xfer_packet_count.
  pose proof (Z.mod_pos_bound (tu_div_ceil buflen mps) (2 ^ 16) ltac:(lia)) as H.
  destruct (Z.eqb_spec (tu_div_ceil buflen mps mod 2 ^ 16) 0); lia.
Qed.

(** C9: what the code does.  A submission that reaches the channel
    programming computes, as its packet count, the ceiling of length / max
    packet size (1 for a zero-length transfer), and shifts it into HCTSIZ
    unmasked: the packet count the channel is programmed with is that
    ceiling modulo 2^10.  It is the ceiling, and not 0, for a transfer of
    fewer than 1024 packets, and differs from it for every other. *)
Theorem hcd_edpt_xfer_packet_count dev ep_addr buf buflen d r ep_id ch_id d1 :
  hcd_wf d r ->
  edpt_find_opened d dev (tu_edpt_number ep_addr) (tu_edpt_dir ep_addr) = Some ep_id ->
  channel_alloc r d = (Some ch_id, d1) ->
  dma_host_enabled r = false ->
  0 <= buflen < 2 ^ 16 ->
  0 < ep_size (edpt_hcchar (edpt_at d ep_id)) < 2 ^ 16 ->
  let mps := ep_size (edpt_hcchar (edpt_at d ep_id)) in
  let count := xfer_packet_count buflen mps in
  let n := packet_count
             (hctsiz (channel_at (snd (hcd_edpt_xfer dev ep_addr buf buflen d r))
                        ch_id)) in
  (buflen = 0 -> count = 1) /\
  (0 < buflen -> (count - 1) * mps < buflen <= count * mps) /\
  n = count mod 2 ^ 10 /\
  (count < 2 ^ 10 -> n = count /\ n <> 0) /\
  (2 ^ 10 <= count -> n <> count).
Proof.
  intros Hwf Hfind Halloc Hdma Hlen Hmps mps count n.
  destruct (hcd_edpt_xfer_programmed dev ep_addr buf buflen d r ep_id ch_id d1
              Hwf Hfind Halloc Hdma)
    as (ok & d' & r' & Hrun & _ & Htsiz & _).
  pose proof (xfer_packet_count_range buflen mps) as Hrange. fold count in Hrange.
  assert (Hn : n = count mod 2 ^ 10).
  { subst n. rewrite Hrun. cbn [snd]. rewrite Htsiz.
    fold mps. fold count. rewrite hctsiz_bm_word by lia. reflexivity. }
  destruct (xfer_packet_count_spec buflen mps Hlen Hmps) as [Hz Hc].
  split; [exact Hz|]. split; [exact Hc|]. split; [exact Hn|].
  pose proof (Z.mod_pos_bound count (2 ^ 10) ltac:(lia)) as Hmod.
  split.
  - intros Hfit. rewrite Hn, Z.mod_small by lia. lia.
  - intros Hbig. lia.
Qed.

(** The 8-byte setup packet takes at most 8 packets. *)
Lemma xfer_packet_count_setup mps : 0 < mps -> xfer_packet_count 8 mps < 2 ^ 10.
Proof.
  intros Hm. unfold xfer_packet_count, tu_div_ceil.
  pose proof (Z.mod_pos_bound (8 + mps - 1) (2 ^ 32) ltac:(lia)) as Hb.
  assert (Hq0 : 0 <= (8 + mps - 1) mod 2 ^ 32 / mps) by (apply Z.div_pos; lia).
  assert (Hq : (8 + mps - 1) mod 2 ^ 32 / mps < 2 ^ 10).
  { apply Z.div_lt_upper_bound; [lia|].
    destruct (Z_lt_le_dec (8 + mps - 1) (2 ^ 32)) as [Hs|Hs].
    - rewrite Z.mod_small by lia. lia.
    - lia. }
  rewrite (Z.mod_small ((8 + mps - 1) mod 2 ^ 32 / mps)) by lia.
  destruct (_ =? 0); lia.
Qed.

(** C7. A submission that reaches the channel programming advances the
    stored toggle of its endpoint once and touches no other slot: on
    endpoint number 0, or from DATA0, the stored toggle becomes DATA1; on
    another endpoint it goes from DATA1 back to DATA0.  A setup submission
    overwrites the stored toggle with the SETUP value whatever the slot
    held, and the same rule then stores DATA1.  The PID the channel is
    programmed with is the toggle stored before the call (SETUP for a
    setup submission) when the packet count fits the 10 bits of its
    field, as the one of the 8-byte setup packet does. *)
Theorem hcd_edpt_xfer_advances_toggle dev d r ch_id d1 :
  hcd_wf d r ->
  channel_alloc r d = (Some ch_id, d1) ->
  dma_host_enabled r = false ->
  (forall ep_addr buf buflen ep_id,
     edpt_find_opened d dev (tu_edpt_number ep_addr) (tu_edpt_dir ep_addr)
       = Some ep_id ->
     let old := next_data_toggle (edpt_at d ep_id) in
     let out := hcd_edpt_xfer dev ep_addr buf buflen d r in
     let new := next_data_toggle (edpt_at (snd (fst out)) ep_id) in
     (0 <= buflen < 2 ^ 16 ->
      xfer_packet_count buflen (ep_size (edpt_hcchar (edpt_at d ep_id))) < 2 ^ 10 ->
      pid (hctsiz (channel_at (snd out) ch_id)) = old) /\
     (tu_edpt_number ep_addr = 0 \/ old = HCTSIZ_PID_DATA0 ->
      new = HCTSIZ_PID_DATA1) /\
     (tu_edpt_number ep_addr <> 0 -> old = HCTSIZ_PID_DATA1 ->
      new = HCTSIZ_PID_DATA0) /\
     (forall j, j <> ep_id ->
        edpt_at (snd (fst out)) j = edpt_at d j)) /\
  (forall setup_packet ep_id,
     edpt_find_opened d dev 0 TUSB_DIR_OUT = Some ep_id ->
     let out := hcd_setup_send dev setup_packet d r in
     fst (fst out) = true /\
     (0 < ep_size (edpt_hcchar (edpt_at d ep_id)) ->
      pid (hctsiz (channel_at (snd out) ch_id)) = HCTSIZ_PID_SETUP) /\
     next_data_toggle (edpt_at (snd (fst out)) ep_id) = HCTSIZ_PID_DATA1).
Proof.
  intros Hwf Halloc Hdma. split.
  - intros ep_addr buf buflen ep_id Hfind old out new.
    destruct (hcd_edpt_xfer_programmed dev ep_addr buf buflen d r ep_id ch_id d1
                Hwf Hfind Halloc Hdma)
      as (ok & d' & r' & Hrun & _ & Htsiz & Htog & Hother & _).
    subst new out. rewrite Hrun. cbn [fst snd]. rewrite Htsiz, Htog.
    fold old. unfold advance_toggle. split; [|split; [|split]].
    + intros Hlen Hfit.
      pose proof (xfer_packet_count_range buflen
                    (ep_size (edpt_hcchar (edpt_at d ep_id)))) as Hrange.
      rewrite hctsiz_bm_word_fits by lia. reflexivity.
    + intros [Hz|Hz]; rewrite Hz.
      * rewrite orb_true_r. reflexivity.
      * reflexivity.
    + intros Hn Ho. rewrite Ho. rewrite (bool_decide_eq_false_2 _ Hn). reflexivity.
    + exact Hother.
  - intros setup_packet ep_id Hfind out. subst out. unfold hcd_setup_send.
    rewrite Hfind.
    set (d2 := set_edpt d ep_id _).
    assert (Hfind2 : edpt_find_opened d2 dev
                       (tu_edpt_number (tu_edpt_addr 0 TUSB_DIR_OUT))
                       (tu_edpt_dir (tu_edpt_addr 0 TUSB_DIR_OUT)) = Some ep_id).
    { subst d2. cbn [tu_edpt_number tu_edpt_dir].
      rewrite edpt_find_opened_toggle. exact Hfind. }
    assert (Halloc2 := channel_alloc_xfer_only r d d2 ch_id d1 Halloc eq_refl).
    assert (Hwf2 : hcd_wf d2 r) by (subst d2; auto with hcd_wf).
    destruct (hcd_edpt_xfer_programmed dev (tu_edpt_addr 0 TUSB_DIR_OUT)
                setup_packet 8 d2 r ep_id ch_id _ Hwf2 Hfind2 Halloc2 Hdma)
      as (ok & d' & r' & Hrun & Hok & Htsiz & Htog & _).
    rewrite Hrun. cbn [fst snd]. rewrite Htsiz, Htog.
    pose proof (edpt_find_opened_Some _ _ _ _ _ Hfind) as (Hslot & _).
    assert (Hin : (ep_id < length (edpt d))%nat)
      by (eapply lookup_lt_Some; exact Hslot).
    assert (Hold : next_data_toggle (edpt_at d2 ep_id) = HCTSIZ_PID_SETUP).
    { subst d2. rewrite edpt_at_set_edpt_eq; [reflexivity | exact Hin]. }
    assert (Hsize : ep_size (edpt_hcchar (edpt_at d2 ep_id))
                    = ep_size (edpt_hcchar (edpt_at d ep_id))).
    { subst d2. rewrite edpt_at_set_edpt_eq; [reflexivity | exact Hin]. }
    rewrite Hold, Hsize. split; [|split; [|reflexivity]].
    + rewrite Hok. reflexivity.
    + intros Hmps.
      pose proof (xfer_packet_count_range 8
                    (ep_size (edpt_hcchar (edpt_at d ep_id)))) as Hrange.
      rewrite hctsiz_bm_word_fits; [reflexivity | lia |].
      split; [lia|]. apply xfer_packet_count_setup. exact Hmps.
Qed.

(** C1: what the code does.  An IN submission that finds the request queue
    of its class full returns false, and the channel that [channel_alloc]
    took for it, unallocated before the call, is left active. *)
Theorem hcd_edpt_xfer_queue_full_keeps_channel
    dev ep_addr buf buflen d r ep_id ch_id d1 :
  hcd_wf d r ->
  edpt_find_opened d dev (tu_edpt_number ep_addr) (tu_edpt_dir ep_addr) = Some ep_id ->
  channel_alloc r d = (Some ch_id, d1) ->
  dma_host_enabled r = false ->
  tu_edpt_dir ep_addr = TUSB_DIR_IN ->
  request_queue_avail r (channel_is_periodic (edpt_hcchar (edpt_at d ep_id))) = 0 ->
  let out := hcd_edpt_xfer dev ep_addr buf buflen d r in
  fst (fst out) = false /\
  state (xfer_at d ch_id) = HCD_XFER_STATE_UNALLOCATED /\
  state (xfer_at (snd (fst out)) ch_id) = HCD_XFER_STATE_ACTIVE.
Proof.
  intros Hwf Hfind Halloc Hdma Hdir Hq out.
  destruct (hcd_edpt_xfer_programmed dev ep_addr buf buflen d r ep_id ch_id d1
              Hwf Hfind Halloc Hdma)
    as (ok & d' & r' & Hrun & Hok & _ & _ & _ & Hfree & Hactive & _).
  subst out. rewrite Hrun. cbn [fst snd]. split; [|split; assumption].
  rewrite Hok, Hdir, Hq. reflexivity.
Qed.

(** C8: what the code does.  When the endpoint is open and no channel is
    allocated for it, [hcd_edpt_abort_xfer] returns true and writes no
    register. *)
Theorem hcd_edpt_abort_xfer_without_channel dev ep_addr d r ep_id :
  edpt_find_opened d dev (tu_edpt_number ep_addr) (tu_edpt_dir ep_addr) = Some ep_id ->
  channel_find_enabled r d dev (tu_edpt_number ep_addr) (tu_edpt_dir ep_addr) = None ->
  hcd_edpt_abort_xfer dev ep_addr d r = (true, r).
Proof.
  intros Hfind Hnone. unfold hcd_edpt_abort_xfer. rewrite Hfind, Hnone. reflexivity.
Qed.

(** The other outcomes of [hcd_edpt_abort_xfer]: true with the disable bit
    set when a channel is found and the request queue has room, false only
    when the endpoint is not open. *)
Lemma hcd_edpt_abort_xfer_with_channel dev ep_addr d r ep_id ch_id :
  edpt_find_opened d dev (tu_edpt_number ep_addr) (tu_edpt_dir ep_addr) = Some ep_id ->
  channel_find_enabled r d dev (tu_edpt_number ep_addr) (tu_edpt_dir ep_addr)
    = Some ch_id ->
  request_queue_avail r (channel_is_periodic (edpt_hcchar (edpt_at d ep_id))) <> 0 ->
  (ch_id < length (channel r))%nat ->
  let out := hcd_edpt_abort_xfer dev ep_addr d r in
  fst out = true /\ disable (hcchar (channel_at (snd out) ch_id)) = true.
Proof.
  intros Hfind Hch Hq Hlen. unfold hcd_edpt_abort_xfer. rewrite Hfind, Hch.
  apply Z.eqb_neq in Hq. rewrite Hq. cbn [fst snd]. split; [reflexivity|].
  rewrite channel_at_set_channel_eq by exact Hlen. reflexivity.
Qed.

Lemma hcd_edpt_abort_xfer_not_open dev ep_addr d r :
  edpt_find_opened d dev (tu_edpt_number ep_addr) (tu_edpt_dir ep_addr) = None ->
  hcd_edpt_abort_xfer dev ep_addr d r = (false, r).
Proof. intros Hfind. unfold hcd_edpt_abort_xfer. rewrite Hfind. reflexivity. Qed.

(** ** Receive path *)

Lemma write_bytes_other bs : forall ram dst a,
  a < dst \/ dst + Z.of_nat (length bs) <= a ->
  write_bytes ram dst bs !! a = ram !! a.
Proof.
  induction bs as [|b bs IH]; intros ram dst a Ha; simpl; [reflexivity|].
  rewrite IH by (simpl in Ha; lia).
  apply lookup_insert_ne. simpl in Ha. lia.
Qed.

Lemma write_bytes_lookup bs : forall ram dst (i : nat) b,
  bs !! i = Some b ->
  write_bytes ram dst bs !! (dst + Z.of_nat i) = Some b.
Proof.
  induction bs as [|b0 bs IH]; intros ram dst i b Hi; [discriminate|].
  destruct i as [|i]; cbn [write_bytes].
  - inversion Hi; subst. rewrite write_bytes_other by lia.
    rewrite Z.add_0_r. apply lookup_insert_eq.
  - replace (dst + Z.of_nat (S i)) with (dst + 1 + Z.of_nat i) by lia.
    apply IH. exact Hi.
Qed.

(** C5, as amended.  A data-received entry whose byte count is below the
    transfer-size field of the channel's HCTSIZ register (the field that
    submission programs with the whole requested length, not the endpoint's
    packet size) moves exactly byte_count bytes from the receive FIFO to the
    channel's buffer, advances the buffer cursor by byte_count, and lowers
    the channel's byte counter by that transfer-size field, modulo 2^16. *)
Theorem handle_rxflvl_irq_short_packet d r ram e q :
  grxstsp r = e :: q ->
  packet_status e = GRXSTS_PKTSTS_RX_DATA ->
  (ep_ch_num e < length (xfer d))%nat ->
  0 <= byte_count e < xfer_size (hctsiz (channel_at r (ep_ch_num e))) ->
  let ch_id := ep_ch_num e in
  let x := xfer_at d ch_id in
  let size := xfer_size (hctsiz (channel_at r ch_id)) in
  let out := handle_rxflvl_irq d r ram in
  let x' := xfer_at (fst (fst out)) ch_id in
  let ram' := snd out in
  buffer x' = buffer x + byte_count e /\
  total_bytes x' = (total_bytes x - size) mod 2 ^ 16 /\
  (size <= total_bytes x < 2 ^ 16 -> total_bytes x' = total_bytes x - size) /\
  state x' = state x /\
  grxstsp (snd (fst out)) = q /\
  rx_fifo (snd (fst out)) = drop (Z.to_nat (byte_count e)) (rx_fifo r) /\
  (forall (i : nat) b, (i < Z.to_nat (byte_count e))%nat ->
     rx_fifo r !! i = Some b -> ram' !! (buffer x + Z.of_nat i) = Some b) /\
  (forall a, a < buffer x \/ buffer x + byte_count e <= a ->
     ram' !! a = ram !! a).
Proof.
  intros Hq Hst Hlen Hbc ch_id x size out x' ram'.
  subst out x' ram'. unfold handle_rxflvl_irq. rewrite Hq, Hst.
  unfold dfifo_read_packet. cbn [fst snd].
  fold ch_id. fold x.
  change (channel_at (set_rx (set_rx r q (rx_fifo r)) _ _) ch_id)
    with (channel_at r ch_id).
  fold size.
  assert (Hlt : (byte_count e <? size) = true)
    by (apply Z.ltb_lt; unfold size, ch_id; lia).
  rewrite Hlt. rewrite xfer_at_set_xfer_eq by exact Hlen. cbn.
  split; [reflexivity|]. split; [reflexivity|]. split.
  { intros Hr. apply Z.mod_small. change (2 ^ 16) with 65536 in *.
    unfold size, ch_id in *. lia. }
  split; [reflexivity|]. split; [reflexivity|]. split; [reflexivity|]. split.
  - intros i b Hi Hb. apply write_bytes_lookup.
    rewrite lookup_take_lt by exact Hi. exact Hb.
  - intros a Ha. apply write_bytes_other.
    rewrite length_take. lia.
Qed.

(** ** Channel interrupts *)

Lemma for_loop_preserves {A} (R : A -> A -> Prop) (body : nat -> A -> flow A) :
  (forall a, R a a) ->
  (forall a b c, R a b -> R b c -> R a c) ->
  (forall i a, R a (flow_out (body i a))) ->
  forall n start a, R a (flow_out (for_loop body start n a)).
Proof.
  intros Hrefl Htrans Hbody. induction n as [|n IH]; intros start a; simpl.
  - apply Hrefl.
  - pose proof (Hbody start a) as Hstep.
    destruct (body start a) as [a'|a']; simpl in *.
    + eapply Htrans; [exact Hstep | apply IH].
    + exact Hstep.
Qed.

(** The results the if / else-if chain can produce. *)
Lemma channel_irq_dispatch_result ch_id hcint hcchar_bm d r res d' r' :
  channel_irq_dispatch ch_id hcint hcchar_bm d r = Some (res, d', r') ->
  res = XFER_RESULT_SUCCESS \/ res = XFER_RESULT_STALLED \/
  res = XFER_RESULT_INVALID.
Proof.
  unfold channel_irq_dispatch.
  repeat match goal with
         | |- context [if ?b then _ else _] => destruct b
         | |- context [match ?t with TUSB_DIR_OUT => _ | TUSB_DIR_IN => _ end] =>
             destruct t
         end;
    intros H; inversion H; auto.
Qed.

Lemma events_extend_refl s : events_extend s s.
Proof. exists []. split; [symmetry; apply app_nil_r | constructor]. Qed.

Lemma events_extend_trans a b c :
  events_extend a b -> events_extend b c -> events_extend a c.
Proof.
  intros (n1 & H1 & F1) (n2 & H2 & F2). exists (n1 ++ n2). split.
  - rewrite H2, H1. symmetry. apply app_assoc.
  - apply Forall_app. split; assumption.
Qed.

Lemma channel_irq_events in_isr ch_id s :
  events_extend s (flow_out (channel_irq in_isr ch_id s)).
Proof.
  destruct s as [[d r] evs]. unfold channel_irq.
  destruct (tu_bit_test (haint r) ch_id); [|apply events_extend_refl].
  destruct (dma_host_enabled r); [exists []; split; [symmetry; apply app_nil_r|constructor]|].
  destruct (channel_irq_dispatch _ _ _ d r) as [[[res d'] r']|] eqn:Hdisp;
    [|apply events_extend_refl].
  destruct (negb (bool_decide (res = XFER_RESULT_INVALID))) eqn:Hdone; simpl.
  - exists [{| ev_dev_addr := dev_addr (hcchar (channel_at r ch_id));
               ev_ep_addr := tu_edpt_addr (ep_num (hcchar (channel_at r ch_id)))
                               (ep_dir (hcchar (channel_at r ch_id)));
               ev_xferred_bytes := 0; ev_result := res; ev_in_isr := in_isr |}].
    split; [reflexivity|]. constructor; [reflexivity|constructor].
  - destruct (hcint_test _ HCINT_CHANNEL_HALTED); simpl;
      exists []; (split; [symmetry; apply app_nil_r|constructor]).
Qed.

Lemma hcint_test_halted_only (m : gset hcint_flag) (f : hcint_flag) :
  f <> HCINT_CHANNEL_HALTED ->
  hcint_test ({[HCINT_CHANNEL_HALTED]} ∩ m) f = false.
Proof.
  intros Hne. apply bool_decide_eq_false_2.
  intros [Hin _]%elem_of_intersection.
  apply elem_of_singleton in Hin. contradiction.
Qed.

(** A channel on which only the channel-halted flag is raised: whatever the
    mask and whatever the error counter, the handler produces no result,
    raises no notification and leaves the driver's channel state alone. *)
Lemma channel_irq_halted_only in_isr ch_id d r evs :
  dma_host_enabled r = false ->
  hcint (channel_at r ch_id) = {[HCINT_CHANNEL_HALTED]} ->
  exists r', channel_irq in_isr ch_id (d, r, evs) = Continue (d, r', evs).
Proof.
  intros Hdma Hraw. unfold channel_irq.
  destruct (tu_bit_test (haint r) ch_id); [|eexists; reflexivity].
  rewrite Hdma, Hraw. unfold channel_irq_dispatch.
  set (m := hcintmsk (channel_at r ch_id)).
  rewrite (hcint_test_halted_only m HCINT_XFER_COMPLETE) by discriminate.
  rewrite (hcint_test_halted_only m HCINT_STALL) by discriminate.
  rewrite (hcint_test_halted_only m HCINT_NAK) by discriminate.
  rewrite (hcint_test_halted_only m HCINT_XACT_ERR) by discriminate.
  rewrite (hcint_test_halted_only m HCINT_NYET) by discriminate.
  rewrite (hcint_test_halted_only m HCINT_ACK) by discriminate.
  cbn [orb].
  destruct (hcint_test ({[HCINT_CHANNEL_HALTED]} ∩ m) HCINT_CHANNEL_HALTED).
  - destruct (err_multi_count (hcchar (channel_at r ch_id)) =? HCD_XFER_ERROR_MAX);
      simpl; eexists; reflexivity.
  - simpl. eexists; reflexivity.
Qed.

(** ** Transmit path *)

(** The packet loop stops exactly when the FIFO is short of space and the
    request queue has room. *)
Lemma txfifo_packet_stops is_periodic ch_id hcchar_bm i d r written :
  let xact_bytes :=
    Z.min (xfer_size (hctsiz (channel_at r ch_id)) mod 2 ^ 16) (ep_size hcchar_bm) in
  (fifo_available (txsts_bm r is_periodic) < xact_bytes /\
   0 < req_queue_available (txsts_bm r is_periodic) ->
   txfifo_packet is_periodic ch_id hcchar_bm i (d, r, written)
   = Return (d, r, written)) /\
  (xact_bytes <= fifo_available (txsts_bm r is_periodic) \/
   req_queue_available (txsts_bm r is_periodic) <= 0 ->
   exists d' r',
     txfifo_packet is_periodic ch_id hcchar_bm i (d, r, written)
     = Continue (d', r',
                 written ++ [{| tx_ch_id := ch_id;
                                tx_buffer := buffer (xfer_at d ch_id);
                                tx_bytes := xact_bytes |}])).
Proof.
  intros xact_bytes. unfold txfifo_packet. fold xact_bytes. split.
  - intros [Hf Hq]. apply Z.ltb_lt in Hf, Hq. rewrite Hf, Hq. reflexivity.
  - intros H.
    destruct ((fifo_available (txsts_bm r is_periodic) <? xact_bytes) &&
              (0 <? req_queue_available (txsts_bm r is_periodic))) eqn:Hc.
    + apply andb_prop in Hc as [Hf Hq]. apply Z.ltb_lt in Hf, Hq. lia.
    + eexists _, _. reflexivity.
Qed.

(** ** More on the scans *)

Lemma first_index_all_false (P : nat -> bool) (n start : nat) :
  (forall j, (start <= j < start + n)%nat -> P j = false) ->
  first_index P start n = None.
Proof.
  revert start. induction n as [|n IH]; intros start H; simpl; [reflexivity|].
  rewrite (H start) by lia. apply IH. intros j Hj. apply H. lia.
Qed.

Lemma first_index_exists (P : nat -> bool) (n start j : nat) :
  (start <= j < start + n)%nat -> P j = true ->
  exists i, first_index P start n = Some i /\ (i <= j)%nat.
Proof.
  revert start. induction n as [|n IH]; intros start Hj HP; [lia|]. simpl.
  destruct (P start) eqn:Hs; [exists start; split; [reflexivity|lia]|].
  destruct (decide (j = start)) as [->|Hne]; [congruence|].
  apply IH; [lia | exact HP].
Qed.

(** ** The endpoint table, beyond uniqueness *)

(** [hcd_edpt_open] fails exactly when every slot of the table is enabled,
    and a failed open leaves the table as it was. *)
Theorem hcd_edpt_open_fails_iff_full info dev desc_ep d :
  (fst (hcd_edpt_open info dev desc_ep d) = false <->
   forall i, (i < CFG_TUH_DWC2_ENDPOINT_MAX)%nat ->
             enable (edpt_hcchar (edpt_at d i)) = true) /\
  (fst (hcd_edpt_open info dev desc_ep d) = false ->
   snd (hcd_edpt_open info dev desc_ep d) = d).
Proof.
  unfold hcd_edpt_open.
  destruct (first_index _ 0 CFG_TUH_DWC2_ENDPOINT_MAX) as [i|] eqn:Hscan; simpl.
  - split; [|discriminate]. split; [discriminate|]. intros Hall.
    apply first_index_Some in Hscan as (Hr & HP & _).
    rewrite Hall in HP by lia. discriminate.
  - split; [|reflexivity]. split; [|reflexivity]. intros _ i Hi.
    pose proof (first_index_None _ _ _ Hscan i ltac:(lia)) as HP.
    apply negb_false_iff in HP. exact HP.
Qed.

(** A successful [hcd_edpt_open] fills the lowest free slot with the
    descriptor's fields, the device address and the DATA0 toggle, and
    writes no other slot and no channel. *)
Theorem hcd_edpt_open_lowest_free info dev desc_ep d i :
  length (edpt d) = CFG_TUH_DWC2_ENDPOINT_MAX ->
  (i < CFG_TUH_DWC2_ENDPOINT_MAX)%nat ->
  enable (edpt_hcchar (edpt_at d i)) = false ->
  (forall j, (j < i)%nat -> enable (edpt_hcchar (edpt_at d j)) = true) ->
  let out := hcd_edpt_open info dev desc_ep d in
  let e := edpt_at (snd out) i in
  fst out = true /\
  enable (edpt_hcchar e) = true /\
  dev_addr (edpt_hcchar e) = dev /\
  ep_num (edpt_hcchar e) = tu_edpt_number (bEndpointAddress desc_ep) /\
  ep_dir (edpt_hcchar e) = tu_edpt_dir (bEndpointAddress desc_ep) /\
  ep_size (edpt_hcchar e) = tu_edpt_packet_size desc_ep /\
  ep_type (edpt_hcchar e) = bmAttributes_xfer desc_ep /\
  next_data_toggle e = HCTSIZ_PID_DATA0 /\
  (forall j, j <> i -> edpt_at (snd out) j = edpt_at d j) /\
  xfer (snd out) = xfer d.
Proof.
  intros Hlen Hi Hfree Hbusy out e. subst e out. unfold hcd_edpt_open.
  destruct (first_index _ 0 CFG_TUH_DWC2_ENDPOINT_MAX) as [k|] eqn:Hscan.
  - apply first_index_Some in Hscan as (Hr & HP & Hmin).
    apply negb_true_iff in HP.
    assert (k = i) as ->.
    { destruct (Nat.lt_trichotomy k i) as [Hlt|[Heq|Hgt]]; [|exact Heq|].
      - rewrite Hbusy in HP by exact Hlt. discriminate.
      - specialize (Hmin i ltac:(lia)). simpl in Hmin.
        rewrite Hfree in Hmin. discriminate. }
    cbn [fst snd]. rewrite edpt_at_set_edpt_eq by lia.
    repeat (split; [reflexivity|]). split; [|reflexivity].
    intros j Hj. apply edpt_at_set_edpt_ne. congruence.
  - pose proof (first_index_None _ _ _ Hscan i ltac:(lia)) as HP.
    simpl in HP. rewrite Hfree in HP. discriminate.
Qed.

Lemma edpt_matches_open_slot info dev desc_ep :
  edpt_matches dev (tu_edpt_number (bEndpointAddress desc_ep))
    (tu_edpt_dir (bEndpointAddress desc_ep))
    (edpt_hcchar (open_slot info dev desc_ep)) = true.
Proof.
  unfold edpt_matches, open_slot. cbn [edpt_hcchar enable dev_addr ep_num ep_dir].
  rewrite !bool_decide_eq_true_2 by reflexivity. cbn [andb].
  apply orb_true_iff. right. apply bool_decide_eq_true_2. reflexivity.
Qed.

(** Open, then look up.  After a successful [hcd_edpt_open] the endpoint is
    found by [edpt_find_opened]; when no slot matched it before, the slot
    found is the one just filled. *)
Theorem hcd_edpt_open_then_find info dev desc_ep d :
  length (edpt d) = CFG_TUH_DWC2_ENDPOINT_MAX ->
  fst (hcd_edpt_open info dev desc_ep d) = true ->
  let num := tu_edpt_number (bEndpointAddress desc_ep) in
  let dir := tu_edpt_dir (bEndpointAddress desc_ep) in
  let d' := snd (hcd_edpt_open info dev desc_ep d) in
  exists i,
    edpt_find_opened d' dev num dir = Some i /\
    (edpt_find_opened d dev num dir = None ->
     edpt_at d' i = open_slot info dev desc_ep /\
     enable (edpt_hcchar (edpt_at d i)) = false).
Proof.
  intros Hlen Hok num dir d'. subst d'. revert Hok. unfold hcd_edpt_open.
  destruct (first_index _ 0 CFG_TUH_DWC2_ENDPOINT_MAX) as [k|] eqn:Hscan;
    [intros _|discriminate].
  apply first_index_Some in Hscan as (Hr & HP & _). apply negb_true_iff in HP.
  cbn [snd].
  set (d' := set_edpt d k (open_slot info dev desc_ep)).
  assert (Hk : edpt_at d' k = open_slot info dev desc_ep)
    by (apply edpt_at_set_edpt_eq; lia).
  destruct (first_index_exists
              (fun i => edpt_matches dev num dir (edpt_hcchar (edpt_at d' i)))
              CFG_TUH_DWC2_ENDPOINT_MAX 0 k ltac:(lia))
    as (i & Hfind & Hle).
  { rewrite Hk. apply edpt_matches_open_slot. }
  exists i. split; [exact Hfind|]. intros Hnone.
  apply first_index_Some in Hfind as (_ & Hm & _).
  destruct (decide (i = k)) as [->|Hne]; [split; [exact Hk | exact HP]|].
  exfalso. unfold d' in Hm. rewrite edpt_at_set_edpt_ne in Hm by congruence.
  pose proof (first_index_None _ _ _ Hnone i ltac:(lia)) as Hno.
  simpl in Hno. congruence.
Qed.

Lemma edpt_find_opened_spec d dev num dir :
  (forall i, edpt_find_opened d dev num dir = Some i ->
     (i < CFG_TUH_DWC2_ENDPOINT_MAX)%nat /\
     enable (edpt_hcchar (edpt_at d i)) = true /\
     dev_addr (edpt_hcchar (edpt_at d i)) = dev /\
     ep_num (edpt_hcchar (edpt_at d i)) = num /\
     (num = 0 \/ ep_dir (edpt_hcchar (edpt_at d i)) = dir) /\
     forall j, (j < i)%nat ->
       edpt_matches dev num dir (edpt_hcchar (edpt_at d j)) = false) /\
  (edpt_find_opened d dev num dir = None <->
   forall i, (i < CFG_TUH_DWC2_ENDPOINT_MAX)%nat ->
     ~ (enable (edpt_hcchar (edpt_at d i)) = true /\
        dev_addr (edpt_hcchar (edpt_at d i)) = dev /\
        ep_num (edpt_hcchar (edpt_at d i)) = num /\
        (num = 0 \/ ep_dir (edpt_hcchar (edpt_at d i)) = dir))).
Proof.
  assert (Hm : forall h, edpt_matches dev num dir h = true <->
            enable h = true /\ dev_addr h = dev /\ ep_num h = num /\
            (num = 0 \/ ep_dir h = dir)).
  { intros h. unfold edpt_matches.
    rewrite !andb_true_iff, orb_true_iff, !bool_decide_eq_true. tauto. }
  split.
  - intros i H. apply first_index_Some in H as (Hr & HP & Hmin).
    apply Hm in HP as (He & Hd & Hn & Hdir).
    split; [lia|]. repeat (split; [assumption|]). intros j Hj. apply Hmin. lia.
  - unfold edpt_find_opened. split.
    + intros Hnone i Hi Hyes. apply Hm in Hyes.
      pose proof (first_index_None _ _ _ Hnone i ltac:(lia)) as Hno.
      simpl in Hno. congruence.
    + intros Hall. apply first_index_all_false. intros j Hj.
      destruct (edpt_matches dev num dir (edpt_hcchar (edpt_at d j))) eqn:E;
        [|reflexivity].
      exfalso. apply (Hall j ltac:(lia)). apply Hm. exact E.
Qed.

(** What [edpt_find_opened] returns: the lowest slot that is enabled for the
    device and endpoint number, in the requested direction unless the
    number is 0; and nothing exactly when no slot of the table is such. *)
Theorem edpt_find_opened_sound d dev num dir :
  (forall i, edpt_find_opened d dev num dir = Some i ->
     (i < CFG_TUH_DWC2_ENDPOINT_MAX)%nat /\
     enable (edpt_hcchar (edpt_at d i)) = true /\
     dev_addr (edpt_hcchar (edpt_at d i)) = dev /\
     ep_num (edpt_hcchar (edpt_at d i)) = num /\
     (num = 0 \/ ep_dir (edpt_hcchar (edpt_at d i)) = dir) /\
     forall j, (j < i)%nat ->
       edpt_matches dev num dir (edpt_hcchar (edpt_at d j)) = false) /\
  (edpt_find_opened d dev num dir = None <->
   forall i, (i < CFG_TUH_DWC2_ENDPOINT_MAX)%nat ->
     ~ (enable (edpt_hcchar (edpt_at d i)) = true /\
        dev_addr (edpt_hcchar (edpt_at d i)) = dev /\
        ep_num (edpt_hcchar (edpt_at d i)) = num /\
        (num = 0 \/ ep_dir (edpt_hcchar (edpt_at d i)) = dir))).
Proof. exact (edpt_find_opened_spec d dev num dir). Qed.

(** Endpoint 0 is found whatever direction is asked for. *)
Theorem edpt_find_opened_ep0_any_dir d dev dir1 dir2 :
  edpt_find_opened d dev 0 dir1 = edpt_find_opened d dev 0 dir2.
Proof. unfold edpt_find_opened. apply first_index_ext. intros j _. reflexivity. Qed.

(** Close, then look up.  After [hcd_device_close] no endpoint of the
    device is found any more. *)
Theorem hcd_device_close_then_find dev d num dir :
  edpt_find_opened (hcd_device_close dev d) dev num dir = None.
Proof.
  unfold edpt_find_opened. apply first_index_all_false. intros j Hj.
  unfold edpt_at. rewrite hcd_device_close_lookup.
  rewrite bool_decide_eq_true_2 by lia.
  destruct (edpt d !! j) as [e|]; simpl; [|reflexivity].
  unfold close_slot, edpt_matches.
  destruct (enable (edpt_hcchar e)) eqn:He; simpl; [|rewrite He; reflexivity].
  destruct (bool_decide (dev_addr (edpt_hcchar e) = dev)) eqn:Hd; simpl;
    [reflexivity|]. rewrite He, Hd. reflexivity.
Qed.

(** Closing one device does not disturb the lookups of another. *)
Theorem hcd_device_close_other_device dev dev' d num dir :
  dev' <> dev ->
  edpt_find_opened (hcd_device_close dev d) dev' num dir =
  edpt_find_opened d dev' num dir.
Proof.
  intros Hne. unfold edpt_find_opened. apply first_index_ext. intros j Hj.
  unfold edpt_at. rewrite hcd_device_close_lookup.
  rewrite bool_decide_eq_true_2 by lia.
  destruct (edpt d !! j) as [e|]; simpl; [|reflexivity].
  unfold close_slot.
  destruct (enable (edpt_hcchar e) && bool_decide (dev_addr (edpt_hcchar e) = dev))
    eqn:Hc; [|reflexivity].
  apply andb_prop in Hc as [He Hd]. apply bool_decide_eq_true_1 in Hd.
  unfold edpt_matches. simpl. rewrite He. simpl.
  rewrite bool_decide_eq_false_2 by congruence. reflexivity.
Qed.

(** ** The channel pool *)

Lemma first_index_lowest (P : nat -> bool) (n start k : nat) :
  (start <= k < start + n)%nat -> P k = true ->
  (forall j, (start <= j < k)%nat -> P j = false) ->
  first_index P start n = Some k.
Proof.
  intros Hk HP Hlow.
  destruct (first_index_exists P n start k Hk HP) as (i & Hi & Hle).
  pose proof (first_index_Some _ _ _ _ Hi) as (Hr & HPi & _).
  destruct (decide (i = k)) as [->|Hne]; [exact Hi|].
  rewrite Hlow in HPi by lia. discriminate.
Qed.

(** [channel_alloc] takes the lowest unallocated channel below the core's
    channel count, marks it active with its working fields zeroed, and
    leaves every other channel and the endpoint table alone; when every
    channel below the count is in use it returns no channel and changes
    nothing. *)
Theorem channel_alloc_lowest_free r d :
  length (xfer d) = Z.to_nat DWC2_CHANNEL_COUNT_MAX ->
  match channel_alloc r d with
  | (Some ch_id, d') =>
      (ch_id < DWC2_CHANNEL_COUNT r)%nat /\
      state (xfer_at d ch_id) = HCD_XFER_STATE_UNALLOCATED /\
      (forall j, (j < ch_id)%nat ->
         state (xfer_at d j) <> HCD_XFER_STATE_UNALLOCATED) /\
      xfer_at d' ch_id =
        {| state := HCD_XFER_STATE_ACTIVE; err_count := 0; buffer := 0;
           total_bytes := 0 |} /\
      (forall j, j <> ch_id -> xfer_at d' j = xfer_at d j) /\
      edpt d' = edpt d
  | (None, d') =>
      d' = d /\
      forall j, (j < DWC2_CHANNEL_COUNT r)%nat ->
        state (xfer_at d j) <> HCD_XFER_STATE_UNALLOCATED
  end.
Proof.
  intros Hlen. unfold channel_alloc.
  pose proof (DWC2_CHANNEL_COUNT_le r) as Hmax.
  destruct (first_index _ 0 (DWC2_CHANNEL_COUNT r)) as [ch|] eqn:Hscan.
  - apply first_index_Some in Hscan as (Hr & HP & Hmin).
    apply bool_decide_eq_true_1 in HP.
    split; [lia|]. split; [exact HP|]. split.
    { intros j Hj. specialize (Hmin j ltac:(lia)).
      apply bool_decide_eq_false_1 in Hmin. exact Hmin. }
    split; [apply xfer_at_set_xfer_eq; lia|]. split; [|reflexivity].
    intros j Hj. apply xfer_at_set_xfer_ne. congruence.
  - split; [reflexivity|]. intros j Hj.
    pose proof (first_index_None _ _ _ Hscan j ltac:(lia)) as HP.
    apply bool_decide_eq_false_1 in HP. exact HP.
Qed.

Lemma channel_alloc_seq_from r n : forall k d,
  length (xfer d) = Z.to_nat DWC2_CHANNEL_COUNT_MAX ->
  (k + n <= DWC2_CHANNEL_COUNT r)%nat ->
  (forall j, (j < DWC2_CHANNEL_COUNT r)%nat ->
     (state (xfer_at d j) = HCD_XFER_STATE_UNALLOCATED <-> (k <= j)%nat)) ->
  fst (channel_alloc_seq n r d) = map Some (seq k n) /\
  length (xfer (snd (channel_alloc_seq n r d))) = Z.to_nat DWC2_CHANNEL_COUNT_MAX /\
  (forall j, (j < DWC2_CHANNEL_COUNT r)%nat ->
     (state (xfer_at (snd (channel_alloc_seq n r d)) j)
      = HCD_XFER_STATE_UNALLOCATED <-> (k + n <= j)%nat)).
Proof.
  pose proof (DWC2_CHANNEL_COUNT_le r) as Hmax.
  induction n as [|n IH]; intros k d Hlen Hk Hinv; simpl.
  - split; [reflexivity|]. split; [exact Hlen|].
    intros j Hj. rewrite Hinv by exact Hj. lia.
  - assert (Hscan : first_index
              (fun ch_id => bool_decide
                 (state (xfer_at d ch_id) = HCD_XFER_STATE_UNALLOCATED))
              0 (DWC2_CHANNEL_COUNT r) = Some k).
    { apply first_index_lowest; [lia| |].
      - apply bool_decide_eq_true_2. apply Hinv; lia.
      - intros j Hj. apply bool_decide_eq_false_2. rewrite Hinv by lia. lia. }
    unfold channel_alloc at 1 2 3. rewrite Hscan.
    set (d1 := set_xfer d k _).
    destruct (IH (S k) d1) as (Hseq & Hlen' & Hinv').
    + unfold d1. rewrite length_xfer_set_xfer. exact Hlen.
    + lia.
    + intros j Hj. unfold d1. destruct (decide (j = k)) as [->|Hne].
      * rewrite xfer_at_set_xfer_eq by lia. simpl. split; [discriminate|lia].
      * rewrite xfer_at_set_xfer_ne by congruence. rewrite Hinv by exact Hj. lia.
    + destruct (channel_alloc_seq n r d1) as [chs d2]. simpl in *.
      split; [rewrite Hseq; reflexivity|]. split; [exact Hlen'|].
      intros j Hj. rewrite Hinv' by exact Hj. lia.
Qed.

(** Allocation is exclusive and bounded by the core's channel count: from a
    pool whose channels are all free, successive calls of [channel_alloc]
    return channels 0, 1, 2, ... each once, and the call after the last
    channel returns none. *)
Theorem channel_alloc_seq_exhausts r d :
  length (xfer d) = Z.to_nat DWC2_CHANNEL_COUNT_MAX ->
  (forall j, (j < DWC2_CHANNEL_COUNT r)%nat ->
     state (xfer_at d j) = HCD_XFER_STATE_UNALLOCATED) ->
  fst (channel_alloc_seq (S (DWC2_CHANNEL_COUNT r)) r d)
  = map Some (seq 0 (DWC2_CHANNEL_COUNT r)) ++ [None].
Proof.
  intros Hlen Hfree.
  destruct (channel_alloc_seq_from r (DWC2_CHANNEL_COUNT r) 0 d Hlen ltac:(lia))
    as (Hseq & Hlen' & Hinv).
  { intros j Hj. rewrite Hfree by exact Hj. split; [lia|reflexivity]. }
  assert (Hsplit : forall n m d0,
            fst (channel_alloc_seq (n + m) r d0) =
            fst (channel_alloc_seq n r d0) ++
            fst (channel_alloc_seq m r (snd (channel_alloc_seq n r d0)))).
  { induction n as [|n IHn]; intros m d0; simpl; [reflexivity|].
    destruct (channel_alloc r d0) as [c d1]. specialize (IHn m d1).
    destruct (channel_alloc_seq (n + m) r d1) as [cs d2].
    destruct (channel_alloc_seq n r d1) as [cs' d2']. simpl in *.
    rewrite IHn. reflexivity. }
  replace (S (DWC2_CHANNEL_COUNT r)) with (DWC2_CHANNEL_COUNT r + 1)%nat by lia.
  rewrite Hsplit, Hseq. f_equal.
  set (d' := snd (channel_alloc_seq (DWC2_CHANNEL_COUNT r) r d)) in *.
  simpl. unfold channel_alloc.
  rewrite first_index_all_false; [reflexivity|].
  intros j Hj. apply bool_decide_eq_false_2. rewrite Hinv by lia. lia.
Qed.

(** A channel handed back with [channel_dealloc] can be allocated again:
    the next [channel_alloc] succeeds with that channel or a lower free
    one. *)
Theorem channel_dealloc_then_alloc r d ch_id :
  length (xfer d) = Z.to_nat DWC2_CHANNEL_COUNT_MAX ->
  (ch_id < DWC2_CHANNEL_COUNT r)%nat ->
  exists j d',
    channel_alloc r (channel_dealloc d ch_id) = (Some j, d') /\
    (j <= ch_id)%nat /\
    ((forall i, (i < ch_id)%nat ->
        state (xfer_at d i) <> HCD_XFER_STATE_UNALLOCATED) -> j = ch_id).
Proof.
  intros Hlen Hch. pose proof (DWC2_CHANNEL_COUNT_le r) as Hmax.
  unfold channel_alloc.
  destruct (first_index_exists
              (fun c => bool_decide
                 (state (xfer_at (channel_dealloc d ch_id) c)
                  = HCD_XFER_STATE_UNALLOCATED))
              (DWC2_CHANNEL_COUNT r) 0 ch_id ltac:(lia)) as (j & Hj & Hle).
  { apply bool_decide_eq_true_2. unfold channel_dealloc.
    rewrite xfer_at_set_xfer_eq by lia. reflexivity. }
  rewrite Hj. eexists _, _. split; [reflexivity|]. split; [exact Hle|].
  intros Hbusy. apply first_index_Some in Hj as (_ & HP & _).
  apply bool_decide_eq_true_1 in HP.
  destruct (decide (j = ch_id)) as [->|Hne]; [reflexivity|]. exfalso.
  unfold channel_dealloc in HP. rewrite xfer_at_set_xfer_ne in HP by congruence.
  apply (Hbusy j); [lia | exact HP].
Qed.

(** ** Transfer submission, beyond the toggle and the packet count *)

Lemma xfer_at_set_xfer_set_edpt d ch_id x i e j :
  xfer_at (set_xfer (set_edpt d i e) ch_id x) j = xfer_at (set_xfer d ch_id x) j.
Proof. reflexivity. Qed.

(** Everything a submission that reaches the channel programming writes. *)
Lemma hcd_edpt_xfer_effects dev ep_addr buf buflen d r ep_id ch_id d1 :
  hcd_wf d r ->
  edpt_find_opened d dev (tu_edpt_number ep_addr) (tu_edpt_dir ep_addr) = Some ep_id ->
  channel_alloc r d = (Some ch_id, d1) ->
  dma_host_enabled r = false ->
  let e := edpt_at d ep_id in
  let e_hcchar :=
    hcchar_set_frame_dir (edpt_hcchar e) (1 - Z.land (hfnum r) 1)
      (tu_edpt_dir ep_addr) in
  exists ok d' r',
    hcd_edpt_xfer dev ep_addr buf buflen d r = (ok, d', r') /\
    ok = negb (bool_decide (tu_edpt_dir ep_addr = TUSB_DIR_IN) &&
               (request_queue_avail r (channel_is_periodic (edpt_hcchar e)) =? 0)) /\
    xfer_at d' ch_id =
      {| state := HCD_XFER_STATE_ACTIVE; err_count := 0; buffer := buf;
         total_bytes := buflen |} /\
    (forall j, j <> ch_id -> xfer_at d' j = xfer_at d j) /\
    edpt_at d' ep_id =
      {| edpt_hcchar := e_hcchar; edpt_hcsplt := edpt_hcsplt e;
         next_data_toggle :=
           advance_toggle (next_data_toggle e) (tu_edpt_number ep_addr) |} /\
    (forall j, j <> ch_id -> channel_at r' j = channel_at r j) /\
    hcsplt (channel_at r' ch_id) = edpt_hcsplt e /\
    hcchar (channel_at r' ch_id) = hcchar_set_enable e_hcchar ok /\
    hcintmsk (channel_at r' ch_id) =
      (if ok then hcintmsk_for (ep_dir (edpt_hcchar e))
       else hcintmsk (channel_at r ch_id)) /\
    haintmsk r' =
      (if ok then Z.lor (haintmsk r) (TU_BIT ch_id) else haintmsk r) /\
    gintmsk r' =
      (if bool_decide (tu_edpt_dir ep_addr = TUSB_DIR_OUT) && (0 <? buflen)
       then gintmsk r ∪
            (if channel_is_periodic (edpt_hcchar e)
             then {[GINTSTS_PTX_FIFO_EMPTY]} else {[GINTSTS_NPTX_FIFO_EMPTY]})
       else gintmsk r) /\
    ghwcfg2_num_host_ch r' = ghwcfg2_num_host_ch r /\
    ghwcfg2_arch r' = ghwcfg2_arch r /\
    hptxsts r' = hptxsts r /\ hnptxsts r' = hnptxsts r /\
    haint r' = haint r /\ grxstsp r' = grxstsp r /\ rx_fifo r' = rx_fifo r.
Proof.
  intros (Hlx & Hle & Hlc) Hfind Halloc Hdma e e_hcchar.
  pose proof (channel_alloc_Some _ _ _ _ Halloc) as (Hch & Hfree & Hd1).
  pose proof (DWC2_CHANNEL_COUNT_le r) as Hmax.
  pose proof (edpt_find_opened_Some _ _ _ _ _ Hfind) as (Hslot & _).
  assert (Hep : (ep_id < length (edpt d))%nat) by (eapply lookup_lt_Some; exact Hslot).
  assert (Hchl : (ch_id < length (channel r))%nat) by lia.
  assert (Hchx : (ch_id < length (xfer d))%nat) by lia.
  unfold hcd_edpt_xfer. rewrite Hfind, Halloc, Hdma. subst d1.
  change (edpt_at (set_xfer d ch_id _) ep_id) with e.
  unfold channel_is_periodic. cbn [ep_type hcchar_set_frame_dir].
  fold (channel_is_periodic (edpt_hcchar e)). fold e_hcchar.
  destruct (tu_edpt_dir ep_addr) eqn:Hdir;
    [destruct (0 <? buflen)
    |destruct (request_queue_avail r (channel_is_periodic (edpt_hcchar e)) =? 0) eqn:Hq];
    (eexists _, _, _; split; [reflexivity|]);
    (split; [reflexivity|]);
    cbn [negb andb];
    rewrite ?channel_at_set_haintmsk;
    rewrite xfer_at_set_xfer_eq
      by (cbn [xfer set_edpt set_xfer]; rewrite ?length_insert; exact Hchx);
    rewrite xfer_at_set_edpt, xfer_at_set_xfer_eq by exact Hchx;
    (split; [reflexivity|]);
    (split; [intros j Hj; rewrite xfer_at_set_xfer_ne by congruence;
             rewrite xfer_at_set_edpt; apply xfer_at_set_xfer_ne; congruence|]);
    rewrite edpt_at_set_xfer, edpt_at_set_edpt_eq
      by (rewrite ?length_edpt_set_edpt; exact Hep);
    (split; [reflexivity|]);
    (split; [intros j Hj; rewrite ?channel_at_set_haintmsk;
             rewrite channel_at_set_channel_ne by congruence; reflexivity|]);
    rewrite channel_at_set_channel_eq by (rewrite ?channel_at_set_gintmsk; exact Hchl);
    repeat (split; [reflexivity|]); reflexivity.
Qed.

Lemma channel_alloc_none r d :
  (forall j, (j < DWC2_CHANNEL_COUNT r)%nat ->
     state (xfer_at d j) <> HCD_XFER_STATE_UNALLOCATED) ->
  channel_alloc r d = (None, d).
Proof.
  intros Hbusy. unfold channel_alloc.
  rewrite first_index_all_false; [reflexivity|].
  intros j Hj. apply bool_decide_eq_false_2. apply Hbusy. lia.
Qed.

Lemma hcd_edpt_xfer_reject dev ep_addr buf buflen d r :
  edpt_find_opened d dev (tu_edpt_number ep_addr) (tu_edpt_dir ep_addr) = None \/
  (forall j, (j < DWC2_CHANNEL_COUNT r)%nat ->
     state (xfer_at d j) <> HCD_XFER_STATE_UNALLOCATED) ->
  hcd_edpt_xfer dev ep_addr buf buflen d r = (false, d, r).
Proof.
  intros H. unfold hcd_edpt_xfer.
  destruct (edpt_find_opened d dev _ _) as [ep_id|] eqn:Hfind; [|reflexivity].
  destruct H as [H|H]; [discriminate|].
  rewrite (channel_alloc_none r d H). reflexivity.
Qed.

(** A submission on an endpoint that is not open, or made while every
    channel below the channel count is in use, returns false and changes
    neither the driver data nor any register. *)
Theorem hcd_edpt_xfer_rejected_unchanged dev ep_addr buf buflen d r :
  edpt_find_opened d dev (tu_edpt_number ep_addr) (tu_edpt_dir ep_addr) = None \/
  (forall j, (j < DWC2_CHANNEL_COUNT r)%nat ->
     state (xfer_at d j) <> HCD_XFER_STATE_UNALLOCATED) ->
  hcd_edpt_xfer dev ep_addr buf buflen d r = (false, d, r).
Proof. exact (hcd_edpt_xfer_reject dev ep_addr buf buflen d r). Qed.

Lemma tu_bit_test_TU_BIT (i j : nat) :
  tu_bit_test (TU_BIT i) j = bool_decide (j = i).
Proof.
  unfold tu_bit_test, TU_BIT. rewrite Z.shiftl_1_l.
  rewrite Z.pow2_bits_eqb by lia.
  destruct (decide (j = i)) as [->|Hne].
  - rewrite Z.eqb_refl. symmetry. apply bool_decide_eq_true_2. reflexivity.
  - rewrite bool_decide_eq_false_2 by exact Hne. apply Z.eqb_neq. lia.
Qed.

Lemma hcintmsk_for_contents dir :
  Forall (fun f => f ∈ hcintmsk_for dir)
    [HCINT_XFER_COMPLETE; HCINT_STALL; HCINT_NAK; HCINT_XACT_ERR;
     HCINT_DATATOGGLE_ERR] /\
  (HCINT_CHANNEL_HALTED ∉ hcintmsk_for dir) /\
  (HCINT_ACK ∉ hcintmsk_for dir).
Proof.
  destruct dir; (apply (bool_decide_unpack _); vm_compute; exact I).
Qed.

(** A submission that succeeds programs the channel it allocated with the
    endpoint's address, number, packet size and type, the requested
    direction and the enable bit; records buffer and length for the
    channel; unmasks the channel in HAINTMSK with the channel-halted and ACK
    flags left masked; and writes no other channel. *)
Theorem hcd_edpt_xfer_programs_channel dev ep_addr buf buflen d r ep_id ch_id d1 :
  hcd_wf d r ->
  edpt_find_opened d dev (tu_edpt_number ep_addr) (tu_edpt_dir ep_addr) = Some ep_id ->
  channel_alloc r d = (Some ch_id, d1) ->
  dma_host_enabled r = false ->
  fst (fst (hcd_edpt_xfer dev ep_addr buf buflen d r)) = true ->
  let e := edpt_hcchar (edpt_at d ep_id) in
  let d' := snd (fst (hcd_edpt_xfer dev ep_addr buf buflen d r)) in
  let r' := snd (hcd_edpt_xfer dev ep_addr buf buflen d r) in
  let c := hcchar (channel_at r' ch_id) in
  (enable c = true /\ disable c = disable e /\
   dev_addr c = dev /\ ep_num c = tu_edpt_number ep_addr /\
   ep_dir c = tu_edpt_dir ep_addr /\
   ep_size c = ep_size e /\ ep_type c = ep_type e /\
   low_speed_dev c = low_speed_dev e /\
   odd_frame c = 1 - Z.land (hfnum r) 1) /\
  hcsplt (channel_at r' ch_id) = edpt_hcsplt (edpt_at d ep_id) /\
  xfer_at d' ch_id =
    {| state := HCD_XFER_STATE_ACTIVE; err_count := 0; buffer := buf;
       total_bytes := buflen |} /\
  Forall (fun f => f ∈ hcintmsk (channel_at r' ch_id))
    [HCINT_XFER_COMPLETE; HCINT_STALL; HCINT_NAK; HCINT_XACT_ERR;
     HCINT_DATATOGGLE_ERR] /\
  (HCINT_CHANNEL_HALTED ∉ hcintmsk (channel_at r' ch_id)) /\
  (HCINT_ACK ∉ hcintmsk (channel_at r' ch_id)) /\
  (forall j, tu_bit_test (haintmsk r') j =
             (bool_decide (j = ch_id) || tu_bit_test (haintmsk r) j)) /\
  (forall j, j <> ch_id ->
     channel_at r' j = channel_at r j /\ xfer_at d' j = xfer_at d j).
Proof.
  intros Hwf Hfind Halloc Hdma Hok e d' r' c.
  destruct (hcd_edpt_xfer_effects dev ep_addr buf buflen d r ep_id ch_id d1
              Hwf Hfind Halloc Hdma)
    as (ok & d0 & r0 & Hrun & _ & Hx & Hxo & _ & Hco & Hsplt & Hchar & Hmsk &
        Hha & _).
  subst c d' r'. rewrite Hrun in *. cbn [fst snd] in *. subst ok.
  pose proof (edpt_find_opened_spec d dev (tu_edpt_number ep_addr)
                (tu_edpt_dir ep_addr)) as [Hsound _].
  destruct (Hsound ep_id Hfind) as (_ & _ & Hdev & Hnum & _).
  rewrite Hchar, Hmsk, Hha. cbn.
  fold e. split; [repeat (split; [first [reflexivity|assumption]|]); reflexivity|].
  split; [exact Hsplt|]. split; [exact Hx|].
  destruct (hcintmsk_for_contents (ep_dir e)) as (Hin & Hh & Ha).
  split; [exact Hin|]. split; [exact Hh|]. split; [exact Ha|].
  split.
  { intros j. unfold tu_bit_test at 1. rewrite Z.lor_spec.
    fold (tu_bit_test (haintmsk r) j). fold (tu_bit_test (TU_BIT ch_id) j).
    rewrite tu_bit_test_TU_BIT. apply orb_comm. }
  intros j Hj. split; [apply Hco; exact Hj | apply Hxo; exact Hj].
Qed.

(** The FIFO-empty interrupt after a submission: an OUT submission with
    payload unmasks the FIFO-empty interrupt of its class (periodic for
    interrupt and isochronous endpoints, non-periodic otherwise) and masks
    nothing; an IN or a zero-length submission leaves GINTMSK as it was. *)
Theorem hcd_edpt_xfer_fifo_empty_mask dev ep_addr buf buflen d r ep_id ch_id d1 :
  hcd_wf d r ->
  edpt_find_opened d dev (tu_edpt_number ep_addr) (tu_edpt_dir ep_addr) = Some ep_id ->
  channel_alloc r d = (Some ch_id, d1) ->
  dma_host_enabled r = false ->
  let ty := ep_type (edpt_hcchar (edpt_at d ep_id)) in
  let r' := snd (hcd_edpt_xfer dev ep_addr buf buflen d r) in
  (tu_edpt_dir ep_addr = TUSB_DIR_OUT -> 0 < buflen ->
   gintmsk r ⊆ gintmsk r' /\
   (ty = TUSB_XFER_INTERRUPT \/ ty = TUSB_XFER_ISOCHRONOUS ->
    gintmsk r' = gintmsk r ∪ {[GINTSTS_PTX_FIFO_EMPTY]}) /\
   (ty = TUSB_XFER_CONTROL \/ ty = TUSB_XFER_BULK ->
    gintmsk r' = gintmsk r ∪ {[GINTSTS_NPTX_FIFO_EMPTY]})) /\
  (tu_edpt_dir ep_addr = TUSB_DIR_IN \/ buflen <= 0 -> gintmsk r' = gintmsk r).
Proof.
  intros Hwf Hfind Halloc Hdma ty r'.
  destruct (hcd_edpt_xfer_effects dev ep_addr buf buflen d r ep_id ch_id d1
              Hwf Hfind Halloc Hdma)
    as (ok & d0 & r0 & Hrun & _ & _ & _ & _ & _ & _ & _ & _ & _ & Hg & _).
  subst r'. rewrite Hrun. cbn [snd]. rewrite Hg. split.
  - intros Hdir Hlen. rewrite Hdir.
    rewrite bool_decide_eq_true_2 by reflexivity.
    assert (Hlt : (0 <? buflen) = true) by (apply Z.ltb_lt; exact Hlen).
    rewrite Hlt. cbn [andb]. split; [apply union_subseteq_l|].
    unfold channel_is_periodic. fold ty.
    split; intros [Hty|Hty]; rewrite Hty; reflexivity.
  - intros [Hdir|Hlen].
    + rewrite Hdir. reflexivity.
    + assert (Hlt : (0 <? buflen) = false) by (apply Z.ltb_ge; exact Hlen).
      rewrite Hlt, andb_false_r. reflexivity.
Qed.

Lemma edpt_matches_set_frame_dir dev num dir dev' num' dir' h odd :
  edpt_matches dev num dir h = true ->
  edpt_matches dev' num' dir' (hcchar_set_frame_dir h odd dir) =
  edpt_matches dev' num' dir' h.
Proof.
  unfold edpt_matches. cbn [enable dev_addr ep_num ep_dir hcchar_set_frame_dir].
  rewrite !andb_true_iff, orb_true_iff, !bool_decide_eq_true.
  intros (((He & Hd) & Hn) & [Hz|Hdir]).
  - rewrite Hn, Hz. destruct (decide (0 = num')) as [<-|Hne].
    + rewrite !(bool_decide_eq_true_2 (0 = 0)) by reflexivity.
      cbn [orb]. reflexivity.
    + rewrite !(bool_decide_eq_false_2 (0 = num')) by exact Hne.
      rewrite !andb_false_r. reflexivity.
  - rewrite Hdir. reflexivity.
Qed.

Lemma channel_alloc_edpt r d : edpt (snd (channel_alloc r d)) = edpt d.
Proof.
  unfold channel_alloc. destruct (first_index _ 0 (DWC2_CHANNEL_COUNT r)); reflexivity.
Qed.

Lemma hcd_edpt_xfer_lookups dev ep_addr buf buflen d r dev' num' dir' :
  edpt_find_opened (snd (fst (hcd_edpt_xfer dev ep_addr buf buflen d r)))
    dev' num' dir' =
  edpt_find_opened d dev' num' dir'.
Proof.
  unfold hcd_edpt_xfer.
  destruct (edpt_find_opened d dev _ _) as [ep_id|] eqn:Hfind; [|reflexivity].
  pose proof (edpt_find_opened_Some _ _ _ _ _ Hfind) as (Hslot & Hm).
  pose proof (channel_alloc_edpt r d) as Hedpt.
  destruct (channel_alloc r d) as [och d1]; cbn [snd] in Hedpt.
  assert (Hsame : forall j, edpt_at d1 j = edpt_at d j)
    by (intros j; unfold edpt_at; rewrite Hedpt; reflexivity).
  assert (Hd1 : edpt_find_opened d1 dev' num' dir' = edpt_find_opened d dev' num' dir').
  { unfold edpt_find_opened. apply first_index_ext. intros j _.
    rewrite Hsame. reflexivity. }
  destruct och as [ch_id|]; [|exact Hd1].
  destruct (dma_host_enabled r); [exact Hd1|].
  assert (Hgoal : forall odd toggle x,
            edpt_find_opened
              (set_xfer
                 (set_edpt d1 ep_id
                    {| edpt_hcchar :=
                         hcchar_set_frame_dir (edpt_hcchar (edpt_at d1 ep_id)) odd
                           (tu_edpt_dir ep_addr);
                       edpt_hcsplt := edpt_hcsplt (edpt_at d1 ep_id);
                       next_data_toggle := toggle |}) ch_id x) dev' num' dir'
            = edpt_find_opened d dev' num' dir').
  { intros odd toggle x. unfold edpt_find_opened. apply first_index_ext.
    intros j _. rewrite edpt_at_set_xfer.
    destruct (decide (j = ep_id)) as [->|Hne].
    - rewrite edpt_at_set_edpt_eq
        by (rewrite Hedpt; eapply lookup_lt_Some; exact Hslot).
      cbn [edpt_hcchar]. rewrite Hsame.
      exact (edpt_matches_set_frame_dir _ _ _ _ _ _ _ _ Hm).
    - rewrite edpt_at_set_edpt_ne by congruence. rewrite Hsame. reflexivity. }
  destruct (tu_edpt_dir ep_addr) eqn:Hdir;
    [|destruct (request_queue_avail r _ =? 0)]; cbn [fst snd]; apply Hgoal.
Qed.

(** A submission neither opens nor closes an endpoint: whatever it
    returns, every lookup in the endpoint table finds the same slot after
    it as before. *)
Theorem hcd_edpt_xfer_keeps_lookups dev ep_addr buf buflen d r dev' num' dir' :
  edpt_find_opened (snd (fst (hcd_edpt_xfer dev ep_addr buf buflen d r)))
    dev' num' dir' =
  edpt_find_opened d dev' num' dir'.
Proof. exact (hcd_edpt_xfer_lookups dev ep_addr buf buflen d r dev' num' dir'). Qed.

(** Submit, then abort.  After a submission that succeeded, a channel of
    the endpoint is found by [channel_find_enabled], and
    [hcd_edpt_abort_xfer], given room in the request queue, returns true
    and sets the disable bit of that channel. *)
Theorem hcd_edpt_xfer_then_abort dev ep_addr buf buflen d r ep_id ch_id d1 :
  hcd_wf d r ->
  edpt_find_opened d dev (tu_edpt_number ep_addr) (tu_edpt_dir ep_addr) = Some ep_id ->
  channel_alloc r d = (Some ch_id, d1) ->
  dma_host_enabled r = false ->
  request_queue_avail r (channel_is_periodic (edpt_hcchar (edpt_at d ep_id))) <> 0 ->
  let out := hcd_edpt_xfer dev ep_addr buf buflen d r in
  let d' := snd (fst out) in
  let r' := snd out in
  let ab := hcd_edpt_abort_xfer dev ep_addr d' r' in
  fst (fst out) = true /\ fst ab = true /\
  exists j,
    (j <= ch_id)%nat /\
    channel_find_enabled r' d' dev (tu_edpt_number ep_addr) (tu_edpt_dir ep_addr)
      = Some j /\
    state (xfer_at d' j) <> HCD_XFER_STATE_UNALLOCATED /\
    dev_addr (hcchar (channel_at r' j)) = dev /\
    ep_num (hcchar (channel_at r' j)) = tu_edpt_number ep_addr /\
    disable (hcchar (channel_at (snd ab) j)) = true.
Proof.
  intros Hwf Hfind Halloc Hdma Hq out d' r' ab.
  pose proof (hcd_edpt_xfer_lookups dev ep_addr buf buflen d r dev
                (tu_edpt_number ep_addr) (tu_edpt_dir ep_addr)) as Hkeep.
  destruct (hcd_edpt_xfer_programmed dev ep_addr buf buflen d r ep_id ch_id d1
              Hwf Hfind Halloc Hdma)
    as (ok0 & d0' & r0' & Hrun0 & _ & _ & _ & _ & _ & _ & Hwf').
  destruct (hcd_edpt_xfer_effects dev ep_addr buf buflen d r ep_id ch_id d1
              Hwf Hfind Halloc Hdma)
    as (ok & d0 & r0 & Hrun & Hok & Hx & _ & He & _ & _ & Hchar & _ & _ & _ &
        Hn & _ & Hp & Hnp & _).
  rewrite Hrun in Hrun0. inversion Hrun0; subst ok0 d0' r0'. clear Hrun0.
  subst ab d' r' out. rewrite Hrun in *. cbn [fst snd] in *.
  apply Z.eqb_neq in Hq. rewrite Hq, andb_false_r in Hok. cbn in Hok. subst ok.
  pose proof (channel_alloc_Some _ _ _ _ Halloc) as (Hch & _ & _).
  pose proof (edpt_find_opened_spec d dev (tu_edpt_number ep_addr)
                (tu_edpt_dir ep_addr)) as [Hsound _].
  destruct (Hsound ep_id Hfind) as (_ & _ & Hdev & Hnum & _).
  assert (Hcount : DWC2_CHANNEL_COUNT r0 = DWC2_CHANNEL_COUNT r)
    by (unfold DWC2_CHANNEL_COUNT; rewrite Hn; reflexivity).
  destruct (first_index_exists
              (fun c =>
                 negb (bool_decide (state (xfer_at d0 c) = HCD_XFER_STATE_UNALLOCATED)) &&
                 (bool_decide (dev_addr (hcchar (channel_at r0 c)) = dev) &&
                  bool_decide (ep_num (hcchar (channel_at r0 c)) = tu_edpt_number ep_addr) &&
                  (bool_decide (tu_edpt_number ep_addr = 0) ||
                   bool_decide (ep_dir (hcchar (channel_at r0 c)) = tu_edpt_dir ep_addr))))
              (DWC2_CHANNEL_COUNT r0) 0 ch_id ltac:(lia))
    as (j & Hj & Hle).
  { rewrite Hx, Hchar.
    cbn [state hcchar_set_enable hcchar_set_frame_dir dev_addr ep_num ep_dir].
    rewrite (bool_decide_eq_false_2 (HCD_XFER_STATE_ACTIVE = _)) by discriminate.
    rewrite (bool_decide_eq_true_2 (dev_addr _ = _)) by exact Hdev.
    rewrite (bool_decide_eq_true_2 (ep_num _ = _)) by exact Hnum.
    rewrite (bool_decide_eq_true_2 (tu_edpt_dir _ = _)) by reflexivity.
    rewrite orb_true_r. reflexivity. }
  split; [reflexivity|].
  pose proof (first_index_Some _ _ _ _ Hj) as (_ & HP & _).
  apply andb_prop in HP as [Hst HP]. apply andb_prop in HP as [HP _].
  apply andb_prop in HP as [Hd Hnm].
  apply negb_true_iff, bool_decide_eq_false_1 in Hst.
  apply bool_decide_eq_true_1 in Hd, Hnm.
  unfold hcd_edpt_abort_xfer. rewrite Hkeep, Hfind.
  unfold channel_find_enabled. rewrite Hj.
  assert (Hper : channel_is_periodic (edpt_hcchar (edpt_at d0 ep_id))
                 = channel_is_periodic (edpt_hcchar (edpt_at d ep_id)))
    by (rewrite He; reflexivity).
  assert (Hqa : forall p, request_queue_avail r0 p = request_queue_avail r p)
    by (intros p; unfold request_queue_avail; rewrite Hp, Hnp; reflexivity).
  rewrite Hper, Hqa, Hq. cbn [fst snd]. split; [reflexivity|].
  exists j. split; [exact Hle|]. split; [reflexivity|].
  split; [exact Hst|]. split; [exact Hd|]. split; [exact Hnm|].
  destruct Hwf' as (_ & _ & Hlc). pose proof (DWC2_CHANNEL_COUNT_le r) as Hmax.
  rewrite channel_at_set_channel_eq by lia. reflexivity.
Qed.

Lemma advance_toggle_twice t num :
  num <> 0 -> t = HCTSIZ_PID_DATA0 \/ t = HCTSIZ_PID_DATA1 ->
  advance_toggle t num <> t /\ advance_toggle (advance_toggle t num) num = t.
Proof.
  intros Hn Ht. unfold advance_toggle.
  rewrite !(bool_decide_eq_false_2 (num = 0)) by exact Hn.
  destruct Ht as [-> | ->]; vm_compute; split; congruence.
Qed.

(** Two submissions in a row on an endpoint other than endpoint 0, whose
    stored toggle is DATA0 or DATA1, each of fewer than 1024 packets, are
    programmed with opposite data toggles on two different channels, and
    after the second the stored toggle is back where it started. *)
Theorem hcd_edpt_xfer_twice_alternates
    dev ep_addr buf1 len1 buf2 len2 d r ep_id ch1 ch2 da db :
  hcd_wf d r ->
  edpt_find_opened d dev (tu_edpt_number ep_addr) (tu_edpt_dir ep_addr) = Some ep_id ->
  channel_alloc r d = (Some ch1, da) ->
  dma_host_enabled r = false ->
  tu_edpt_number ep_addr <> 0 ->
  next_data_toggle (edpt_at d ep_id) = HCTSIZ_PID_DATA0 \/
  next_data_toggle (edpt_at d ep_id) = HCTSIZ_PID_DATA1 ->
  0 <= len1 < 2 ^ 16 -> 0 <= len2 < 2 ^ 16 ->
  xfer_packet_count len1 (ep_size (edpt_hcchar (edpt_at d ep_id))) < 2 ^ 10 ->
  xfer_packet_count len2 (ep_size (edpt_hcchar (edpt_at d ep_id))) < 2 ^ 10 ->
  let out1 := hcd_edpt_xfer dev ep_addr buf1 len1 d r in
  channel_alloc (snd out1) (snd (fst out1)) = (Some ch2, db) ->
  let out2 := hcd_edpt_xfer dev ep_addr buf2 len2 (snd (fst out1)) (snd out1) in
  ch2 <> ch1 /\
  pid (hctsiz (channel_at (snd out1) ch1)) = next_data_toggle (edpt_at d ep_id) /\
  pid (hctsiz (channel_at (snd out2) ch2)) <> pid (hctsiz (channel_at (snd out1) ch1)) /\
  next_data_toggle (edpt_at (snd (fst out2)) ep_id) = next_data_toggle (edpt_at d ep_id).
Proof.
  intros Hwf Hfind Halloc Hdma Hnum Hold Hlen1 Hlen2 Hfit1 Hfit2 out1 Halloc2 out2.
  pose proof (hcd_edpt_xfer_lookups dev ep_addr buf1 len1 d r dev
                (tu_edpt_number ep_addr) (tu_edpt_dir ep_addr)) as Hkeep.
  destruct (hcd_edpt_xfer_programmed dev ep_addr buf1 len1 d r ep_id ch1 da
              Hwf Hfind Halloc Hdma)
    as (ok1 & d1 & r1 & Hrun1 & _ & Htsiz1 & Htog1 & _ & _ & Hact1 & Hwf1).
  destruct (hcd_edpt_xfer_effects dev ep_addr buf1 len1 d r ep_id ch1 da
              Hwf Hfind Halloc Hdma)
    as (ok1' & d1' & r1' & Hrun1' & _ & _ & _ & Hslot1 & _ & _ & _ & _ & _ & _ &
        _ & Harch & _).
  rewrite Hrun1 in Hrun1'. inversion Hrun1'; subst ok1' d1' r1'. clear Hrun1'.
  assert (Hsize : ep_size (edpt_hcchar (edpt_at d1 ep_id))
                  = ep_size (edpt_hcchar (edpt_at d ep_id)))
    by (rewrite Hslot1; reflexivity).
  subst out2 out1. rewrite Hrun1 in *. cbn [fst snd] in *.
  rewrite Hfind in Hkeep.
  assert (Hdma1 : dma_host_enabled r1 = false)
    by (unfold dma_host_enabled in *; rewrite Harch; exact Hdma).
  destruct (hcd_edpt_xfer_programmed dev ep_addr buf2 len2 d1 r1 ep_id ch2 db
              Hwf1 Hkeep Halloc2 Hdma1)
    as (ok2 & d2 & r2 & Hrun2 & _ & Htsiz2 & Htog2 & _ & Hfree2 & _).
  rewrite Hrun2. cbn [fst snd]. rewrite Htsiz1, Htsiz2, Htog2, Htog1, Hsize.
  pose proof (xfer_packet_count_range len1
                (ep_size (edpt_hcchar (edpt_at d ep_id)))) as Hr1.
  pose proof (xfer_packet_count_range len2
                (ep_size (edpt_hcchar (edpt_at d ep_id)))) as Hr2.
  rewrite !hctsiz_bm_word_fits by lia. cbn [pid].
  destruct (advance_toggle_twice _ _ Hnum Hold) as [Hne Hback].
  split; [intros ->; congruence|]. split; [reflexivity|].
  split; [exact Hne | exact Hback].
Qed.

(** [hcd_setup_send] with every channel in use returns false and writes no
    register and no channel, but the stored toggle of the control endpoint
    has by then been overwritten with the SETUP value; with no control
    endpoint open for the device it returns false and changes nothing. *)
Theorem hcd_setup_send_rejected dev setup_packet d r :
  (edpt_find_opened d dev 0 TUSB_DIR_OUT = None ->
   hcd_setup_send dev setup_packet d r = (false, d, r)) /\
  (forall ep_id,
     edpt_find_opened d dev 0 TUSB_DIR_OUT = Some ep_id ->
     (forall j, (j < DWC2_CHANNEL_COUNT r)%nat ->
        state (xfer_at d j) <> HCD_XFER_STATE_UNALLOCATED) ->
     let out := hcd_setup_send dev setup_packet d r in
     fst (fst out) = false /\ snd out = r /\
     xfer (snd (fst out)) = xfer d /\
     next_data_toggle (edpt_at (snd (fst out)) ep_id) = HCTSIZ_PID_SETUP /\
     edpt_hcchar (edpt_at (snd (fst out)) ep_id) = edpt_hcchar (edpt_at d ep_id) /\
     forall i, i <> ep_id -> edpt_at (snd (fst out)) i = edpt_at d i).
Proof.
  split.
  - intros Hnone. unfold hcd_setup_send. rewrite Hnone. reflexivity.
  - intros ep_id Hfind Hbusy out. subst out. unfold hcd_setup_send.
    rewrite Hfind.
    pose proof (edpt_find_opened_Some _ _ _ _ _ Hfind) as (Hslot & _).
    rewrite hcd_edpt_xfer_reject by (right; exact Hbusy).
    cbn [fst snd]. split; [reflexivity|]. split; [reflexivity|].
    split; [reflexivity|].
    rewrite edpt_at_set_edpt_eq by (eapply lookup_lt_Some; exact Hslot).
    split; [reflexivity|]. split; [reflexivity|].
    intros i Hi. apply edpt_at_set_edpt_ne. congruence.
Qed.

(** ** The channel interrupt handler, case by case *)

Lemma for_loop_skip {A} (I : A -> Prop) (body : nat -> A -> flow A) n :
  forall start a,
    I a ->
    (forall j b, (start <= j < start + n)%nat -> I b -> body j b = Continue b) ->
    for_loop body start n a = Continue a.
Proof.
  induction n as [|n IH]; intros start a Ha Hskip; simpl; [reflexivity|].
  rewrite (Hskip start a) by (try lia; exact Ha). simpl.
  apply IH; [exact Ha|]. intros j b Hj Hb. apply Hskip; [lia | exact Hb].
Qed.

Lemma for_loop_single {A} (I : A -> Prop) (body : nat -> A -> flow A) k n :
  forall start a,
    I a ->
    (forall j b, j <> k -> I b -> body j b = Continue b) ->
    (forall b, I b -> I (flow_out (body k b))) ->
    (start <= k < start + n)%nat ->
    flow_out (for_loop body start n a) = flow_out (body k a).
Proof.
  induction n as [|n IH]; intros start a Ha Hskip Hkeep Hk; [lia|]. simpl.
  destruct (decide (start = k)) as [->|Hne].
  - pose proof (Hkeep a Ha) as Hk'.
    destruct (body k a) as [a'|a']; simpl in *; [|reflexivity].
    rewrite (for_loop_skip I body n (S k) a' Hk'); [reflexivity|].
    intros j b Hj Hb. apply Hskip; [lia | exact Hb].
  - rewrite (Hskip start a) by (try congruence; exact Ha). simpl.
    apply IH; try assumption. lia.
Qed.

Lemma xfer_at_set_xfer_cases d i x :
  xfer_at (set_xfer d i x) i = x \/ xfer_at (set_xfer d i x) i = xfer_at d i.
Proof.
  destruct (decide (i < length (xfer d))%nat) as [Hlt|Hge].
  - left. apply xfer_at_set_xfer_eq. exact Hlt.
  - right. unfold xfer_at, set_xfer. simpl.
    rewrite list_insert_ge by lia. reflexivity.
Qed.

(** What one pass of the if / else-if chain can change: the driver's entry
    and the registers of the channel it serves, and nothing else. *)
Lemma channel_irq_dispatch_frame ch_id flags hcchar_bm d r res d' r' :
  channel_irq_dispatch ch_id flags hcchar_bm d r = Some (res, d', r') ->
  edpt d' = edpt d /\
  (forall j, j <> ch_id -> xfer_at d' j = xfer_at d j) /\
  (state (xfer_at d' ch_id) = state (xfer_at d ch_id) \/
   state (xfer_at d' ch_id) = HCD_XFER_STATE_UNALLOCATED) /\
  (forall j, j <> ch_id -> channel_at r' j = channel_at r j) /\
  haint r' = haint r /\ haintmsk r' = haintmsk r /\ gintmsk r' = gintmsk r /\
  ghwcfg2_num_host_ch r' = ghwcfg2_num_host_ch r /\
  ghwcfg2_arch r' = ghwcfg2_arch r.
Proof.
  unfold channel_irq_dispatch, channel_dealloc, set_err_count.
  repeat match goal with
         | |- context [if ?b then _ else _] => destruct b
         | |- context [match ?t with TUSB_DIR_OUT => _ | TUSB_DIR_IN => _ end] =>
             destruct t
         end;
    intros H; inversion H; subst; clear H;
    (split; [reflexivity|]);
    (split; [intros j Hj; rewrite ?xfer_at_set_xfer_ne by congruence; reflexivity|]);
    (split;
     [first [left; reflexivity
            | destruct (xfer_at_set_xfer_cases d ch_id
                          {| state := HCD_XFER_STATE_UNALLOCATED;
                             err_count := err_count (xfer_at d ch_id);
                             buffer := buffer (xfer_at d ch_id);
                             total_bytes := total_bytes (xfer_at d ch_id) |})
                as [E|E]; rewrite E; [right; reflexivity | left; reflexivity]
            | match goal with
              | |- context [set_xfer d ch_id ?x] =>
                  destruct (xfer_at_set_xfer_cases d ch_id x) as [E|E];
                  rewrite E; left; reflexivity
              end]|]);
    (split; [intros j Hj; rewrite ?channel_at_set_channel_ne by congruence;
             reflexivity|]);
    repeat (split; [reflexivity|]); reflexivity.
Qed.

Lemma irq_frame_refl s : irq_frame s s.
Proof.
  repeat (split; [reflexivity|]). intros ch. split; [left; reflexivity|].
  intros _. split; reflexivity.
Qed.

Lemma irq_frame_trans a b c : irq_frame a b -> irq_frame b c -> irq_frame a c.
Proof.
  intros (He1 & Hh1 & Hg1 & H1) (He2 & Hh2 & Hg2 & H2).
  split; [congruence|]. split; [congruence|]. split; [congruence|].
  intros ch. destruct (H1 ch) as [Hs1 Hu1]. destruct (H2 ch) as [Hs2 Hu2]. split.
  - destruct Hs2 as [E2|E2]; [|right; exact E2].
    destruct Hs1 as [E1|E1]; [left|right]; congruence.
  - intros Hbit. destruct (Hu1 Hbit) as [Hx1 Hc1].
    rewrite <- Hh1 in Hbit. destruct (Hu2 Hbit) as [Hx2 Hc2].
    split; congruence.
Qed.

Lemma channel_irq_frame in_isr ch_id s :
  irq_frame s (flow_out (channel_irq in_isr ch_id s)).
Proof.
  destruct s as [[d r] evs]. unfold channel_irq.
  destruct (tu_bit_test (haint r) ch_id) eqn:Hbit; [|apply irq_frame_refl].
  assert (Hclear : forall d' r0 evs0 bits,
            irq_frame (d, r, evs) (d', r0, evs0) ->
            irq_frame (d, r, evs) (d', clear_hcint r0 ch_id bits, evs0)).
  { intros d' r0 evs0 bits (He & Hh & Hg & H). cbn [fst snd] in *.
    repeat (split; [assumption|]). intros ch. destruct (H ch) as [Hs Hu].
    split; [exact Hs|]. intros Hb. destruct (Hu Hb) as [Hx Hc].
    cbn [fst snd] in Hb.
    split; [exact Hx|]. cbn [fst snd]. unfold clear_hcint.
    rewrite channel_at_set_channel_ne by (intros ->; congruence). exact Hc. }
  destruct (dma_host_enabled r); [apply Hclear, irq_frame_refl|].
  destruct (channel_irq_dispatch _ _ _ d r) as [[[res d'] r']|] eqn:Hdisp;
    [|apply irq_frame_refl].
  apply channel_irq_dispatch_frame in Hdisp
    as (He & Hxo & Hst & Hco & Hh & _ & Hg & _).
  assert (Hbase : irq_frame (d, r, evs) (d', r', evs)).
  { repeat (split; [assumption|]). intros ch. cbn [fst snd].
    destruct (decide (ch = ch_id)) as [->|Hne].
    - split; [exact Hst|]. intros Hb. congruence.
    - split; [left; rewrite Hxo by exact Hne; reflexivity|].
      intros _. split; [apply Hxo | apply Hco]; exact Hne. }
  destruct (negb (bool_decide (res = XFER_RESULT_INVALID)) ||
            hcint_test _ HCINT_CHANNEL_HALTED);
    cbn [flow_out]; apply Hclear; exact Hbase.
Qed.

Lemma handle_channel_irq_frame_all in_isr s :
  irq_frame s (handle_channel_irq in_isr s).
Proof.
  destruct s as [[d r] evs]. unfold handle_channel_irq.
  apply (for_loop_preserves irq_frame (channel_irq in_isr)
           irq_frame_refl irq_frame_trans (channel_irq_frame in_isr)).
Qed.

(** [handle_channel_irq] serves only the channels flagged in HAINT: a
    channel whose bit is clear keeps its driver entry and all its
    registers; and the handler never writes the endpoint table or
    GINTMSK. *)
Theorem handle_channel_irq_unflagged_untouched in_isr d r evs :
  let out := handle_channel_irq in_isr (d, r, evs) in
  edpt (fst (fst out)) = edpt d /\
  gintmsk (snd (fst out)) = gintmsk r /\
  forall ch_id, tu_bit_test (haint r) ch_id = false ->
    xfer_at (fst (fst out)) ch_id = xfer_at d ch_id /\
    channel_at (snd (fst out)) ch_id = channel_at r ch_id.
Proof.
  intros out. destruct (handle_channel_irq_frame_all in_isr (d, r, evs))
    as (He & _ & Hg & H).
  split; [exact He|]. split; [exact Hg|]. intros ch Hbit.
  destruct (H ch) as [_ Hu]. apply Hu. exact Hbit.
Qed.

(** [handle_channel_irq] only ever releases channels: after it every
    channel is in the state it was in, or unallocated. *)
Theorem handle_channel_irq_only_releases in_isr d r evs ch_id :
  let out := handle_channel_irq in_isr (d, r, evs) in
  state (xfer_at (fst (fst out)) ch_id) = state (xfer_at d ch_id) \/
  state (xfer_at (fst (fst out)) ch_id) = HCD_XFER_STATE_UNALLOCATED.
Proof.
  intros out. destruct (handle_channel_irq_frame_all in_isr (d, r, evs))
    as (_ & _ & _ & H).
  destruct (H ch_id) as [Hs _]. exact Hs.
Qed.

(** With one channel flagged in HAINT the handler is one pass of its loop
    body on that channel. *)
Lemma handle_channel_irq_single in_isr d r evs ch_id :
  haint r = TU_BIT ch_id ->
  (ch_id < DWC2_CHANNEL_COUNT r)%nat ->
  handle_channel_irq in_isr (d, r, evs)
  = flow_out (channel_irq in_isr ch_id (d, r, evs)).
Proof.
  intros Hh Hch. unfold handle_channel_irq.
  apply (for_loop_single (fun s : irq_state => haint (snd (fst s)) = TU_BIT ch_id)).
  - exact Hh.
  - intros j [[d0 r0] evs0] Hj Hb. cbn [fst snd] in Hb. unfold channel_irq.
    rewrite Hb, tu_bit_test_TU_BIT, bool_decide_eq_false_2 by exact Hj.
    reflexivity.
  - intros b Hb. destruct (channel_irq_frame in_isr ch_id b) as (_ & Hh' & _).
    congruence.
  - lia.
Qed.

Lemma channel_at_clear_hcint_eq r ch_id bits :
  (ch_id < length (channel r))%nat ->
  channel_at (clear_hcint r ch_id bits) ch_id
  = with_hcint (channel_at r ch_id) (hcint (channel_at r ch_id) ∖ bits).
Proof. intros H. unfold clear_hcint. apply channel_at_set_channel_eq. exact H. Qed.

Lemma tu_bit_test_ldiff m i j :
  tu_bit_test (Z.ldiff m (TU_BIT i)) j = tu_bit_test m j && negb (bool_decide (j = i)).
Proof.
  unfold tu_bit_test at 1. rewrite Z.ldiff_spec.
  fold (tu_bit_test m j). fold (tu_bit_test (TU_BIT i) j).
  rewrite tu_bit_test_TU_BIT. reflexivity.
Qed.

Lemma hcint_test_masked (raw mask : gset hcint_flag) f :
  hcint_test (raw ∩ mask) f = hcint_test raw f && hcint_test mask f.
Proof.
  unfold hcint_test.
  destruct (bool_decide (f ∈ raw)) eqn:Hr; destruct (bool_decide (f ∈ mask)) eqn:Hm;
    cbn [andb];
    [apply bool_decide_eq_true_2 | apply bool_decide_eq_false_2 ..];
    rewrite elem_of_intersection;
    try apply bool_decide_eq_true_1 in Hr; try apply bool_decide_eq_true_1 in Hm;
    try apply bool_decide_eq_false_1 in Hr; try apply bool_decide_eq_false_1 in Hm;
    tauto.
Qed.

Lemma elem_of_cleared (raw mask : gset hcint_flag) f :
  f ∈ raw ∖ (raw ∩ mask) <-> f ∈ raw /\ f ∉ mask.
Proof. rewrite elem_of_difference, elem_of_intersection. tauto. Qed.

Lemma hcint_test_true (raw mask : gset hcint_flag) f :
  f ∈ raw -> f ∈ mask -> hcint_test (raw ∩ mask) f = true.
Proof.
  intros Hr Hm. apply bool_decide_eq_true_2. apply elem_of_intersection.
  split; assumption.
Qed.

Lemma hcint_test_false (raw mask : gset hcint_flag) f :
  f ∉ raw ∩ mask -> hcint_test (raw ∩ mask) f = false.
Proof. intros H. apply bool_decide_eq_false_2. exact H. Qed.

Lemma channel_irq_xfer_complete in_isr d r evs ch_id :
  tu_bit_test (haint r) ch_id = true ->
  dma_host_enabled r = false ->
  HCINT_XFER_COMPLETE ∈ hcint (channel_at r ch_id) ->
  HCINT_XFER_COMPLETE ∈ hcintmsk (channel_at r ch_id) ->
  let c := channel_at r ch_id in
  channel_irq in_isr ch_id (d, r, evs) =
  Continue
    (channel_dealloc d ch_id,
     clear_hcint
       (set_haintmsk
          (set_channel r ch_id (with_hcintmsk c (hcintmsk c ∖ {[HCINT_ACK]})))
          (Z.ldiff (haintmsk r) (TU_BIT ch_id)))
       ch_id (hcint c ∩ hcintmsk c),
     evs ++ [{| ev_dev_addr := dev_addr (hcchar c);
                ev_ep_addr := tu_edpt_addr (ep_num (hcchar c)) (ep_dir (hcchar c));
                ev_xferred_bytes := 0; ev_result := XFER_RESULT_SUCCESS;
                ev_in_isr := in_isr |}]).
Proof.
  intros Hbit Hdma Hraw Hmsk c. subst c. unfold channel_irq. rewrite Hbit, Hdma.
  unfold channel_irq_dispatch.
  rewrite (hcint_test_true _ _ _ Hraw Hmsk). reflexivity.
Qed.

(** Transfer complete.  When the only channel flagged has an unmasked
    transfer-complete flag, the handler raises one Success notification
    for the device and endpoint held in the channel, releases the channel,
    masks it in HAINTMSK, acknowledges the unmasked flags and stops
    watching for ACK. *)
Theorem handle_channel_irq_xfer_complete in_isr d r evs ch_id :
  hcd_wf d r ->
  dma_host_enabled r = false ->
  haint r = TU_BIT ch_id ->
  (ch_id < DWC2_CHANNEL_COUNT r)%nat ->
  HCINT_XFER_COMPLETE ∈ hcint (channel_at r ch_id) ->
  HCINT_XFER_COMPLETE ∈ hcintmsk (channel_at r ch_id) ->
  let c := channel_at r ch_id in
  let out := handle_channel_irq in_isr (d, r, evs) in
  let d' := fst (fst out) in
  let r' := snd (fst out) in
  snd out =
    evs ++ [{| ev_dev_addr := dev_addr (hcchar c);
               ev_ep_addr := tu_edpt_addr (ep_num (hcchar c)) (ep_dir (hcchar c));
               ev_xferred_bytes := 0; ev_result := XFER_RESULT_SUCCESS;
               ev_in_isr := in_isr |}] /\
  state (xfer_at d' ch_id) = HCD_XFER_STATE_UNALLOCATED /\
  tu_bit_test (haintmsk r') ch_id = false /\
  (forall f, f ∈ hcint (channel_at r' ch_id) <-> f ∈ hcint c /\ f ∉ hcintmsk c) /\
  hcintmsk (channel_at r' ch_id) = hcintmsk c ∖ {[HCINT_ACK]} /\
  hcchar (channel_at r' ch_id) = hcchar c.
Proof.
  intros (Hlx & Hle & Hlc) Hdma Hh Hch Hraw Hmsk c out d' r'.
  pose proof (DWC2_CHANNEL_COUNT_le r) as Hmax.
  subst d' r' out. rewrite (handle_channel_irq_single _ _ _ _ _ Hh Hch).
  rewrite channel_irq_xfer_complete; try assumption;
    [|rewrite Hh, tu_bit_test_TU_BIT; apply bool_decide_eq_true_2; reflexivity].
  fold c. cbn [flow_out fst snd].
  split; [reflexivity|]. split.
  { unfold channel_dealloc. rewrite xfer_at_set_xfer_eq by lia. reflexivity. }
  split.
  { change (haintmsk (clear_hcint ?r0 _ _)) with (haintmsk r0).
    cbn [haintmsk set_haintmsk set_channel].
    rewrite tu_bit_test_ldiff, bool_decide_eq_true_2 by reflexivity.
    apply andb_false_r. }
  rewrite channel_at_clear_hcint_eq
    by (cbn [channel set_haintmsk set_channel]; rewrite length_insert; lia).
  rewrite channel_at_set_haintmsk, channel_at_set_channel_eq by lia.
  cbn [hcint hcintmsk hcchar with_hcint with_hcintmsk].
  split; [intros f; apply elem_of_cleared|]. split; reflexivity.
Qed.

Lemma tu_bit_test_self ch_id : tu_bit_test (TU_BIT ch_id) ch_id = true.
Proof. rewrite tu_bit_test_TU_BIT. apply bool_decide_eq_true_2. reflexivity. Qed.

(** Stall.  When the only channel flagged has an unmasked stall flag and no
    unmasked transfer-complete flag, the handler raises one Stalled
    notification, sets the disable bit of the channel, unmasks its
    channel-halted flag and masks the channel in HAINTMSK; the driver data
    are not written, so the channel stays allocated. *)
Theorem handle_channel_irq_stall in_isr d r evs ch_id :
  hcd_wf d r ->
  dma_host_enabled r = false ->
  haint r = TU_BIT ch_id ->
  (ch_id < DWC2_CHANNEL_COUNT r)%nat ->
  HCINT_STALL ∈ hcint (channel_at r ch_id) ->
  HCINT_STALL ∈ hcintmsk (channel_at r ch_id) ->
  HCINT_XFER_COMPLETE ∉ hcint (channel_at r ch_id) ∩ hcintmsk (channel_at r ch_id) ->
  let c := channel_at r ch_id in
  let out := handle_channel_irq in_isr (d, r, evs) in
  let r' := snd (fst out) in
  snd out =
    evs ++ [{| ev_dev_addr := dev_addr (hcchar c);
               ev_ep_addr := tu_edpt_addr (ep_num (hcchar c)) (ep_dir (hcchar c));
               ev_xferred_bytes := 0; ev_result := XFER_RESULT_STALLED;
               ev_in_isr := in_isr |}] /\
  fst (fst out) = d /\
  disable (hcchar (channel_at r' ch_id)) = true /\
  enable (hcchar (channel_at r' ch_id)) = enable (hcchar c) /\
  hcintmsk (channel_at r' ch_id) = hcintmsk c ∪ {[HCINT_CHANNEL_HALTED]} /\
  tu_bit_test (haintmsk r') ch_id = false /\
  (forall f, f ∈ hcint (channel_at r' ch_id) <-> f ∈ hcint c /\ f ∉ hcintmsk c).
Proof.
  intros (Hlx & Hle & Hlc) Hdma Hh Hch Hraw Hmsk Hnc c out r'.
  pose proof (DWC2_CHANNEL_COUNT_le r) as Hmax.
  subst r' out. rewrite (handle_channel_irq_single _ _ _ _ _ Hh Hch).
  unfold channel_irq. rewrite Hh, tu_bit_test_self, Hdma.
  unfold channel_irq_dispatch.
  rewrite (hcint_test_false _ _ _ Hnc), (hcint_test_true _ _ _ Hraw Hmsk).
  fold c. cbn [flow_out fst snd negb orb bool_decide].
  rewrite (bool_decide_eq_false_2 (XFER_RESULT_STALLED = XFER_RESULT_INVALID))
    by discriminate.
  cbn [flow_out fst snd negb orb].
  split; [reflexivity|]. split; [reflexivity|].
  change (haintmsk (clear_hcint ?r0 _ _)) with (haintmsk r0).
  rewrite channel_at_clear_hcint_eq
    by (cbn [channel set_haintmsk set_channel]; rewrite length_insert; lia).
  rewrite channel_at_set_haintmsk, channel_at_set_channel_eq by lia.
  cbn [hcint hcintmsk hcchar with_hcint with_hcintmsk with_hcchar
       hcchar_set_disable disable enable haintmsk set_haintmsk set_channel].
  repeat (split; [reflexivity|]). split.
  - rewrite tu_bit_test_ldiff, bool_decide_eq_true_2 by reflexivity.
    apply andb_false_r.
  - intros f. apply elem_of_cleared.
Qed.

(** NAK on an IN channel.  When the only channel flagged is an IN channel
    with an unmasked NAK (and no unmasked transfer-complete, stall or
    transaction-error flag): with room in the request queue of its class
    the handler sets the enable bit again, zeroes the error counter, keeps
    the channel allocated and raises no notification; with the queue full
    it returns at once, having written nothing, not even the
    acknowledgement of the flag. *)
Theorem handle_channel_irq_nak_in in_isr d r evs ch_id :
  hcd_wf d r ->
  dma_host_enabled r = false ->
  haint r = TU_BIT ch_id ->
  (ch_id < DWC2_CHANNEL_COUNT r)%nat ->
  ep_dir (hcchar (channel_at r ch_id)) = TUSB_DIR_IN ->
  HCINT_NAK ∈ hcint (channel_at r ch_id) ->
  HCINT_NAK ∈ hcintmsk (channel_at r ch_id) ->
  HCINT_XFER_COMPLETE ∉ hcint (channel_at r ch_id) ∩ hcintmsk (channel_at r ch_id) ->
  HCINT_STALL ∉ hcint (channel_at r ch_id) ∩ hcintmsk (channel_at r ch_id) ->
  HCINT_XACT_ERR ∉ hcint (channel_at r ch_id) ∩ hcintmsk (channel_at r ch_id) ->
  let c := channel_at r ch_id in
  let out := handle_channel_irq in_isr (d, r, evs) in
  let x' := xfer_at (fst (fst out)) ch_id in
  let c' := channel_at (snd (fst out)) ch_id in
  (request_queue_avail r (channel_is_periodic (hcchar c)) <> 0 ->
   snd out = evs /\
   enable (hcchar c') = true /\
   err_count x' = 0 /\
   state x' = state (xfer_at d ch_id) /\
   buffer x' = buffer (xfer_at d ch_id) /\
   total_bytes x' = total_bytes (xfer_at d ch_id) /\
   hcintmsk c' = hcintmsk c /\
   (forall f, f ∈ hcint c' <-> f ∈ hcint c /\ f ∉ hcintmsk c)) /\
  (request_queue_avail r (channel_is_periodic (hcchar c)) = 0 ->
   out = (d, r, evs)).
Proof.
  intros (Hlx & Hle & Hlc) Hdma Hh Hch Hdir Hraw Hmsk Hnc Hns Hne c out x' c'.
  pose proof (DWC2_CHANNEL_COUNT_le r) as Hmax.
  subst x' c' out. rewrite (handle_channel_irq_single _ _ _ _ _ Hh Hch).
  unfold channel_irq. rewrite Hh, tu_bit_test_self, Hdma.
  unfold channel_irq_dispatch.
  rewrite (hcint_test_false _ _ _ Hnc), (hcint_test_false _ _ _ Hns),
    (hcint_test_false _ _ _ Hne), (hcint_test_true _ _ _ Hraw Hmsk), Hdir.
  fold c. cbn [orb]. split.
  - intros Hq. apply Z.eqb_neq in Hq. rewrite Hq.
    rewrite (bool_decide_eq_true_2 (XFER_RESULT_INVALID = XFER_RESULT_INVALID))
      by reflexivity.
    cbn [negb orb].
    destruct (hcint_test (hcint c ∩ hcintmsk c) HCINT_CHANNEL_HALTED);
      cbn [flow_out fst snd];
      (split; [reflexivity|]);
      rewrite channel_at_clear_hcint_eq
        by (cbn [channel set_haintmsk set_channel]; rewrite length_insert; lia);
      rewrite ?channel_at_set_haintmsk;
      rewrite channel_at_set_channel_eq by lia;
      unfold set_err_count; rewrite xfer_at_set_xfer_eq by lia;
      cbn [hcint hcintmsk hcchar with_hcint with_hcintmsk with_hcchar
           hcchar_set_enable enable err_count state buffer total_bytes];
      repeat (split; [reflexivity|]); intros f; apply elem_of_cleared.
  - intros Hq. rewrite Hq. reflexivity.
Qed.

(** The error counter.  On the only channel flagged: an unmasked
    transaction error (with no unmasked transfer-complete, stall or NAK
    flag) adds one to the channel's error counter, modulo 2^8, and unmasks
    the ACK flag; an unmasked ACK with nothing of higher priority unmasked
    zeroes the counter and masks the ACK flag again.  Neither raises a
    notification nor releases the channel. *)
Theorem handle_channel_irq_error_counter in_isr d r evs ch_id :
  hcd_wf d r ->
  dma_host_enabled r = false ->
  haint r = TU_BIT ch_id ->
  (ch_id < DWC2_CHANNEL_COUNT r)%nat ->
  let c := channel_at r ch_id in
  let flags := hcint c ∩ hcintmsk c in
  let out := handle_channel_irq in_isr (d, r, evs) in
  let x' := xfer_at (fst (fst out)) ch_id in
  let c' := channel_at (snd (fst out)) ch_id in
  HCINT_XFER_COMPLETE ∉ flags -> HCINT_STALL ∉ flags -> HCINT_NAK ∉ flags ->
  (HCINT_XACT_ERR ∈ hcint c -> HCINT_XACT_ERR ∈ hcintmsk c ->
   err_count x' = (err_count (xfer_at d ch_id) + 1) mod 2 ^ 8 /\
   hcintmsk c' = hcintmsk c ∪ {[HCINT_ACK]} /\
   state x' = state (xfer_at d ch_id) /\ snd out = evs) /\
  (HCINT_XACT_ERR ∉ flags -> HCINT_NYET ∉ flags -> HCINT_CHANNEL_HALTED ∉ flags ->
   HCINT_ACK ∈ hcint c -> HCINT_ACK ∈ hcintmsk c ->
   err_count x' = 0 /\
   hcintmsk c' = hcintmsk c ∖ {[HCINT_ACK]} /\
   state x' = state (xfer_at d ch_id) /\ snd out = evs).
Proof.
  intros (Hlx & Hle & Hlc) Hdma Hh Hch c flags out x' c' Hnc Hns Hnn.
  pose proof (DWC2_CHANNEL_COUNT_le r) as Hmax.
  subst x' c' out. rewrite (handle_channel_irq_single _ _ _ _ _ Hh Hch).
  unfold channel_irq. rewrite Hh, tu_bit_test_self, Hdma.
  unfold channel_irq_dispatch. subst flags c.
  rewrite (hcint_test_false _ _ _ Hnc), (hcint_test_false _ _ _ Hns),
    (hcint_test_false _ _ _ Hnn).
  split.
  - intros Hraw Hmsk. rewrite (hcint_test_true _ _ _ Hraw Hmsk). cbn [orb].
    assert (Hre : match ep_dir (hcchar (channel_at r ch_id)) with
                  | TUSB_DIR_OUT => Some r
                  | TUSB_DIR_IN => Some r
                  end = Some r) by (destruct (ep_dir _); reflexivity).
    rewrite Hre.
    rewrite (bool_decide_eq_true_2 (XFER_RESULT_INVALID = XFER_RESULT_INVALID))
      by reflexivity.
    cbn [negb orb].
    destruct (hcint_test _ HCINT_CHANNEL_HALTED);
      cbn [flow_out fst snd];
      rewrite channel_at_clear_hcint_eq
        by (cbn [channel set_haintmsk set_channel]; rewrite length_insert; lia);
      rewrite ?channel_at_set_haintmsk;
      rewrite channel_at_set_channel_eq by lia;
      unfold set_err_count; rewrite xfer_at_set_xfer_eq by lia;
      cbn [hcintmsk with_hcint with_hcintmsk err_count state];
      repeat (split; [reflexivity|]); reflexivity.
  - intros Hne Hny Hnh Hraw Hmsk.
    rewrite (hcint_test_false _ _ _ Hne), (hcint_test_false _ _ _ Hny),
      (hcint_test_false _ _ _ Hnh), (hcint_test_true _ _ _ Hraw Hmsk).
    cbn [orb].
    rewrite (bool_decide_eq_true_2 (XFER_RESULT_INVALID = XFER_RESULT_INVALID))
      by reflexivity.
    cbn [negb orb flow_out fst snd].
    rewrite channel_at_clear_hcint_eq
      by (cbn [channel set_channel]; rewrite length_insert; lia).
    rewrite channel_at_set_channel_eq by lia.
    unfold set_err_count. rewrite xfer_at_set_xfer_eq by lia.
    cbn [hcintmsk with_hcint with_hcintmsk err_count state].
    repeat (split; [reflexivity|]); reflexivity.
Qed.

(** ** The FIFO handlers: what they leave alone *)

Lemma handle_rxflvl_irq_pop d r ram :
  let out := handle_rxflvl_irq d r ram in
  let d' := fst (fst out) in
  let r' := snd (fst out) in
  grxstsp r' = tail (grxstsp r) /\
  edpt d' = edpt d /\ channel r' = channel r /\
  haintmsk r' = haintmsk r /\ gintmsk r' = gintmsk r /\
  (forall ch_id,
     state (xfer_at d' ch_id) = state (xfer_at d ch_id) /\
     err_count (xfer_at d' ch_id) = err_count (xfer_at d ch_id)) /\
  (forall e q, grxstsp r = e :: q ->
     (forall ch_id, ch_id <> ep_ch_num e -> xfer_at d' ch_id = xfer_at d ch_id) /\
     (packet_status e <> GRXSTS_PKTSTS_RX_DATA ->
      d' = d /\ snd out = ram /\ rx_fifo r' = rx_fifo r)) /\
  (grxstsp r = [] -> out = (d, r, ram)).
Proof.
  intros out d' r'. subst d' r' out. unfold handle_rxflvl_irq.
  destruct (grxstsp r) as [|e q] eqn:Hq.
  { cbn [fst snd]. rewrite Hq. repeat (split; [reflexivity|]). split.
    - intros ch. split; reflexivity.
    - split; [intros e q Hcons; discriminate | reflexivity]. }
  destruct (packet_status e) eqn:Hst; cbn [fst snd tail];
    try (repeat (split; [reflexivity|]);
         split; [intros ch; split; reflexivity|];
         split; [|discriminate];
         intros e0 q0 Hcons; split; [reflexivity|]; intros _;
         repeat split; reflexivity).
  unfold dfifo_read_packet. cbn [fst snd].
  set (x := xfer_at d (ep_ch_num e)).
  set (n := byte_count e).
  repeat (split; [reflexivity|]). split.
  { intros ch. destruct (decide (ch = ep_ch_num e)) as [->|Hne].
    - match goal with
      | |- context [set_xfer d (ep_ch_num e) ?x0] =>
          destruct (xfer_at_set_xfer_cases d (ep_ch_num e) x0) as [E|E];
          rewrite E; [|split; reflexivity]
      end.
      destruct (_ <? _); split; reflexivity.
    - rewrite xfer_at_set_xfer_ne by congruence. split; reflexivity. }
  split; [|discriminate].
  intros e0 q0 Hcons. inversion Hcons; subst e0 q0. split.
  - intros ch Hne. apply xfer_at_set_xfer_ne. congruence.
  - intros Hnd. congruence.
Qed.

(** [handle_rxflvl_irq] pops at most one status entry.  It never writes
    the state or the error counter of a channel, the endpoint table, or a
    channel register; it writes the driver entry of no channel but the one
    named in the entry; and an entry that is not a data entry changes
    nothing but the status queue. *)
Theorem handle_rxflvl_irq_frame d r ram :
  let out := handle_rxflvl_irq d r ram in
  let d' := fst (fst out) in
  let r' := snd (fst out) in
  grxstsp r' = tail (grxstsp r) /\
  edpt d' = edpt d /\ channel r' = channel r /\
  haintmsk r' = haintmsk r /\ gintmsk r' = gintmsk r /\
  (forall ch_id,
     state (xfer_at d' ch_id) = state (xfer_at d ch_id) /\
     err_count (xfer_at d' ch_id) = err_count (xfer_at d ch_id)) /\
  (forall e q, grxstsp r = e :: q ->
     (forall ch_id, ch_id <> ep_ch_num e -> xfer_at d' ch_id = xfer_at d ch_id) /\
     (packet_status e <> GRXSTS_PKTSTS_RX_DATA ->
      d' = d /\ snd out = ram /\ rx_fifo r' = rx_fifo r)) /\
  (grxstsp r = [] -> out = (d, r, ram)).
Proof. exact (handle_rxflvl_irq_pop d r ram). Qed.

(** A data entry whose byte count is not below the transfer-size field of
    the channel: the bytes are moved and the cursor advanced as for a
    short packet, and the channel's byte counter is left as it was. *)
Theorem handle_rxflvl_irq_full_packet d r ram e q :
  grxstsp r = e :: q ->
  packet_status e = GRXSTS_PKTSTS_RX_DATA ->
  (ep_ch_num e < length (xfer d))%nat ->
  xfer_size (hctsiz (channel_at r (ep_ch_num e))) <= byte_count e ->
  let x := xfer_at d (ep_ch_num e) in
  let out := handle_rxflvl_irq d r ram in
  let x' := xfer_at (fst (fst out)) (ep_ch_num e) in
  total_bytes x' = total_bytes x /\
  buffer x' = buffer x + byte_count e /\
  snd out = write_bytes ram (buffer x) (take (Z.to_nat (byte_count e)) (rx_fifo r)) /\
  rx_fifo (snd (fst out)) = drop (Z.to_nat (byte_count e)) (rx_fifo r).
Proof.
  intros Hq Hst Hlen Hge x out x'. subst x' out. unfold handle_rxflvl_irq.
  rewrite Hq, Hst. unfold dfifo_read_packet. cbn [fst snd].
  change (channel_at (set_rx (set_rx r q (rx_fifo r)) _ _) (ep_ch_num e))
    with (channel_at r (ep_ch_num e)).
  assert (Hlt : (byte_count e <? xfer_size (hctsiz (channel_at r (ep_ch_num e))))
                = false) by (apply Z.ltb_ge; exact Hge).
  rewrite Hlt. rewrite xfer_at_set_xfer_eq by exact Hlen.
  repeat split; reflexivity.
Qed.

Lemma write_bytes_app a : forall ram dst b,
  write_bytes ram dst (a ++ b)
  = write_bytes (write_bytes ram dst a) (dst + Z.of_nat (length a)) b.
Proof.
  induction a as [|x a IH]; intros ram dst b; simpl.
  - rewrite Z.add_0_r. reflexivity.
  - rewrite IH. f_equal. lia.
Qed.

Lemma handle_rxflvl_irq_data d r ram e q :
  grxstsp r = e :: q ->
  packet_status e = GRXSTS_PKTSTS_RX_DATA ->
  let x := xfer_at d (ep_ch_num e) in
  exists t,
    handle_rxflvl_irq d r ram =
    (set_xfer d (ep_ch_num e)
       {| state := state x; err_count := err_count x;
          buffer := buffer x + byte_count e; total_bytes := t |},
     set_rx r q (drop (Z.to_nat (byte_count e)) (rx_fifo r)),
     write_bytes ram (buffer x) (take (Z.to_nat (byte_count e)) (rx_fifo r))).
Proof.
  intros Hq Hst x. unfold handle_rxflvl_irq. rewrite Hq, Hst.
  unfold dfifo_read_packet. cbn [fst snd]. fold x.
  destruct (byte_count e <? _); eexists; reflexivity.
Qed.

(** Two data entries in a row for one channel land back to back: after
    both calls the buffer holds the first n1 + n2 bytes of the FIFO from
    the original cursor on, the cursor has advanced by n1 + n2 and the
    FIFO has lost those bytes. *)
Theorem handle_rxflvl_irq_twice d r ram e1 e2 q :
  grxstsp r = e1 :: e2 :: q ->
  packet_status e1 = GRXSTS_PKTSTS_RX_DATA ->
  packet_status e2 = GRXSTS_PKTSTS_RX_DATA ->
  ep_ch_num e2 = ep_ch_num e1 ->
  (ep_ch_num e1 < length (xfer d))%nat ->
  0 <= byte_count e1 -> 0 <= byte_count e2 ->
  let n := Z.to_nat (byte_count e1 + byte_count e2) in
  let x := xfer_at d (ep_ch_num e1) in
  let out1 := handle_rxflvl_irq d r ram in
  let out2 := handle_rxflvl_irq (fst (fst out1)) (snd (fst out1)) (snd out1) in
  buffer (xfer_at (fst (fst out2)) (ep_ch_num e1))
    = buffer x + byte_count e1 + byte_count e2 /\
  snd out2 = write_bytes ram (buffer x) (take n (rx_fifo r)) /\
  rx_fifo (snd (fst out2)) = drop n (rx_fifo r) /\
  grxstsp (snd (fst out2)) = q.
Proof.
  intros Hq Hs1 Hs2 Hch Hlen Hn1 Hn2 n x out1 out2.
  destruct (handle_rxflvl_irq_data d r ram e1 (e2 :: q) Hq Hs1) as [t1 H1].
  subst out2 out1. rewrite H1. cbn [fst snd].
  match goal with
  | |- context [handle_rxflvl_irq ?d1 ?r1 ?ram1] =>
      destruct (handle_rxflvl_irq_data d1 r1 ram1 e2 q eq_refl Hs2) as [t2 H2];
      rewrite H2
  end.
  cbn [fst snd rx_fifo grxstsp set_rx]. rewrite Hch.
  rewrite xfer_at_set_xfer_eq
    by (cbn [xfer set_xfer]; rewrite length_insert; exact Hlen).
  rewrite xfer_at_set_xfer_eq by exact Hlen.
  cbn [buffer]. fold x. split; [reflexivity|].
  assert (Hn : n = (Z.to_nat (byte_count e1) + Z.to_nat (byte_count e2))%nat)
    by (unfold n; lia).
  split; [|split; [rewrite drop_drop, Hn; reflexivity | reflexivity]].
  rewrite Hn, <- take_take_drop, write_bytes_app.
  destruct (decide (Z.to_nat (byte_count e1) <= length (rx_fifo r))%nat) as [Hle|Hgt].
  - rewrite length_take, Nat.min_l by exact Hle.
    rewrite Z2Nat.id by exact Hn1. reflexivity.
  - rewrite (drop_ge (rx_fifo r)) by lia. rewrite take_nil. reflexivity.
Qed.

Lemma tx_bytes_of_app ch_id a b :
  tx_bytes_of ch_id (a ++ b) = tx_bytes_of ch_id a + tx_bytes_of ch_id b.
Proof.
  induction a as [|w a IH]; simpl; [reflexivity|].
  fold (tx_bytes_of ch_id (a ++ b)). fold (tx_bytes_of ch_id a).
  rewrite IH. destruct (bool_decide (tx_ch_id w = ch_id)); lia.
Qed.

Lemma tx_frame_refl s : tx_frame s s.
Proof.
  split; [reflexivity|]. split; [reflexivity|]. exists []. split.
  - symmetry. apply app_nil_r.
  - intros ch. repeat (split; [reflexivity|]). intros _. simpl. lia.
Qed.

Lemma tx_frame_trans a b c : tx_frame a b -> tx_frame b c -> tx_frame a c.
Proof.
  intros (He1 & Hl1 & n1 & Hw1 & H1) (He2 & Hl2 & n2 & Hw2 & H2).
  split; [congruence|]. split; [congruence|]. exists (n1 ++ n2). split.
  - rewrite Hw2, Hw1. symmetry. apply app_assoc.
  - intros ch. destruct (H1 ch) as (S1 & E1 & T1 & B1).
    destruct (H2 ch) as (S2 & E2 & T2 & B2).
    split; [congruence|]. split; [congruence|]. split; [congruence|].
    intros Hch. rewrite tx_bytes_of_app, B2, B1 by (rewrite ?Hl1; exact Hch). lia.
Qed.

Lemma xfer_at_set_xfer_ge d i x :
  ~ (i < length (xfer d))%nat -> xfer_at (set_xfer d i x) i = xfer_at d i.
Proof.
  intros H. unfold xfer_at, set_xfer. simpl.
  rewrite list_insert_ge by lia. reflexivity.
Qed.

Lemma txfifo_packet_frame is_periodic ch_id hcchar_bm i s :
  tx_frame s (flow_out (txfifo_packet is_periodic ch_id hcchar_bm i s)).
Proof.
  destruct s as [[d r] written]. unfold txfifo_packet.
  destruct (_ && _); [apply tx_frame_refl|]. cbn [flow_out].
  set (n := Z.min _ _). set (x := xfer_at d ch_id).
  split; [reflexivity|]. split; [apply length_insert|].
  eexists. split; [reflexivity|]. intros ch. cbn [fst snd].
  unfold tx_bytes_of. cbn [foldr tx_ch_id tx_bytes].
  destruct (decide (ch = ch_id)) as [->|Hne].
  - destruct (decide (ch_id < length (xfer d))%nat) as [Hlt|Hge].
    + rewrite xfer_at_set_xfer_eq by exact Hlt.
      cbn [state err_count total_bytes buffer].
      repeat (split; [reflexivity|]). intros _.
      rewrite bool_decide_eq_true_2 by reflexivity. subst x. lia.
    + rewrite xfer_at_set_xfer_ge by exact Hge.
      repeat (split; [reflexivity|]). intros Hch. contradiction.
  - rewrite xfer_at_set_xfer_ne by congruence.
    repeat (split; [reflexivity|]). intros _.
    rewrite bool_decide_eq_false_2 by congruence. lia.
Qed.

Lemma txfifo_channel_frame is_periodic ch_id s :
  tx_frame s (flow_out (txfifo_channel is_periodic ch_id s)).
Proof.
  destruct s as [[d r] written]. unfold txfifo_channel.
  destruct (bool_decide _); [|apply tx_frame_refl].
  destruct (ep_dir _); [|apply tx_frame_refl].
  apply (for_loop_preserves tx_frame); auto using tx_frame_refl.
  - apply tx_frame_trans.
  - intros j a. apply txfifo_packet_frame.
Qed.

(** [handle_txfifo_empty] writes nothing of the driver data but the buffer
    cursors: the endpoint table and the state, error counter and byte
    counter of every channel are as before, and the cursor of each channel
    has advanced by exactly the bytes pushed into the FIFO for it,
    whatever the core does with the packets. *)
Theorem handle_txfifo_empty_frame is_periodic d r :
  let out := handle_txfifo_empty is_periodic d r in
  let d' := fst (fst (snd out)) in
  let written := snd (snd out) in
  edpt d' = edpt d /\
  forall ch_id,
    state (xfer_at d' ch_id) = state (xfer_at d ch_id) /\
    err_count (xfer_at d' ch_id) = err_count (xfer_at d ch_id) /\
    total_bytes (xfer_at d' ch_id) = total_bytes (xfer_at d ch_id) /\
    ((ch_id < length (xfer d))%nat ->
     buffer (xfer_at d' ch_id) = buffer (xfer_at d ch_id) + tx_bytes_of ch_id written).
Proof.
  intros out d' written.
  assert (H : tx_frame (d, r, [])
                (flow_out (for_loop (txfifo_channel is_periodic) 0
                             (DWC2_CHANNEL_COUNT r) (d, r, [])))).
  { apply (for_loop_preserves tx_frame); auto using tx_frame_refl.
    - apply tx_frame_trans.
    - intros j a. apply txfifo_channel_frame. }
  subst d' written out. unfold handle_txfifo_empty.
  destruct (for_loop (txfifo_channel is_periodic) 0 (DWC2_CHANNEL_COUNT r)
              (d, r, [])) as [s|s]; cbn [flow_out fst snd] in *;
    destruct H as (He & _ & new & Hw & Hall); cbn [fst snd] in *;
    (split; [exact He|]); intros ch; rewrite Hw; apply Hall.
Qed.

(** With no channel that is active, in the OUT direction and with packets
    left, [handle_txfifo_empty] returns false and writes nothing. *)
Lemma handle_txfifo_empty_idle is_periodic d r :
  (forall ch_id, (ch_id < DWC2_CHANNEL_COUNT r)%nat ->
     state (xfer_at d ch_id) <> HCD_XFER_STATE_ACTIVE \/
     ep_dir (hcchar (channel_at r ch_id)) = TUSB_DIR_IN \/
     packet_count (hctsiz (channel_at r ch_id)) <= 0) ->
  handle_txfifo_empty is_periodic d r = (false, (d, r, [])).
Proof.
  intros Hidle. unfold handle_txfifo_empty.
  rewrite (for_loop_skip (fun s => s = (d, r, [])) (txfifo_channel is_periodic));
    [reflexivity | reflexivity |].
  intros j b Hj ->. unfold txfifo_channel.
  destruct (Hidle j ltac:(lia)) as [Hs|[Hd|Hp]].
  - rewrite bool_decide_eq_false_2 by exact Hs. reflexivity.
  - rewrite Hd. destruct (bool_decide _); reflexivity.
  - destruct (bool_decide _); [|reflexivity].
    destruct (ep_dir _); [|reflexivity].
    replace (Z.to_nat _) with 0%nat by lia. reflexivity.
Qed.

(** ** The host port *)

Lemma elem_of_HPRT_W1C_MASK f :
  f ∈ HPRT_W1C_MASK <->
  f = HPRT_CONN_DETECT \/ f = HPRT_ENABLE \/ f = HPRT_ENABLE_CHANGE \/
  f = HPRT_OVER_CURRENT_CHANGE.
Proof.
  unfold HPRT_W1C_MASK. rewrite !elem_of_union, !elem_of_singleton. tauto.
Qed.

(** [handle_hprt_irq] raises a device-attach event when a connection is
    detected and the port reports a device, a device-remove event when a
    connection change is detected and it reports none, and no event when no
    connection change is flagged. *)
Theorem handle_hprt_irq_events in_isr p :
  let flags := hprt_flags (hprt p) in
  let evs := snd (handle_hprt_irq in_isr p) in
  (HPRT_CONN_DETECT ∉ flags -> evs = []) /\
  (HPRT_CONN_DETECT ∈ flags -> HPRT_CONN_STATUS ∈ flags ->
   evs = [HCD_EVENT_DEVICE_ATTACH in_isr]) /\
  (HPRT_CONN_DETECT ∈ flags -> HPRT_CONN_STATUS ∉ flags ->
   evs = [HCD_EVENT_DEVICE_REMOVE in_isr]).
Proof.
  intros flags evs. subst evs. unfold handle_hprt_irq. fold flags.
  destruct (bool_decide (HPRT_ENABLE_CHANGE ∈ flags));
    destruct (bool_decide (HPRT_CONN_DETECT ∈ flags)) eqn:Hcd;
    destruct (bool_decide (HPRT_CONN_STATUS ∈ flags)) eqn:Hcs;
    cbn [snd];
    try apply bool_decide_eq_true_1 in Hcd; try apply bool_decide_eq_false_1 in Hcd;
    try apply bool_decide_eq_true_1 in Hcs; try apply bool_decide_eq_false_1 in Hcs;
    repeat split; intros; first [reflexivity | contradiction].
Qed.

(** The word [handle_hprt_irq] writes back to HPRT holds every flag that
    is not write-1-to-clear as it was read, and of the write-1-to-clear
    flags only the connect-detect and enable-change flags that were set:
    the write acknowledges what the handler served, never clears the port
    enable flag (which would disable the port) and never acknowledges an
    over-current change. *)
Theorem handle_hprt_irq_written in_isr p :
  let flags := hprt_flags (hprt p) in
  let w := fst (fst (handle_hprt_irq in_isr p)) in
  (forall f, f ∈ hprt_flags w <->
     f ∈ flags /\
     (f ∉ HPRT_W1C_MASK \/ f = HPRT_CONN_DETECT \/ f = HPRT_ENABLE_CHANGE)) /\
  (HPRT_ENABLE ∉ hprt_flags w) /\
  (HPRT_OVER_CURRENT_CHANGE ∉ hprt_flags w) /\
  hprt_speed w = hprt_speed (hprt p).
Proof.
  intros flags w.
  assert (Hiff : forall f, f ∈ hprt_flags w <->
            f ∈ flags /\
            (f ∉ HPRT_W1C_MASK \/ f = HPRT_CONN_DETECT \/ f = HPRT_ENABLE_CHANGE)).
  { intros f. subst w. unfold handle_hprt_irq. fold flags.
    destruct (bool_decide (HPRT_CONN_DETECT ∈ flags)) eqn:Hcd;
      destruct (bool_decide (HPRT_ENABLE_CHANGE ∈ flags)) eqn:Hec;
      cbn [fst snd hprt_flags];
      try apply bool_decide_eq_true_1 in Hcd; try apply bool_decide_eq_false_1 in Hcd;
      try apply bool_decide_eq_true_1 in Hec; try apply bool_decide_eq_false_1 in Hec;
      rewrite ?elem_of_union, elem_of_difference, ?elem_of_singleton,
        elem_of_HPRT_W1C_MASK;
      split; intros H; intuition (subst; try congruence; try tauto). }
  split; [exact Hiff|]. split; [|split].
  - rewrite Hiff, elem_of_HPRT_W1C_MASK. intros [_ [H|[H|H]]];
      [apply H; tauto | discriminate | discriminate].
  - rewrite Hiff, elem_of_HPRT_W1C_MASK. intros [_ [H|[H|H]]];
      [apply H; tauto | discriminate | discriminate].
  - subst w. unfold handle_hprt_irq.
    destruct (bool_decide _); destruct (bool_decide _); reflexivity.
Qed.

(** The frame interval.  On an enable change with the port enabled,
    [handle_hprt_irq] sets the frame interval to 125 PHY clocks per MHz for
    a high-speed port and 1000 otherwise, with a PHY clock of 48 MHz for a
    dedicated full-speed PHY, 30 MHz for a 16-bit UTMI+ PHY and 60 MHz
    otherwise; the value fits the 16-bit field; and the clock selection of
    HCFG follows the PHY.  In every other case HCFG and HFIR are not
    written. *)
Theorem handle_hprt_irq_frame_interval in_isr p :
  let flags := hprt_flags (hprt p) in
  let p' := snd (fst (handle_hprt_irq in_isr p)) in
  (HPRT_ENABLE_CHANGE ∈ flags -> HPRT_ENABLE ∈ flags ->
   exists clock,
     (clock = if gusbcfg_phy_sel p then 48
              else if gusbcfg_ulpi_utmi_sel p then 60
              else if gusbcfg_phy_if16 p then 30 else 60) /\
     hfir_frivl p' =
       (if bool_decide (hprt_speed (hprt p) = HPRT_SPEED_HIGH)
        then 125 * clock else 1000 * clock) /\
     0 < hfir_frivl p' < 2 ^ 16 /\
     hcfg_fsls_phyclk_sel p' =
       (if gusbcfg_phy_sel p then HCFG_FSLS_PHYCLK_SEL_48MHZ
        else HCFG_FSLS_PHYCLK_SEL_30_60MHZ)) /\
  (HPRT_ENABLE_CHANGE ∉ flags \/ HPRT_ENABLE ∉ flags -> p' = p).
Proof.
  intros flags p'. subst p'. unfold handle_hprt_irq. fold flags. split.
  - intros Hec Hen.
    rewrite (bool_decide_eq_true_2 _ Hec), (bool_decide_eq_true_2 _ Hen).
    unfold hprt_phy_clock.
    destruct (bool_decide (HPRT_CONN_DETECT ∈ flags));
      destruct (gusbcfg_phy_sel p); destruct (gusbcfg_ulpi_utmi_sel p);
      destruct (gusbcfg_phy_if16 p); destruct (hprt_speed (hprt p));
      cbn; eexists; (split; [reflexivity|]); (split; [reflexivity|]);
      (split; [split; reflexivity | reflexivity]).
  - intros H.
    destruct (bool_decide (HPRT_CONN_DETECT ∈ flags));
      destruct (bool_decide (HPRT_ENABLE_CHANGE ∈ flags)) eqn:Hec;
      try reflexivity;
      destruct (bool_decide (HPRT_ENABLE ∈ flags)) eqn:Hen; try reflexivity;
      apply bool_decide_eq_true_1 in Hec, Hen; tauto.
Qed.

(** [hcd_port_reset] and [hcd_port_reset_end] write HPRT with the reset
    flag set, respectively cleared, with no write-1-to-clear flag, and with
    every other flag as read: neither can disable the port or acknowledge a
    pending change. *)
Theorem hcd_port_reset_written p f :
  let flags := hprt_flags (hprt p) in
  (f ∈ hprt_flags (hcd_port_reset p) <->
   f = HPRT_RESET \/ (f ∈ flags /\ f ∉ HPRT_W1C_MASK)) /\
  (f ∈ hprt_flags (hcd_port_reset_end p) <->
   f <> HPRT_RESET /\ f ∈ flags /\ f ∉ HPRT_W1C_MASK) /\
  (f ∈ HPRT_W1C_MASK ->
   (f ∉ hprt_flags (hcd_port_reset p)) /\
   (f ∉ hprt_flags (hcd_port_reset_end p))).
Proof.
  intros flags. unfold hcd_port_reset, hcd_port_reset_end. cbn [hprt_flags].
  fold flags.
  rewrite elem_of_union, !elem_of_difference, !elem_of_singleton.
  clearbody flags. unfold not.
  split; [intuition idtac|]. split; [intuition idtac|]. intros Hw.
  split; [|intuition idtac].
  intros [H|H]; [intuition idtac|]. subst f.
  apply elem_of_HPRT_W1C_MASK in Hw. intuition discriminate.
Qed.

(** ** The FIFO layout *)


(** ** The interrupt dispatcher *)

Lemma rxflvl_loop_frame fuel : forall d r ram,
  let out := rxflvl_loop fuel d r ram in
  let d' := fst (fst out) in
  let r' := snd (fst out) in
  edpt d' = edpt d /\ channel r' = channel r /\
  haintmsk r' = haintmsk r /\ gintmsk r' = gintmsk r /\
  (forall ch_id,
     state (xfer_at d' ch_id) = state (xfer_at d ch_id) /\
     err_count (xfer_at d' ch_id) = err_count (xfer_at d ch_id)).
Proof.
  induction fuel as [|fuel IH]; intros d r ram; cbv zeta; cbn [rxflvl_loop].
  { cbn [fst snd]. do 4 (split; [reflexivity|]). intros ch; split; reflexivity. }
  pose proof (handle_rxflvl_irq_pop d r ram) as H. cbn zeta in H.
  destruct (handle_rxflvl_irq d r ram) as [[d1 r1] ram1]. cbn [fst snd] in H.
  destruct H as (_ & He & Hc & Hh & Hg & Hx & _).
  destruct (grxstsp r1) as [|e q].
  { cbn [fst snd]. do 4 (split; [assumption|]). exact Hx. }
  specialize (IH d1 r1 ram1). cbn zeta in IH.
  destruct IH as (He' & Hc' & Hh' & Hg' & Hx').
  split; [congruence|]. split; [congruence|]. split; [congruence|].
  split; [congruence|]. intros ch.
  destruct (Hx ch) as [Ha Hb]. destruct (Hx' ch) as [Ha' Hb'].
  split; congruence.
Qed.

Lemma rxflvl_loop_drains fuel : forall d r ram,
  (length (grxstsp r) <= fuel)%nat ->
  grxstsp (snd (fst (rxflvl_loop (S fuel) d r ram))) = [].
Proof.
  induction fuel as [|fuel IH]; intros d r ram Hlen; cbn [rxflvl_loop];
    pose proof (handle_rxflvl_irq_pop d r ram) as H; cbn zeta in H;
    destruct (handle_rxflvl_irq d r ram) as [[d1 r1] ram1]; cbn [fst snd] in H;
    destruct H as (Hq & _);
    destruct (grxstsp r1) as [|e q] eqn:Hq1; cbn [fst snd]; try exact Hq1.
  - destruct (grxstsp r) as [|e0 q0]; simpl in Hlen, Hq; [discriminate | lia].
  - apply (IH d1 r1 ram1). rewrite Hq1.
    destruct (grxstsp r) as [|e0 q0]; simpl in Hlen, Hq; [discriminate|].
    rewrite <- Hq in Hlen. simpl in Hlen |- *. lia.
Qed.

(** With none of the connector, port, channel, non-periodic FIFO-empty and
    receive-FIFO interrupts both raised and unmasked, [hcd_int_handler]
    does nothing at all.  The periodic FIFO-empty and OTG interrupts are
    not among them: the handler never serves them, whatever the mask. *)
Theorem hcd_int_handler_nothing_pending in_isr gintsts d r p ram :
  (forall f, f ∈ gintsts -> f ∈ gintmsk r ->
     f = GINTSTS_PTX_FIFO_EMPTY \/ f = GINTSTS_OTGINT) ->
  hcd_int_handler in_isr gintsts d r p ram =
  {| int_data := d; int_regs := r; int_port := p; int_ram := ram;
     int_gintsts_written := ∅; int_hprt_written := None;
     int_port_events := []; int_events := []; int_tx_written := [] |}.
Proof.
  intros Hnone.
  assert (Hn : forall f, f <> GINTSTS_PTX_FIFO_EMPTY -> f <> GINTSTS_OTGINT ->
            bool_decide (f ∈ gintsts ∩ gintmsk r) = false).
  { intros f H1 H2. apply bool_decide_eq_false_2. rewrite elem_of_intersection.
    intros [Ha Hb]. destruct (Hnone f Ha Hb); contradiction. }
  unfold hcd_int_handler. rewrite !Hn by discriminate. reflexivity.
Qed.

(** When the non-periodic FIFO-empty interrupt is the only one served and
    no channel has an active OUT transfer with packets left,
    [hcd_int_handler] masks that interrupt and changes nothing else: with
    nothing to send the interrupt does not fire again. *)
Theorem hcd_int_handler_nptx_idle in_isr gintsts d r p ram :
  GINTSTS_NPTX_FIFO_EMPTY ∈ gintsts -> GINTSTS_NPTX_FIFO_EMPTY ∈ gintmsk r ->
  (forall f, f ∈ gintsts -> f ∈ gintmsk r ->
     f = GINTSTS_NPTX_FIFO_EMPTY \/ f = GINTSTS_PTX_FIFO_EMPTY \/
     f = GINTSTS_OTGINT) ->
  (forall ch_id, (ch_id < DWC2_CHANNEL_COUNT r)%nat ->
     state (xfer_at d ch_id) <> HCD_XFER_STATE_ACTIVE \/
     ep_dir (hcchar (channel_at r ch_id)) = TUSB_DIR_IN \/
     packet_count (hctsiz (channel_at r ch_id)) <= 0) ->
  let res := hcd_int_handler in_isr gintsts d r p ram in
  (GINTSTS_NPTX_FIFO_EMPTY ∉ gintmsk (int_regs res)) /\
  (forall f, f <> GINTSTS_NPTX_FIFO_EMPTY ->
     f ∈ gintmsk (int_regs res) <-> f ∈ gintmsk r) /\
  int_regs res = set_gintmsk r (gintmsk r ∖ {[GINTSTS_NPTX_FIFO_EMPTY]}) /\
  int_data res = d /\ int_port res = p /\ int_ram res = ram /\
  int_tx_written res = [] /\ int_events res = [] /\
  int_port_events res = [] /\ int_hprt_written res = None.
Proof.
  intros Hs Hm Honly Hidle res. subst res.
  assert (Hn : forall f, f <> GINTSTS_NPTX_FIFO_EMPTY ->
            f <> GINTSTS_PTX_FIFO_EMPTY -> f <> GINTSTS_OTGINT ->
            bool_decide (f ∈ gintsts ∩ gintmsk r) = false).
  { intros f H1 H2 H3. apply bool_decide_eq_false_2. rewrite elem_of_intersection.
    intros [Ha Hb]. destruct (Honly f Ha Hb) as [?|[?|?]]; contradiction. }
  unfold hcd_int_handler.
  rewrite (Hn GINTSTS_CONIDSTSCHNG), (Hn GINTSTS_HPRTINT), (Hn GINTSTS_HCINT),
    (Hn GINTSTS_RXFLVL) by discriminate.
  rewrite bool_decide_eq_true_2 by (apply elem_of_intersection; split; assumption).
  rewrite (handle_txfifo_empty_idle false d r Hidle).
  cbv beta iota zeta.
  cbn [int_regs int_data int_port int_ram int_tx_written int_events
       int_port_events int_hprt_written].
  split; [|split]; [| |repeat split].
  - unfold set_gintmsk. cbn [gintmsk].
    rewrite elem_of_difference, elem_of_singleton. tauto.
  - intros f Hf. unfold set_gintmsk. cbn [gintmsk].
    rewrite elem_of_difference, elem_of_singleton. tauto.
Qed.

(** Whenever the receive-FIFO interrupt is raised and unmasked,
    [hcd_int_handler] returns with the receive status queue empty and the
    interrupt unmasked again.  When it is the only interrupt served, the
    pass changes no other mask bit, no channel register, no endpoint and
    no channel's state or error counter, and reports no event. *)
Theorem hcd_int_handler_rxflvl in_isr gintsts d r p ram :
  GINTSTS_RXFLVL ∈ gintsts -> GINTSTS_RXFLVL ∈ gintmsk r ->
  let res := hcd_int_handler in_isr gintsts d r p ram in
  grxstsp (int_regs res) = [] /\
  GINTSTS_RXFLVL ∈ gintmsk (int_regs res) /\
  ((forall f, f ∈ gintsts -> f ∈ gintmsk r ->
      f = GINTSTS_RXFLVL \/ f = GINTSTS_PTX_FIFO_EMPTY \/ f = GINTSTS_OTGINT) ->
   gintmsk (int_regs res) = gintmsk r /\
   haintmsk (int_regs res) = haintmsk r /\
   channel (int_regs res) = channel r /\
   edpt (int_data res) = edpt d /\
   (forall ch_id,
      state (xfer_at (int_data res) ch_id) = state (xfer_at d ch_id) /\
      err_count (xfer_at (int_data res) ch_id) = err_count (xfer_at d ch_id)) /\
   int_port res = p /\ int_events res = [] /\ int_port_events res = [] /\
   int_tx_written res = [] /\ int_hprt_written res = None).
Proof.
  intros Hs Hm res. subst res. unfold hcd_int_handler.
  rewrite (bool_decide_eq_true_2 (GINTSTS_RXFLVL ∈ gintsts ∩ gintmsk r))
    by (apply elem_of_intersection; split; assumption).
  split; [|split].
  - destruct (if bool_decide (GINTSTS_HPRTINT ∈ _) then _ else _) as [[w p1] pe].
    destruct (if bool_decide (GINTSTS_HCINT ∈ _) then _ else _) as [[d1 r1] evs].
    destruct (if bool_decide (GINTSTS_NPTX_FIFO_EMPTY ∈ _) then _ else _)
      as [[d2 r2] wr].
    pose proof (rxflvl_loop_drains
                  (length (grxstsp (set_gintmsk r2 (gintmsk r2 ∖ {[GINTSTS_RXFLVL]}))))
                  d2 (set_gintmsk r2 (gintmsk r2 ∖ {[GINTSTS_RXFLVL]})) ram
                  (Nat.le_refl _)) as Hd.
    destruct (rxflvl_loop _ d2 _ ram) as [[d3 r3] ram3]. cbn [fst snd] in Hd.
    cbn [int_regs]. exact Hd.
  - destruct (if bool_decide (GINTSTS_HPRTINT ∈ _) then _ else _) as [[w p1] pe].
    destruct (if bool_decide (GINTSTS_HCINT ∈ _) then _ else _) as [[d1 r1] evs].
    destruct (if bool_decide (GINTSTS_NPTX_FIFO_EMPTY ∈ _) then _ else _)
      as [[d2 r2] wr].
    destruct (rxflvl_loop _ d2 _ ram) as [[d3 r3] ram3].
    cbn [int_regs]. unfold set_gintmsk. cbn [gintmsk].
    apply elem_of_union_r, elem_of_singleton. reflexivity.
  - intros Honly.
    assert (Hn : forall f, f <> GINTSTS_RXFLVL ->
              f <> GINTSTS_PTX_FIFO_EMPTY -> f <> GINTSTS_OTGINT ->
              bool_decide (f ∈ gintsts ∩ gintmsk r) = false).
    { intros f H1 H2 H3. apply bool_decide_eq_false_2.
      rewrite elem_of_intersection.
      intros [Ha Hb]. destruct (Honly f Ha Hb) as [?|[?|?]]; contradiction. }
    rewrite (Hn GINTSTS_CONIDSTSCHNG), (Hn GINTSTS_HPRTINT), (Hn GINTSTS_HCINT),
      (Hn GINTSTS_NPTX_FIFO_EMPTY) by discriminate.
    cbv beta iota zeta.
    pose proof (rxflvl_loop_frame
                  (S (length (grxstsp (set_gintmsk r (gintmsk r ∖ {[GINTSTS_RXFLVL]})))))
                  d (set_gintmsk r (gintmsk r ∖ {[GINTSTS_RXFLVL]})) ram) as Hf.
    cbn zeta in Hf.
    destruct (rxflvl_loop _ d _ ram) as [[d3 r3] ram3]. cbn [fst snd] in Hf.
    destruct Hf as (He & Hc & Hh & Hg & Hx).
    cbn [int_regs int_data int_port int_ram int_tx_written int_events
         int_port_events int_hprt_written].
    split; [|split; [|split; [|split; [|split; [|repeat split]]]]].
    + unfold set_gintmsk at 1. cbn [gintmsk]. rewrite Hg.
      unfold set_gintmsk. cbn [gintmsk].
      apply set_eq. intros x.
      rewrite elem_of_union, elem_of_difference, elem_of_singleton.
      destruct (decide (x = GINTSTS_RXFLVL)) as [->|Hx']; tauto.
    + unfold set_gintmsk in Hh |- *. cbn [haintmsk] in Hh |- *. exact Hh.
    + unfold set_gintmsk in Hc |- *. cbn [channel] in Hc |- *. exact Hc.
    + exact He.
    + exact Hx.
Qed.

(** C3: what the code does.  Every notification [handle_channel_irq]
    raises carries a transferred byte count of 0.  In particular, when the
    one channel flagged reaches a terminal result, transfer complete or
    stall, the handler raises exactly one notification, Success or
    Stalled, for the device and endpoint of the channel, and its byte
    count is 0 whatever length the driver recorded for the transfer. *)
Theorem handle_channel_irq_reports_zero_bytes in_isr d r evs :
  let out := handle_channel_irq in_isr (d, r, evs) in
  (exists new,
     snd out = evs ++ new /\
     Forall (fun e => ev_xferred_bytes e = 0) new) /\
  (forall ch_id,
     dma_host_enabled r = false ->
     haint r = TU_BIT ch_id ->
     (ch_id < DWC2_CHANNEL_COUNT r)%nat ->
     let c := channel_at r ch_id in
     let flags := hcint c ∩ hcintmsk c in
     let event res :=
       {| ev_dev_addr := dev_addr (hcchar c);
          ev_ep_addr := tu_edpt_addr (ep_num (hcchar c)) (ep_dir (hcchar c));
          ev_xferred_bytes := 0; ev_result := res; ev_in_isr := in_isr |} in
     (HCINT_XFER_COMPLETE ∈ flags ->
      snd out = evs ++ [event XFER_RESULT_SUCCESS]) /\
     (HCINT_XFER_COMPLETE ∉ flags -> HCINT_STALL ∈ flags ->
      snd out = evs ++ [event XFER_RESULT_STALLED])).
Proof.
  intros out. split.
  { subst out. unfold handle_channel_irq.
    exact (for_loop_preserves events_extend (channel_irq in_isr)
             events_extend_refl events_extend_trans (channel_irq_events in_isr)
             (DWC2_CHANNEL_COUNT r) 0%nat (d, r, evs)). }
  intros ch_id Hdma Hh Hch c flags event. subst out event flags c.
  rewrite (handle_channel_irq_single _ _ _ _ _ Hh Hch). split.
  - intros Hc. apply elem_of_intersection in Hc as [Hraw Hmsk].
    rewrite channel_irq_xfer_complete; try assumption;
      [reflexivity | rewrite Hh; apply tu_bit_test_self].
  - intros Hnc Hs. apply elem_of_intersection in Hs as [Hraw Hmsk].
    unfold channel_irq. rewrite Hh, tu_bit_test_self, Hdma.
    unfold channel_irq_dispatch.
    rewrite (hcint_test_false _ _ _ Hnc), (hcint_test_true _ _ _ Hraw Hmsk).
    cbn [flow_out fst snd negb orb bool_decide].
    rewrite (bool_decide_eq_false_2 (XFER_RESULT_STALLED = XFER_RESULT_INVALID))
      by discriminate.
    reflexivity.
Qed.

End Driver.

(** ** Instances at the example inputs *)

(** Device 1 closed while its bulk OUT transfer is in flight on channel 0:
    the slots of the device are cleared and the channel stays active. *)
Lemma hcd_device_close_clears_device_slots_witness :
  let d := snd (fst (ex_out_submitted false)) in
  edpt (hcd_device_close 1 d) !! 2%nat = Some hcd_endpoint_zero /\
  state (xfer_at (hcd_device_close 1 d) 0) = HCD_XFER_STATE_ACTIVE /\
  hcd_device_close 1 (hcd_device_close 1 d) = hcd_device_close 1 d.
Proof.
  intros d.
  destruct (hcd_device_close_clears_device_slots 1 d eq_refl)
    as (Hslot & _ & Hx & Hidem).
  split; [exact (Hslot 2%nat (edpt_at d 2) eq_refl)|]. split; [|exact Hidem].
  unfold xfer_at. rewrite Hx. reflexivity.
Defined.

(** C6, as stated, fails: the same endpoint opened twice takes two slots. *)
Lemma edpt_unique_counterexample :
  ~ edpt_unique
      (run_ops [OpOpen ex_info 1 ex_bulk_in; OpOpen ex_info 1 ex_bulk_in]
         hcd_data_init).
Proof.
  intros H.
  assert (Heq : 0%nat = 1%nat)
    by (eapply (H 0%nat 1%nat); reflexivity).
  discriminate.
Qed.

Lemma edpt_unique_run_ops_witness :
  edpt_unique
    (run_ops [OpOpen ex_info 1 ex_bulk_in; OpClose 1; OpOpen ex_info 1 ex_bulk_in]
       hcd_data_init).
Proof.
  apply edpt_unique_run_ops; [exact edpt_unique_init | reflexivity].
Defined.

Lemma ex_wf : hcd_wf ex_data ex_regs.
Proof. repeat split. Qed.

(** C1 at the failing input: a bulk IN submission while the non-periodic
    request queue has no free entry. *)
Lemma hcd_edpt_xfer_queue_full_keeps_channel_witness :
  let r := with_txsts ex_regs (hptxsts ex_regs)
             {| fifo_available := 256; req_queue_available := 0 |} in
  let out := hcd_edpt_xfer false 1 (tu_edpt_addr 1 TUSB_DIR_IN) 1000 64 ex_data r in
  fst (fst out) = false /\
  state (xfer_at ex_data 0) = HCD_XFER_STATE_UNALLOCATED /\
  state (xfer_at (snd (fst out)) 0) = HCD_XFER_STATE_ACTIVE.
Proof.
  intros r.
  apply (hcd_edpt_xfer_queue_full_keeps_channel false 1
           (tu_edpt_addr 1 TUSB_DIR_IN) 1000 64 ex_data r 1%nat 0%nat
           (set_xfer ex_data 0
              {| state := HCD_XFER_STATE_ACTIVE; err_count := 0; buffer := 0;
                 total_bytes := 0 |})).
  - repeat split.
  - reflexivity.
  - reflexivity.
  - reflexivity.
  - reflexivity.
  - reflexivity.
Defined.

(** C2 at the failing input.  Three transaction errors in a row on the
    channel of an OUT transfer bring the error counter to HCD_XFER_ERROR_MAX;
    the channel-halted signal that follows raises no notification and the
    channel stays active, with the mask the driver left and also with the
    channel-halted flag unmasked. *)
Theorem handle_channel_irq_halted_after_three_errors :
  let '(ok, d0, r0) := ex_out_submitted false in
  let xact_err := ex_channel_irq false {[HCINT_XACT_ERR]} in
  let '(d3, r3, evs3) := xact_err (xact_err (xact_err (d0, r0, []))) in
  let '(d4, r4, evs4) :=
    ex_channel_irq false {[HCINT_CHANNEL_HALTED]} (d3, r3, evs3) in
  let r3u :=
    set_channel r3 0
      (with_hcintmsk (channel_at r3 0)
         (hcintmsk (channel_at r3 0) ∪ {[HCINT_CHANNEL_HALTED]})) in
  let '(d5, r5, evs5) :=
    ex_channel_irq false {[HCINT_CHANNEL_HALTED]} (d3, r3u, evs3) in
  ok = true /\
  err_count (xfer_at d3 0) = HCD_XFER_ERROR_MAX /\
  evs4 = [] /\ state (xfer_at d4 0) = HCD_XFER_STATE_ACTIVE /\
  evs5 = [] /\ state (xfer_at d5 0) = HCD_XFER_STATE_ACTIVE.
Proof. vm_compute. repeat split. Qed.

(** C3 at the failing input: 64 bytes were submitted and recorded for the
    channel, the transfer completes, and the one notification raised
    reports Success with 0 bytes. *)
Lemma handle_channel_irq_reports_zero_bytes_witness :
  let d := snd (fst (ex_out_submitted false)) in
  let r := raise_hcint (snd (ex_out_submitted false)) 0 {[HCINT_XFER_COMPLETE]} in
  let evs := snd (handle_channel_irq false true (d, r, [])) in
  total_bytes (xfer_at d 0) = 64 /\
  map ev_result evs = [XFER_RESULT_SUCCESS] /\
  map ev_xferred_bytes evs = [0] /\
  map ev_xferred_bytes evs <> [total_bytes (xfer_at d 0)].
Proof.
  intros d r evs.
  destruct (handle_channel_irq_reports_zero_bytes false true d r []) as [_ Hone].
  destruct (Hone 0%nat) as [Hdone _].
  - reflexivity.
  - reflexivity.
  - vm_compute. lia.
  - cbv zeta in Hdone. fold evs in Hdone.
    rewrite Hdone by (apply (bool_decide_unpack _); vm_compute; exact I).
    cbn [app map ev_result ev_xferred_bytes].
    split; [reflexivity|]. split; [reflexivity|]. split; [reflexivity|].
    discriminate.
Defined.

(** C4 at the failing input.  One active OUT channel has a 64-byte packet
    to send.  With no free entry in the request queue the handler still
    writes the packet, advances the cursor and returns false, whether the
    FIFO has room or not and whatever the core does with the packet. *)
Theorem handle_txfifo_empty_writes_without_queue_space
    (dfifo_write_packet : dwc2_regs_t -> nat -> Z -> Z -> dwc2_regs_t) :
  let '(ok, d, r) := ex_out_submitted false in
  let queue_full :=
    with_txsts r (hptxsts r)
      {| fifo_available := 256; req_queue_available := 0 |} in
  let both_full :=
    with_txsts r (hptxsts r)
      {| fifo_available := 0; req_queue_available := 0 |} in
  let '(more1, (d1, _, written1)) :=
    handle_txfifo_empty dfifo_write_packet false d queue_full in
  let '(more2, (d2, _, written2)) :=
    handle_txfifo_empty dfifo_write_packet false d both_full in
  ok = true /\
  more1 = false /\
  written1 = [{| tx_ch_id := 0; tx_buffer := 1000; tx_bytes := 64 |}] /\
  buffer (xfer_at d1 0) = 1064 /\
  more2 = false /\
  written2 = [{| tx_ch_id := 0; tx_buffer := 1000; tx_bytes := 64 |}] /\
  buffer (xfer_at d2 0) = 1064.
Proof. vm_compute. repeat split. Qed.

(** C5, as stated, fails: on an endpoint with 64-byte packets and 150 bytes
    requested, a 10-byte packet lowers the byte counter by 150, the
    transfer size of the channel, and not by 64. *)
Lemma handle_rxflvl_irq_packet_size_counterexample :
  let '(ok, d, r) := ex_in_submitted false in
  let '(d', _, _) := handle_rxflvl_irq d (ex_rx_data r 10) ∅ in
  ok = true /\
  ep_size (hcchar (channel_at r 0)) = 64 /\
  total_bytes (xfer_at d 0) = 150 /\
  total_bytes (xfer_at d' 0) = 0 /\
  total_bytes (xfer_at d' 0) <> (150 - 64) mod 2 ^ 16.
Proof. vm_compute. repeat split. discriminate. Qed.

Lemma handle_rxflvl_irq_short_packet_witness :
  let d := snd (fst (ex_in_submitted false)) in
  let r := ex_rx_data (snd (ex_in_submitted false)) 10 in
  let out := handle_rxflvl_irq d r ∅ in
  buffer (xfer_at (fst (fst out)) 0) = 1010 /\
  total_bytes (xfer_at (fst (fst out)) 0) = 0 /\
  snd out !! 1009 = Some Byte.x55 /\
  snd out !! 1010 = None.
Proof.
  intros d r out.
  destruct (handle_rxflvl_irq_short_packet d r ∅
              {| ep_ch_num := 0; byte_count := 10;
                 packet_status := GRXSTS_PKTSTS_RX_DATA |} [])
    as (Hbuf & Htot & _ & _ & _ & _ & Hram & Hout).
  - reflexivity.
  - reflexivity.
  - vm_compute. lia.
  - vm_compute. split; [discriminate | reflexivity].
  - split; [exact Hbuf|]. split; [exact Htot|]. split.
    + apply (Hram 9%nat Byte.x55); [vm_compute; lia | reflexivity].
    + refine (eq_trans (Hout 1010 _) _); [right; vm_compute; discriminate|].
      reflexivity.
Defined.

Lemma hcd_edpt_xfer_advances_toggle_witness :
  next_data_toggle
    (edpt_at (snd (fst (hcd_edpt_xfer false 1 (tu_edpt_addr 2 TUSB_DIR_OUT)
                          1000 150 ex_data ex_regs))) 2) = HCTSIZ_PID_DATA1 /\
  pid (hctsiz (channel_at (snd (hcd_setup_send false 1 2000 ex_data ex_regs)) 0))
    = HCTSIZ_PID_SETUP /\
  next_data_toggle
    (edpt_at (snd (fst (hcd_setup_send false 1 2000 ex_data ex_regs))) 0)
    = HCTSIZ_PID_DATA1.
Proof.
  destruct (hcd_edpt_xfer_advances_toggle false 1 ex_data ex_regs 0%nat
              (set_xfer ex_data 0
                 {| state := HCD_XFER_STATE_ACTIVE; err_count := 0; buffer := 0;
                    total_bytes := 0 |}) ex_wf eq_refl eq_refl) as [Hx Hs].
  destruct (Hx (tu_edpt_addr 2 TUSB_DIR_OUT) 1000 150 2%nat eq_refl)
    as (_ & Hadv & _).
  destruct (Hs 2000 0%nat eq_refl) as (_ & Hpid & Hnext).
  split; [apply Hadv; right; reflexivity|]. split; [|exact Hnext].
  apply Hpid. reflexivity.
Defined.

Lemma hcd_edpt_abort_xfer_without_channel_witness :
  hcd_edpt_abort_xfer 1 (tu_edpt_addr 1 TUSB_DIR_IN) ex_data ex_regs
  = (true, ex_regs).
Proof.
  apply (hcd_edpt_abort_xfer_without_channel 1 (tu_edpt_addr 1 TUSB_DIR_IN)
           ex_data ex_regs 1%nat); reflexivity.
Defined.

(** C9 at the failing input: all 65535 bytes on the bulk OUT endpoint with
    64-byte packets.  The ceiling is 1024, the channel is programmed with a
    packet count of 0, and the PID field reads DATA2 where DATA0 was
    stored. *)
Lemma hcd_edpt_xfer_packet_count_witness :
  let out := hcd_edpt_xfer false 1 (tu_edpt_addr 2 TUSB_DIR_OUT) 1000 65535
               ex_data ex_regs in
  fst (fst out) = true /\
  xfer_packet_count 65535 64 = 1024 /\
  packet_count (hctsiz (channel_at (snd out) 0)) = 0 /\
  next_data_toggle (edpt_at ex_data 2) = HCTSIZ_PID_DATA0 /\
  pid (hctsiz (channel_at (snd out) 0)) = HCTSIZ_PID_DATA2.
Proof.
  intros out.
  destruct (hcd_edpt_xfer_packet_count false 1 (tu_edpt_addr 2 TUSB_DIR_OUT)
              1000 65535 ex_data ex_regs 2%nat 0%nat
              (set_xfer ex_data 0
                 {| state := HCD_XFER_STATE_ACTIVE; err_count := 0; buffer := 0;
                    total_bytes := 0 |}) ex_wf eq_refl eq_refl eq_refl)
    as (_ & _ & Hn & _ & _).
  - split; [discriminate | reflexivity].
  - split; reflexivity.
  - split; [reflexivity|]. split; [reflexivity|]. split; [|split; reflexivity].
    unfold out. rewrite Hn. reflexivity.
Defined.

(** ** The further properties at concrete inputs *)

Lemma hcd_edpt_open_lowest_free_witness :
  let out := hcd_edpt_open ex_info 2 ex_bulk_out ex_data in
  fst out = true /\
  dev_addr (edpt_hcchar (edpt_at (snd out) 3)) = 2 /\
  next_data_toggle (edpt_at (snd out) 3) = HCTSIZ_PID_DATA0 /\
  edpt_at (snd out) 2 = edpt_at ex_data 2.
Proof.
  intros out.
  destruct (hcd_edpt_open_lowest_free ex_info 2 ex_bulk_out ex_data 3%nat)
    as (Hok & _ & Hdev & _ & _ & _ & _ & Htog & Hother & _).
  - reflexivity.
  - unfold CFG_TUH_DWC2_ENDPOINT_MAX. lia.
  - reflexivity.
  - intros j Hj. destruct j as [|[|[|j]]]; [reflexivity | reflexivity | reflexivity | lia].
  - split; [exact Hok|]. split; [exact Hdev|]. split; [exact Htog|].
    apply Hother. lia.
Defined.

Lemma hcd_edpt_open_then_find_witness :
  exists i,
    edpt_find_opened (snd (hcd_edpt_open ex_info 2 ex_bulk_out ex_data)) 2 2
      TUSB_DIR_OUT = Some i.
Proof.
  destruct (hcd_edpt_open_then_find ex_info 2 ex_bulk_out ex_data)
    as (i & Hi & _).
  - reflexivity.
  - reflexivity.
  - exists i. exact Hi.
Defined.

Lemma channel_alloc_lowest_free_witness :
  exists ch_id d',
    channel_alloc ex_regs ex_data = (Some ch_id, d') /\
    (ch_id < DWC2_CHANNEL_COUNT ex_regs)%nat /\
    state (xfer_at d' ch_id) = HCD_XFER_STATE_ACTIVE.
Proof.
  pose proof (channel_alloc_lowest_free ex_regs ex_data eq_refl) as H.
  destruct (channel_alloc ex_regs ex_data) as [[ch_id|] d'] eqn:E.
  - exists ch_id, d'. destruct H as (Hlt & _ & _ & Hx & _).
    split; [reflexivity|]. split; [exact Hlt|]. rewrite Hx. reflexivity.
  - vm_compute in E. discriminate E.
Defined.

Lemma channel_alloc_seq_exhausts_witness :
  fst (channel_alloc_seq 9 ex_regs ex_data)
  = [Some 0; Some 1; Some 2; Some 3; Some 4; Some 5; Some 6; Some 7; None]%nat.
Proof.
  apply (channel_alloc_seq_exhausts ex_regs ex_data).
  - reflexivity.
  - intros j Hj. do 8 (destruct j as [|j]; [reflexivity|]).
    exfalso. vm_compute in Hj. lia.
Defined.

Lemma hcd_edpt_xfer_rejected_unchanged_witness :
  hcd_edpt_xfer false 2 (tu_edpt_addr 1 TUSB_DIR_IN) 1000 64 ex_data ex_regs
  = (false, ex_data, ex_regs).
Proof.
  apply (hcd_edpt_xfer_rejected_unchanged false 2 (tu_edpt_addr 1 TUSB_DIR_IN)
           1000 64 ex_data ex_regs).
  left. reflexivity.
Defined.

Lemma hcd_edpt_xfer_programs_channel_witness :
  let out := ex_out_submitted false in
  enable (hcchar (channel_at (snd out) 0)) = true /\
  dev_addr (hcchar (channel_at (snd out) 0)) = 1 /\
  ep_num (hcchar (channel_at (snd out) 0)) = 2 /\
  total_bytes (xfer_at (snd (fst out)) 0) = 64.
Proof.
  intros out.
  destruct (hcd_edpt_xfer_programs_channel false 1 (tu_edpt_addr 2 TUSB_DIR_OUT)
              1000 64 ex_data ex_regs 2%nat 0%nat
              (snd (channel_alloc ex_regs ex_data)))
    as ((Hen & _ & Hdev & Hnum & _) & _ & Hx & _).
  - exact ex_wf.
  - reflexivity.
  - reflexivity.
  - reflexivity.
  - reflexivity.
  - split; [exact Hen|]. split; [exact Hdev|]. split; [exact Hnum|].
    unfold out, ex_out_submitted. rewrite Hx. reflexivity.
Defined.

Lemma hcd_edpt_xfer_fifo_empty_mask_witness :
  gintmsk (snd (ex_out_submitted false))
  = gintmsk ex_regs ∪ {[GINTSTS_NPTX_FIFO_EMPTY]}.
Proof.
  destruct (hcd_edpt_xfer_fifo_empty_mask false 1 (tu_edpt_addr 2 TUSB_DIR_OUT)
              1000 64 ex_data ex_regs 2%nat 0%nat
              (snd (channel_alloc ex_regs ex_data)))
    as [Hout _].
  - exact ex_wf.
  - reflexivity.
  - reflexivity.
  - reflexivity.
  - destruct Hout as (_ & _ & Hnp); [reflexivity | lia |].
    apply Hnp. right. reflexivity.
Defined.

Lemma hcd_edpt_xfer_then_abort_witness :
  let out := ex_out_submitted false in
  fst (fst out) = true /\
  fst (hcd_edpt_abort_xfer 1 (tu_edpt_addr 2 TUSB_DIR_OUT) (snd (fst out)) (snd out))
  = true.
Proof.
  intros out.
  destruct (hcd_edpt_xfer_then_abort false 1 (tu_edpt_addr 2 TUSB_DIR_OUT)
              1000 64 ex_data ex_regs 2%nat 0%nat
              (snd (channel_alloc ex_regs ex_data)))
    as (Hok & Hab & _).
  - exact ex_wf.
  - reflexivity.
  - reflexivity.
  - reflexivity.
  - vm_compute. discriminate.
  - split; [exact Hok | exact Hab].
Defined.

Lemma hcd_edpt_xfer_twice_alternates_witness :
  let ep := tu_edpt_addr 2 TUSB_DIR_OUT in
  let out1 := hcd_edpt_xfer false 1 ep 1000 64 ex_data ex_regs in
  let out2 := hcd_edpt_xfer false 1 ep 2000 64 (snd (fst out1)) (snd out1) in
  pid (hctsiz (channel_at (snd out1) 0)) = HCTSIZ_PID_DATA0 /\
  pid (hctsiz (channel_at (snd out2) 1)) <> pid (hctsiz (channel_at (snd out1) 0)) /\
  next_data_toggle (edpt_at (snd (fst out2)) 2) = HCTSIZ_PID_DATA0.
Proof.
  intros ep out1 out2.
  destruct (hcd_edpt_xfer_twice_alternates false 1 ep 1000 64 2000 64
              ex_data ex_regs 2%nat 0%nat 1%nat
              (snd (channel_alloc ex_regs ex_data))
              (snd (channel_alloc (snd out1) (snd (fst out1)))))
    as (_ & Hp1 & Hp2 & Hnext).
  - exact ex_wf.
  - reflexivity.
  - reflexivity.
  - reflexivity.
  - vm_compute. discriminate.
  - left. reflexivity.
  - split; [discriminate | reflexivity].
  - split; [discriminate | reflexivity].
  - reflexivity.
  - reflexivity.
  - reflexivity.
  - split; [exact Hp1|]. split; [exact Hp2 | exact Hnext].
Defined.

Lemma handle_channel_irq_xfer_complete_witness :
  let d := snd (fst (ex_out_submitted false)) in
  let r := raise_hcint (snd (ex_out_submitted false)) 0 {[HCINT_XFER_COMPLETE]} in
  let out := handle_channel_irq false true (d, r, []) in
  map ev_result (snd out) = [XFER_RESULT_SUCCESS] /\
  state (xfer_at (fst (fst out)) 0) = HCD_XFER_STATE_UNALLOCATED /\
  tu_bit_test (haintmsk (snd (fst out))) 0 = false.
Proof.
  intros d r out.
  destruct (handle_channel_irq_xfer_complete false true d r [] 0%nat)
    as (Hev & Hst & Hm & _).
  - repeat split.
  - reflexivity.
  - reflexivity.
  - vm_compute. lia.
  - apply (bool_decide_unpack _). vm_compute. exact I.
  - apply (bool_decide_unpack _). vm_compute. exact I.
  - split; [|split; [exact Hst | exact Hm]].
    unfold out. rewrite Hev. reflexivity.
Defined.

Lemma handle_channel_irq_stall_witness :
  let d := snd (fst (ex_out_submitted false)) in
  let r := raise_hcint (snd (ex_out_submitted false)) 0 {[HCINT_STALL]} in
  let out := handle_channel_irq false true (d, r, []) in
  map ev_result (snd out) = [XFER_RESULT_STALLED] /\
  state (xfer_at (fst (fst out)) 0) = HCD_XFER_STATE_ACTIVE /\
  disable (hcchar (channel_at (snd (fst out)) 0)) = true.
Proof.
  intros d r out.
  destruct (handle_channel_irq_stall false true d r [] 0%nat)
    as (Hev & Hd & Hdis & _).
  - repeat split.
  - reflexivity.
  - reflexivity.
  - vm_compute. lia.
  - apply (bool_decide_unpack _). vm_compute. exact I.
  - apply (bool_decide_unpack _). vm_compute. exact I.
  - apply (bool_decide_unpack _). vm_compute. exact I.
  - split; [|split; [|exact Hdis]].
    + unfold out. rewrite Hev. reflexivity.
    + unfold out. rewrite Hd. reflexivity.
Defined.

Lemma handle_channel_irq_nak_in_witness :
  let d := snd (fst (ex_in_submitted false)) in
  let r := raise_hcint (snd (ex_in_submitted false)) 0 {[HCINT_NAK]} in
  let out := handle_channel_irq false true (d, r, []) in
  snd out = [] /\
  enable (hcchar (channel_at (snd (fst out)) 0)) = true /\
  state (xfer_at (fst (fst out)) 0) = HCD_XFER_STATE_ACTIVE.
Proof.
  intros d r out.
  destruct (handle_channel_irq_nak_in false true d r [] 0%nat)
    as [Hroom _].
  - repeat split.
  - reflexivity.
  - reflexivity.
  - vm_compute. lia.
  - reflexivity.
  - apply (bool_decide_unpack _). vm_compute. exact I.
  - apply (bool_decide_unpack _). vm_compute. exact I.
  - apply (bool_decide_unpack _). vm_compute. exact I.
  - apply (bool_decide_unpack _). vm_compute. exact I.
  - apply (bool_decide_unpack _). vm_compute. exact I.
  - destruct Hroom as (Hev & Hen & _ & Hst & _); [vm_compute; discriminate|].
    split; [exact Hev|]. split; [exact Hen|].
    unfold out. rewrite Hst. reflexivity.
Defined.

Lemma handle_channel_irq_error_counter_witness :
  let d := snd (fst (ex_out_submitted false)) in
  let r := raise_hcint (snd (ex_out_submitted false)) 0 {[HCINT_XACT_ERR]} in
  let out := handle_channel_irq false true (d, r, []) in
  err_count (xfer_at (fst (fst out)) 0) = 1 /\
  HCINT_ACK ∈ hcintmsk (channel_at (snd (fst out)) 0) /\
  snd out = [].
Proof.
  intros d r out.
  destruct (handle_channel_irq_error_counter false true d r [] 0%nat)
    as [Herr _].
  - repeat split.
  - reflexivity.
  - reflexivity.
  - vm_compute. lia.
  - apply (bool_decide_unpack _). vm_compute. exact I.
  - apply (bool_decide_unpack _). vm_compute. exact I.
  - apply (bool_decide_unpack _). vm_compute. exact I.
  - destruct Herr as (Hc & Hm & _ & Hev).
    + apply (bool_decide_unpack _). vm_compute. exact I.
    + apply (bool_decide_unpack _). vm_compute. exact I.
    + split; [|split; [|exact Hev]].
      * unfold out. rewrite Hc. reflexivity.
      * unfold out. rewrite Hm. apply elem_of_union_r, elem_of_singleton.
        reflexivity.
Defined.

Lemma handle_rxflvl_irq_twice_witness :
  let e n := {| ep_ch_num := 0; byte_count := n;
                packet_status := GRXSTS_PKTSTS_RX_DATA |} in
  let d := snd (fst (ex_in_submitted false)) in
  let r := set_rx (snd (ex_in_submitted false)) [e 10; e 6]
             (replicate 20 Byte.x55) in
  let out1 := handle_rxflvl_irq d r ∅ in
  let out2 := handle_rxflvl_irq (fst (fst out1)) (snd (fst out1)) (snd out1) in
  buffer (xfer_at (fst (fst out2)) 0) = 1016 /\
  length (rx_fifo (snd (fst out2))) = 4%nat /\
  grxstsp (snd (fst out2)) = [].
Proof.
  intros e d r out1 out2.
  destruct (handle_rxflvl_irq_twice d r ∅ (e 10) (e 6) [])
    as (Hbuf & _ & Hfifo & Hq).
  - reflexivity.
  - reflexivity.
  - reflexivity.
  - reflexivity.
  - vm_compute. lia.
  - vm_compute. discriminate.
  - vm_compute. discriminate.
  - split; [exact Hbuf|]. split; [|exact Hq].
    unfold out2, out1. rewrite Hfifo. reflexivity.
Defined.


Lemma hcd_int_handler_nothing_pending_witness :
  let gintsts : gset gint_flag :=
    {[GINTSTS_PTX_FIFO_EMPTY]} ∪ {[GINTSTS_NPTX_FIFO_EMPTY]} in
  let d := snd (fst (ex_out_submitted false)) in
  let r := ex_unmask ex_regs GINTSTS_PTX_FIFO_EMPTY in
  let res := hcd_int_handler false ex_dfifo_write_packet true gintsts d r ex_port ∅ in
  int_data res = d /\ int_regs res = r /\ int_tx_written res = [].
Proof.
  intros gintsts d r res.
  assert (H : res =
    {| int_data := d; int_regs := r; int_port := ex_port; int_ram := ∅;
       int_gintsts_written := ∅; int_hprt_written := None;
       int_port_events := []; int_events := []; int_tx_written := [] |}).
  { apply (hcd_int_handler_nothing_pending false ex_dfifo_write_packet true
             gintsts d r ex_port ∅).
    intros f. destruct f; intros H1 H2;
      first [ left; reflexivity | right; reflexivity
            | exfalso; revert H1; apply (bool_decide_unpack _); vm_compute; exact I
            | exfalso; revert H2; apply (bool_decide_unpack _); vm_compute; exact I ]. }
  rewrite H. repeat split.
Defined.

Lemma hcd_int_handler_nptx_idle_witness :
  let gintsts : gset gint_flag := {[GINTSTS_NPTX_FIFO_EMPTY]} in
  let r := ex_unmask ex_regs GINTSTS_NPTX_FIFO_EMPTY in
  let res := hcd_int_handler false ex_dfifo_write_packet true gintsts ex_data r
               ex_port ∅ in
  (GINTSTS_NPTX_FIFO_EMPTY ∉ gintmsk (int_regs res)) /\
  int_data res = ex_data /\ int_tx_written res = [].
Proof.
  intros gintsts r res.
  destruct (hcd_int_handler_nptx_idle false ex_dfifo_write_packet true gintsts
              ex_data r ex_port ∅)
    as (Hm & _ & _ & Hd & _ & _ & Hw & _).
  - apply (bool_decide_unpack _). vm_compute. exact I.
  - apply (bool_decide_unpack _). vm_compute. exact I.
  - intros f. destruct f; intros H1 H2;
      first [ left; reflexivity | right; left; reflexivity
            | right; right; reflexivity
            | exfalso; revert H1; apply (bool_decide_unpack _); vm_compute; exact I ].
  - intros ch_id Hch. left.
    do 8 (destruct ch_id as [|ch_id]; [vm_compute; discriminate|]).
    exfalso. vm_compute in Hch. lia.
  - split; [exact Hm|]. split; [exact Hd | exact Hw].
Defined.

Lemma hcd_int_handler_rxflvl_witness :
  let gintsts : gset gint_flag := {[GINTSTS_RXFLVL]} in
  let d := snd (fst (ex_in_submitted false)) in
  let r := ex_rx_data (ex_unmask (snd (ex_in_submitted false)) GINTSTS_RXFLVL) 10 in
  let res := hcd_int_handler false ex_dfifo_write_packet true gintsts d r ex_port ∅ in
  grxstsp (int_regs res) = [] /\
  GINTSTS_RXFLVL ∈ gintmsk (int_regs res) /\
  state (xfer_at (int_data res) 0) = HCD_XFER_STATE_ACTIVE.
Proof.
  intros gintsts d r res.
  destruct (hcd_int_handler_rxflvl false ex_dfifo_write_packet true gintsts d r
              ex_port ∅)
    as (Hq & Hm & Hrest).
  - apply (bool_decide_unpack _). vm_compute. exact I.
  - apply (bool_decide_unpack _). vm_compute. exact I.
  - split; [exact Hq|]. split; [exact Hm|].
    destruct Hrest as (_ & _ & _ & _ & Hx & _).
    + intros f. destruct f; intros H1 H2;
        first [ left; reflexivity | right; left; reflexivity
              | right; right; reflexivity
              | exfalso; revert H1; apply (bool_decide_unpack _); vm_compute; exact I ].
    + destruct (Hx 0%nat) as [Hst _]. unfold res. rewrite Hst. reflexivity.
Defined.
